(** * rust-code-analysis-check: the check runner, its report and its annotations

    A shallow embedding of the TypeScript sources of the action:
    - [JS]: the JavaScript values the code handles (what [JSON.parse] returns),
      property access, string conversion, exceptions;
    - [CheckSpaces]: the revision of [check.ts] that renders nested spaces
      ([getFileMetrics], [getSpaceMetrics], [getMetrics]);
    - [CheckAnnotations]: the revision of [check.ts] that extracts annotations
      and pages them through the checks API ([parseJson], [executeCheck],
      [getBucket], [makeAnnotations], ...);
    - [Main]: [run] of [main.ts];
    - [TestHost] and [Examples]: a concrete host (integers for numbers, a
      decoder for a part of JSON, a few clients) and the action run on it.

    The host (the JSON decoder, number formatting, the GitHub client, the
    clock, the environment, the child process) is not code of the action: it
    enters every definition as a section variable. A function whose
    recursion follows decoded data or the state takes a step budget, [fuel];
    the results below give a budget that is enough. *)

From Stdlib Require Import String Ascii List ZArith Lia Bool Arith PeanoNat.
From Stdlib Require Decimal DecimalString DecimalPos DecimalZ.
Import ListNotations.

#[local] Set Warnings "-register-all,-notation-for-abbreviation".
#[local] Open Scope string_scope.
#[local] Open Scope list_scope.

(** String concatenation, as [+] and template literals do it. *)
Infix "^^" := String.append (at level 60, right associativity).

(** The double quote character, for the few texts that hold one. *)
Definition dquote : string := String (ascii_of_nat 34) EmptyString.

(** Decimal rendering of a natural number and of an integer, as JavaScript
    prints integers of that size. *)
Definition nat_to_string (n : nat) : string :=
  DecimalString.NilZero.string_of_uint (Nat.to_uint n).

Definition Z_to_string (z : Z) : string :=
  DecimalString.NilZero.string_of_int (Z.to_int z).

(** Two integers that print the same are the same. *)
Lemma Z_to_string_inj (z z' : Z) : Z_to_string z = Z_to_string z' -> z = z'.
Proof.
  unfold Z_to_string. intros H.
  assert (Hproper : forall x : Z,
             Z.to_int x <> Decimal.Pos Decimal.Nil /\ Z.to_int x <> Decimal.Neg Decimal.Nil).
  { intros [|q|q]; cbn; split; try discriminate;
      intros E; injection E as E; now apply DecimalPos.Unsigned.to_uint_nonnil in E. }
  apply DecimalZ.to_int_inj.
  apply (f_equal DecimalString.NilZero.int_of_string) in H.
  rewrite !DecimalString.NilZero.isi in H by apply Hproper.
  now injection H.
Qed.

Lemma append_length (a b : string) :
  String.length (a ^^ b) = String.length a + String.length b.
Proof. induction a as [|ch a IH]; cbn; [reflexivity|now rewrite IH]. Qed.

Lemma append_inj_r (a b c : string) : a ^^ c = b ^^ c -> a = b.
Proof.
  revert b. induction a as [|ch a IH]; intros b H.
  - destruct b as [|ch' b]; [reflexivity|].
    apply (f_equal String.length) in H. cbn in H. rewrite append_length in H. lia.
  - destruct b as [|ch' b].
    + apply (f_equal String.length) in H. cbn in H. rewrite append_length in H. lia.
    + cbn in H. injection H as -> H. f_equal. auto.
Qed.

(* ================================================================== *)
(** * JavaScript values, exceptions and conversions *)
(* ================================================================== *)

Module JS.

(** What a [throw] carries. [SyntaxError] and [TypeError] are raised by the
    engine, [Error msg] by [new Error(msg)], [Rejected] by a host call. *)
Inductive exn : Type :=
| SyntaxError
| TypeError
| Error (message : string)
| Rejected (reason : string).

(** The result of evaluating an expression or running a statement.
    [OutOfFuel] is not a behaviour of the program: it is the answer of this
    model when the step budget handed to a recursive function was too small. *)
Inductive outcome (A : Type) : Type :=
| Ok (a : A)
| Throw (e : exn)
| OutOfFuel.
Arguments Ok {A} a.
Arguments Throw {A} e.
Arguments OutOfFuel {A}.

Definition obind {A B} (c : outcome A) (k : A -> outcome B) : outcome B :=
  match c with
  | Ok a => k a
  | Throw e => Throw e
  | OutOfFuel => OutOfFuel
  end.

Section Values.
(** IEEE doubles are left abstract. *)
Context {number : Type}.

Inductive value : Type :=
| VUndefined
| VNull
| VBool (b : bool)
| VNum (n : number)
| VStr (s : string)
| VArr (elems : list value)
| VObj (props : list (string * value)).

(** Own property lookup in an object's property list. *)
Fixpoint lookup (k : string) (props : list (string * value)) : option value :=
  match props with
  | [] => None
  | (k', v) :: rest => if String.eqb k k' then Some v else lookup k rest
  end.

(** [Number(n)] for an array or string length. *)
Variable number_of_nat : nat -> number.
(** [String(n)] / [`${n}`] for a number. *)
Variable number_to_string : number -> string.

(** [v.k] for the property names the action reads. None of them lives on a
    prototype, except [length] on arrays and strings. *)
Definition get (v : value) (k : string) : outcome value :=
  match v with
  | VUndefined | VNull => Throw TypeError
  | VObj props =>
      match lookup k props with
      | Some x => Ok x
      | None => Ok VUndefined
      end
  | VArr elems =>
      if String.eqb k "length" then Ok (VNum (number_of_nat (List.length elems)))
      else Ok VUndefined
  | VStr s =>
      if String.eqb k "length" then Ok (VNum (number_of_nat (String.length s)))
      else Ok VUndefined
  | VBool _ | VNum _ => Ok VUndefined
  end.

(** [ToString(v)], the conversion a template literal and [JSON.parse]
    apply. An array joins its elements with commas ([null] and [undefined]
    print as nothing); an object built by [JSON.parse] prints as
    [[object Object]], unless an own [toString] property (never callable in
    such an object) hides the inherited method, which is a [TypeError]. *)
Fixpoint ToString (v : value) : outcome string :=
  match v with
  | VUndefined => Ok "undefined"
  | VNull => Ok "null"
  | VBool true => Ok "true"
  | VBool false => Ok "false"
  | VNum n => Ok (number_to_string n)
  | VStr s => Ok s
  | VArr elems =>
      (fix join (l : list value) : outcome string :=
         match l with
         | [] => Ok ""
         | x :: rest =>
             obind (match x with
                    | VUndefined | VNull => Ok ""
                    | _ => ToString x
                    end)
               (fun sx =>
                  match rest with
                  | [] => Ok sx
                  | _ :: _ => obind (join rest) (fun sr => Ok (sx ^^ "," ^^ sr))
                  end)
         end) elems
  | VObj props =>
      match lookup "toString" props with
      | Some _ => Throw TypeError
      | None => Ok "[object Object]"
      end
  end.

(** The JSON grammar itself: the text decoder behind [JSON.parse]. *)
Variable JSON_parse_text : string -> option value.

(** [JSON.parse(v)]: the argument is converted to a string, then decoded. *)
Definition JSON_parse (v : value) : outcome value :=
  obind (ToString v)
    (fun text =>
       match JSON_parse_text text with
       | Some r => Ok r
       | None => Throw SyntaxError
       end).

(** The characters of a string, as [for ... of] and [Object.assign] see them. *)
Fixpoint chars (s : string) : list value :=
  match s with
  | EmptyString => []
  | String c rest => VStr (String c EmptyString) :: chars rest
  end.

(** The index properties ["0"], ["1"], ... of an array-like. *)
Fixpoint indexed (i : nat) (l : list value) : list (string * value) :=
  match l with
  | [] => []
  | x :: rest => (nat_to_string i, x) :: indexed (S i) rest
  end.

(** [Object.assign({}, v)]: the own enumerable properties of [v], copied
    into a fresh object. *)
Definition Object_assign_empty (v : value) : value :=
  match v with
  | VObj props => VObj props
  | VArr elems => VObj (indexed 0 elems)
  | VStr s => VObj (indexed 0 (chars s))
  | VUndefined | VNull | VBool _ | VNum _ => VObj []
  end.

(** [v > 0] for an arbitrary value, with JavaScript's coercions. *)
Variable js_gt_zero : value -> bool.

(** [v.length > 0]. An array or a string has a natural number for length;
    a number or a boolean has none ([undefined > 0] is false); an object has
    whatever its own [length] property holds. *)
Definition length_gt_zero (v : value) : outcome bool :=
  match v with
  | VUndefined | VNull => Throw TypeError
  | VArr elems => Ok (Nat.ltb 0 (List.length elems))
  | VStr s => Ok (Nat.ltb 0 (String.length s))
  | VBool _ | VNum _ => Ok false
  | VObj props =>
      match lookup "length" props with
      | Some x => Ok (js_gt_zero x)
      | None => Ok false
      end
  end.

(** The sequence [for (const x of v)] walks, when [v] is iterable. *)
Definition iterate (v : value) : outcome (list value) :=
  match v with
  | VArr elems => Ok elems
  | VStr s => Ok (chars s)
  | _ => Throw TypeError
  end.

End Values.

Arguments value : clear implicits.

End JS.

(* ================================================================== *)
(** * The report with nested spaces *)
(* ================================================================== *)

(** The revision of [check.ts] whose [RcaFile] declares
    [spaces: [RcaFile]] and whose report lists the spaces of every file. *)
Module CheckSpaces.

Section Report.
Variable number : Type.
Variable number_to_string : number -> string.

Record Cyclomatic : Type := {
  cyclomatic_sum : number;
  cyclomatic_average : number }.

Record Halstead : Type := {
  halstead_n1 : number;
  halstead_N1 : number;
  halstead_n2 : number;
  halstead_N2 : number;
  halstead_length : number;
  halstead_estimated_program_length : number;
  halstead_purity_ratio : number;
  halstead_vocabulary : number;
  halstead_volume : number;
  halstead_difficulty : number;
  halstead_level : number;
  halstead_effort : number;
  halstead_time : number;
  halstead_bugs : number }.

Record Loc : Type := {
  loc_sloc : number;
  loc_ploc : number;
  loc_lloc : number;
  loc_cloc : number;
  loc_blank : number }.

Record Nom : Type := {
  nom_functions : number;
  nom_closures : number;
  nom_total : number }.

Record Mi : Type := {
  mi_mi_original : number;
  mi_mi_sei : number;
  mi_mi_visual_studio : number }.

Record Metrics : Type := {
  nargs : number;
  nexits : number;
  cognitive : number;
  cyclomatic : Cyclomatic;
  halstead : Halstead;
  loc : Loc;
  nom : Nom;
  mi : Mi }.

(** [interface RcaFile], [spaces: [RcaFile]]. *)
Inductive RcaFile : Type := mkRcaFile {
  name : string;
  start_line : number;
  end_line : number;
  kind : string;
  metrics : Metrics;
  spaces : list RcaFile }.

(** [getMetrics]: the metrics of one file or space, as markdown. *)
Definition getMetrics (metrics : Metrics) : string :=
"<details>
  <summary>Nargs</summary>

  <ul><li>Sum: "
^^ number_to_string (nargs metrics)
^^ "</li></ul>
  </details>
  <details>
  <summary>Nexits</summary>

  <ul><li>Sum: "
^^ number_to_string (nexits metrics)
^^ "</li></ul>
  </details>
  <details>
  <summary>Cognitive</summary>

  <ul><li>Sum: "
^^ number_to_string (cognitive metrics)
^^ "</li></ul>
  </details>
  <details>
  <summary>Cyclomatic</summary>

  <ul>
  <li>Sum: "
^^ number_to_string (cyclomatic_sum (cyclomatic metrics))
^^ "</li>
  <li>Average: "
^^ number_to_string (cyclomatic_average (cyclomatic metrics))
^^ "</li>
  </ul>
  </details>
  <details>
  <summary>Loc</summary>

  <ul>
  <li>Sloc: "
^^ number_to_string (loc_sloc (loc metrics))
^^ "</li>
  <li>Ploc: "
^^ number_to_string (loc_ploc (loc metrics))
^^ "</li>
  <li>Lloc: "
^^ number_to_string (loc_lloc (loc metrics))
^^ "</li>
  <li>Cloc: "
^^ number_to_string (loc_cloc (loc metrics))
^^ "</li>
  <li>Blank: "
^^ number_to_string (loc_blank (loc metrics))
^^ "</li>
  </ul>
  </details>
  <details>
  <summary>Nom</summary>

  <ul>
  <li>Functions: "
^^ number_to_string (nom_functions (nom metrics))
^^ "</li>
  <li>Closures: "
^^ number_to_string (nom_closures (nom metrics))
^^ "</li>
  <li>Total: "
^^ number_to_string (nom_total (nom metrics))
^^ "</li>
  </ul>
  </details>
  <details>
  <summary>Halstead</summary>

  <ul>
  <li>n1: "
^^ number_to_string (halstead_n1 (halstead metrics))
^^ "</li>
  <li>N1: "
^^ number_to_string (halstead_N1 (halstead metrics))
^^ "</li>
  <li>n2: "
^^ number_to_string (halstead_n2 (halstead metrics))
^^ "</li>
  <li>N2: "
^^ number_to_string (halstead_N2 (halstead metrics))
^^ "</li>
  <li>Length: "
^^ number_to_string (halstead_length (halstead metrics))
^^ "</li>
  <li>Estimated program length: "
^^ number_to_string (halstead_estimated_program_length (halstead metrics))
^^ "</li>
  <li>Purity ratio: "
^^ number_to_string (halstead_purity_ratio (halstead metrics))
^^ "</li>
  <li>Vocabulary: "
^^ number_to_string (halstead_vocabulary (halstead metrics))
^^ "</li>
  <li>Volume: "
^^ number_to_string (halstead_volume (halstead metrics))
^^ "</li>
  <li>Difficulty: "
^^ number_to_string (halstead_difficulty (halstead metrics))
^^ "</li>
  <li>Level: "
^^ number_to_string (halstead_level (halstead metrics))
^^ "</li>
  <li>Effort: "
^^ number_to_string (halstead_effort (halstead metrics))
^^ "</li>
  <li>Time: "
^^ number_to_string (halstead_time (halstead metrics))
^^ "</li>
  <li>Bugs: "
^^ number_to_string (halstead_bugs (halstead metrics))
^^ "</li>
  </ul>
  </details>
  <details>
  <summary>Maintainability Index</summary>

  <ul>
  <li>Original: "
^^ number_to_string (mi_mi_original (mi metrics))
^^ "</li>
  <li>Visual studio: "
^^ number_to_string (mi_mi_visual_studio (mi metrics))
^^ "</li>
  <li>Sei: "
^^ number_to_string (mi_mi_sei (mi metrics))
^^ "</li>
  </ul>
  </details>".

(** The body of the [for] loop of [getSpaceMetrics]: the text [s] built for
    one [space]. The call [this.getSpaceMetrics(space.spaces)] is the inner
    loop, started from ['<ul>'] and closed by ['</ul>']. *)
Fixpoint getSpaceMetrics_item (space : RcaFile) : string :=
  let name :=
    if String.eqb (name space) "<anonymous>" then "unnamed space"
    else name space in
  let s := "<li><details>
<summary><b>"
^^ name
^^ "</b></summary>

<ul>
<li>
<details>
<summary><b>Metrics</b></summary>

  "
^^ getMetrics (metrics space)
^^ "
</details></li>
" in
  let s :=
    match space with
    | mkRcaFile _ _ _ _ _ subspaces =>
        if Nat.ltb 0 (List.length subspaces) then
          let s := s ^^ "<li><details>
<summary><b>Spaces</b></summary>

" in
          let s := s ^^
            ((fix loop (l : list RcaFile) (spaces_str : string) : string :=
                match l with
                | [] => spaces_str
                | sub :: rest => loop rest (spaces_str ^^ getSpaceMetrics_item sub)
                end) subspaces "<ul>" ^^ "</ul>") in
          s ^^ "</details></li></ul>
"
        else s
    end in
  s ^^ "</details></li>
".

(** The [for] loop of [getSpaceMetrics], threading [spaces_str]. *)
Fixpoint getSpaceMetrics_loop (l : list RcaFile) (spaces_str : string) : string :=
  match l with
  | [] => spaces_str
  | space :: rest => getSpaceMetrics_loop rest (spaces_str ^^ getSpaceMetrics_item space)
  end.

(** [getSpaceMetrics]: the spaces of a file or of a space, as markdown. *)
Definition getSpaceMetrics (spaces : list RcaFile) : string :=
  let spaces_str := "<ul>" in
  getSpaceMetrics_loop spaces spaces_str ^^ "</ul>".

(** [getFileMetrics]: the block of one file. *)
Definition getFileMetrics (contents : RcaFile) : string :=
  let s := "<details>
<summary><b>"
^^ name contents
^^ "</b></summary>

<ul>
<li>
  <details>
  <summary><b>Global</b></summary>

  "
^^ getMetrics (metrics contents)
^^ "
  </details>
</li>
" in
  let s :=
    if Nat.ltb 0 (List.length (spaces contents)) then
      s ^^ ("<li><details>
<summary><b>Spaces</b></summary>

"
^^ getSpaceMetrics (spaces contents)
^^ "
</details></li>
")
    else s in
  s ^^ "</details></ul>".

(** ** The report as the specification words it

    A block holds the record's own metrics and then, only when the record
    has children, a spaces section with one sub-block per child, in the
    children's order, each rendered the same way. *)

(** The display name of a space: the anonymous marker is replaced. *)
Definition display_name (space : RcaFile) : string :=
  if String.eqb (name space) "<anonymous>" then "unnamed space" else name space.

(** A space's own metrics section, under its heading. *)
Definition space_metrics_section (space : RcaFile) : string :=
  "<li><details>
<summary><b>" ^^ display_name space ^^ "</b></summary>

<ul>
<li>
<details>
<summary><b>Metrics</b></summary>

  " ^^ getMetrics (metrics space) ^^ "
</details></li>
".

(** A file's own metrics section, under its heading. *)
Definition file_metrics_section (contents : RcaFile) : string :=
  "<details>
<summary><b>" ^^ name contents ^^ "</b></summary>

<ul>
<li>
  <details>
  <summary><b>Global</b></summary>

  " ^^ getMetrics (metrics contents) ^^ "
  </details>
</li>
".

(** The sub-blocks of a list of children, one after the other. *)
Definition blocks_text (blocks : list string) : string :=
  fold_right String.append "" blocks.

(** The sub-block of one child. *)
Fixpoint space_block (space : RcaFile) : string :=
  space_metrics_section space ^^
  match space with
  | mkRcaFile _ _ _ _ _ [] => ""
  | mkRcaFile _ _ _ _ _ (c :: cs) =>
      "<li><details>
<summary><b>Spaces</b></summary>

" ^^ "<ul>" ^^ blocks_text (map space_block (c :: cs)) ^^ "</ul>" ^^ "</details></li></ul>
"
  end ^^ "</details></li>
".

(** The spaces section of a file: absent without children. *)
Definition file_spaces_section (children : list RcaFile) : string :=
  match children with
  | [] => ""
  | _ :: _ =>
      "<li><details>
<summary><b>Spaces</b></summary>

" ^^ "<ul>" ^^ blocks_text (map space_block children) ^^ "</ul>" ^^ "
</details></li>
"
  end.

(** ** Properties of the report *)

Lemma append_assoc (a b c : string) : (a ^^ b) ^^ c = a ^^ (b ^^ c).
Proof.
  induction a as [|ch a IH]; [reflexivity|].
  change (String ch ((a ^^ b) ^^ c) = String ch (a ^^ (b ^^ c))).
  now rewrite IH.
Qed.

Lemma append_empty_r (a : string) : a ^^ "" = a.
Proof.
  induction a as [|ch a IH]; [reflexivity|].
  change (String ch (a ^^ "") = String ch a). now rewrite IH.
Qed.

(** Induction on a tree of spaces: the property holds for a record as soon as
    it holds for every child. *)
Lemma RcaFile_tree_ind (P : RcaFile -> Prop) :
  (forall n s e k m children,
      Forall P children -> P (mkRcaFile n s e k m children)) ->
  forall r, P r.
Proof.
  intros step.
  fix IH 1.
  intros [n s e k m children].
  apply step.
  induction children as [|c cs IHcs]; constructor.
  - apply IH.
  - exact IHcs.
Qed.

(** The loop appends to its accumulator the items of the spaces, in order. *)
Lemma getSpaceMetrics_loop_acc (l : list RcaFile) (acc : string) :
  getSpaceMetrics_loop l acc = acc ^^ blocks_text (map getSpaceMetrics_item l).
Proof.
  revert acc. induction l as [|x l IH]; intros acc.
  - cbn [getSpaceMetrics_loop map blocks_text fold_right].
    now rewrite append_empty_r.
  - cbn [getSpaceMetrics_loop map blocks_text fold_right].
    rewrite IH. now rewrite append_assoc.
Qed.

(** The recursive call inside the loop body is [getSpaceMetrics]. *)
Lemma getSpaceMetrics_item_unfold (space : RcaFile) :
  getSpaceMetrics_item space =
  space_metrics_section space ^^
  (match spaces space with
   | [] => ""
   | _ :: _ =>
       "<li><details>
<summary><b>Spaces</b></summary>

" ^^ getSpaceMetrics (spaces space) ^^ "</details></li></ul>
"
   end) ^^ "</details></li>
".
Proof.
  destruct space as [n s e k m [|c cs]].
  - reflexivity.
  - unfold getSpaceMetrics, space_metrics_section, display_name.
    cbn [getSpaceMetrics_item spaces name metrics List.length Nat.ltb Nat.leb].
    fold getSpaceMetrics_loop.
    now rewrite !append_assoc.
Qed.

Lemma getSpaceMetrics_item_is_block (space : RcaFile) :
  getSpaceMetrics_item space = space_block space.
Proof.
  induction space as [n s e k m children IH] using RcaFile_tree_ind.
  rewrite getSpaceMetrics_item_unfold.
  destruct children as [|c cs]; [reflexivity|].
  cbn [spaces space_block].
  unfold getSpaceMetrics. rewrite getSpaceMetrics_loop_acc.
  replace (map getSpaceMetrics_item (c :: cs)) with (map space_block (c :: cs)).
  - now rewrite !append_assoc.
  - symmetry. apply map_ext_in. intros x Hx.
    rewrite Forall_forall in IH. now apply IH.
Qed.

Lemma getSpaceMetrics_blocks (children : list RcaFile) :
  getSpaceMetrics children = "<ul>" ^^ blocks_text (map space_block children) ^^ "</ul>".
Proof.
  unfold getSpaceMetrics. rewrite getSpaceMetrics_loop_acc.
  rewrite (map_ext _ _ getSpaceMetrics_item_is_block).
  now rewrite append_assoc.
Qed.

(** C6. The block [getFileMetrics] renders for a record is the record's own
    metrics section followed, exactly when the record has children, by a
    spaces section; that section holds one sub-block per child, in the
    children's order, none omitted and none repeated, each sub-block being
    the child's own metrics section followed by the spaces section of its own
    children, recursively ([space_block]). A record without children has no
    spaces section: its block is its metrics section and the closing tags. *)
Theorem getFileMetrics_nested_spaces (contents : RcaFile) :
  getFileMetrics contents =
    file_metrics_section contents ^^ file_spaces_section (spaces contents)
      ^^ "</details></ul>"
  /\ (forall children,
        getSpaceMetrics children =
          "<ul>" ^^ blocks_text (map space_block children) ^^ "</ul>"
        /\ List.length (map space_block children) = List.length children
        /\ (forall i child, nth_error children i = Some child ->
              nth_error (map space_block children) i = Some (space_block child)))
  /\ (forall n s e k m,
        getFileMetrics (mkRcaFile n s e k m []) =
          file_metrics_section (mkRcaFile n s e k m []) ^^ "</details></ul>").
Proof.
  split; [|split].
  - unfold getFileMetrics, file_metrics_section, file_spaces_section.
    destruct (spaces contents) as [|c cs] eqn:E.
    + cbn [List.length Nat.ltb Nat.leb]. now rewrite !append_assoc.
    + cbn [List.length Nat.ltb Nat.leb].
      rewrite getSpaceMetrics_blocks. now rewrite !append_assoc.
  - intros children. split; [apply getSpaceMetrics_blocks|split].
    + apply length_map.
    + intros i child H. now apply map_nth_error.
  - intros n s e k m. unfold getFileMetrics, file_metrics_section.
    cbn [spaces List.length Nat.ltb Nat.leb]. now rewrite !append_assoc.
Qed.

End Report.
End CheckSpaces.

(* ================================================================== *)
(** * The check runner with annotations *)
(* ================================================================== *)

(** The revision of [check.ts] that keeps an array of annotations, fills it
    in [parseJson] and pages it through the checks API in [executeCheck]. *)
Module CheckAnnotations.
Import JS.

(** What a promise of the host settles to. *)
Inductive reply (A : Type) : Type :=
| Resolved (a : A)
| Rejects (e : exn).
Arguments Resolved {A} a.
Arguments Rejects {A} e.

Section Runner.
Variable number : Type.
Variable number_of_nat : nat -> number.
Variable number_to_string : number -> string.
Variable JSON_parse_text : string -> option (value number).
Variable js_gt_zero : value number -> bool.

Notation value := (JS.value number).
Notation get := (JS.get number_of_nat).
Notation ToString := (JS.ToString number_to_string).
Notation JSON_parse := (JS.JSON_parse number_to_string JSON_parse_text).
Notation length_gt_zero := (JS.length_gt_zero js_gt_zero).

(** ** Data *)

(** An annotation object, as [addAnnotation] builds it. *)
Record Annotation : Type := {
  path : value;
  start_line : value;
  end_line : value;
  annotation_level : string;
  title : value;
  message : string }.

(** [interface CheckOptions]. *)
Record CheckOptions : Type := {
  token : string;
  name : string;
  owner : string;
  repo : string;
  head_sha : string;
  started_at : string;
  rca_version : string }.

(** The argument of [client.checks.create]. *)
Record CreateParams : Type := {
  create_owner : string;
  create_repo : string;
  create_name : string;
  create_head_sha : string;
  create_status : string }.

(** The [output] member of a request. *)
Record Output : Type := {
  output_title : string;
  output_summary : string;
  output_text : string;
  output_annotations : option (list Annotation) }.

(** The argument of [client.checks.update]: the object [req]. A member the
    code does not set is absent. *)
Record UpdateParams : Type := {
  req_owner : string;
  req_repo : string;
  req_name : string;
  req_check_run_id : number;
  req_status : option string;
  req_conclusion : option string;
  req_completed_at : option string;
  req_output : Output }.

(** A call made to the remote API. *)
Inductive Call : Type :=
| Create (params : CreateParams)
| Update (req : UpdateParams).

(** The client [github.getOctokit] returns. Each call sees the calls made
    before it, so that a reply may depend on them. *)
Record Client : Type := {
  checks_create : list Call -> CreateParams -> reply number;
  checks_update : list Call -> UpdateParams -> reply unit }.

(** A line written through [@actions/core]. *)
Inductive LogEntry : Type :=
| Debug (text : string)
| Info (text : string)
| Warning (text : string)
| ErrorEntry (text : string)
| StartGroup (text : string)
| EndGroup.

(** The fields of a [CheckRunner]. An array is a list, first index first:
    [push] adds at the end and [pop] takes from the end. *)
Record CheckRunner : Type := {
  annotations : list Annotation;
  file_metrics : list string;
  file_jsons : list value }.

(** [new CheckRunner()]. *)
Definition new_CheckRunner : CheckRunner :=
  {| annotations := []; file_metrics := []; file_jsons := [] |}.

(** Everything a run can change or emit. *)
Record World : Type := {
  runner : CheckRunner;
  log : list LogEntry;
  calls : list Call }.

(** ** The host *)

(** [JSON.stringify(v, null, 2)]. *)
Variable JSON_stringify_pretty : value -> string.
(** [`${error}`] for a caught value. *)
Variable exn_to_string : exn -> string.
(** [github.getOctokit(token, { userAgent })]. *)
Variable getOctokit : string -> string -> reply Client.
(** [USER_AGENT], built from [package.json]. *)
Variable USER_AGENT : string.
(** [new Date().toISOString()], read after the given remote calls. *)
Variable now_iso : list Call -> string.
(** [process.env.GITHUB_HEAD_REF]. *)
Variable GITHUB_HEAD_REF : option string.

(** ** Statements: state and exceptions *)

Definition M (A : Type) : Type := World -> outcome A * World.

Definition ret {A} (a : A) : M A := fun w => (Ok a, w).

Definition bind {A B} (c : M A) (k : A -> M B) : M B :=
  fun w =>
    match c w with
    | (Ok a, w') => k a w'
    | (Throw e, w') => (Throw e, w')
    | (OutOfFuel, w') => (OutOfFuel, w')
    end.

Notation "x <- c ;; k" := (bind c (fun x => k))
  (at level 61, c at next level, right associativity).
Notation "c ;; k" := (bind c (fun _ => k))
  (at level 61, right associativity).

(** [throw e]. *)
Definition throw {A} (e : exn) : M A := fun w => (Throw e, w).

(** The model's step budget is spent. *)
Definition out_of_fuel {A} : M A := fun w => (OutOfFuel, w).

(** An expression evaluated inside a statement, and an awaited promise. *)
Definition lift {A} (c : outcome A) : M A := fun w => (c, w).

Definition await {A} (r : reply A) : M A :=
  fun w => match r with Resolved a => (Ok a, w) | Rejects e => (Throw e, w) end.

(** [try { c } catch (error) { h error }]. *)
Definition try_catch {A} (c : M A) (h : exn -> M A) : M A :=
  fun w =>
    match c w with
    | (Throw e, w') => h e w'
    | r => r
    end.

(** A [try] block whose result the code after it uses: the block's value, or
    the error caught. *)
Definition attempt {A} (c : M A) : M (A + exn) :=
  try_catch (a <- c ;; ret (inl a)) (fun e => ret (inr e)).

(** [for (const x of l) { body x }]. *)
Fixpoint for_each {A} (l : list A) (body : A -> M unit) : M unit :=
  match l with
  | [] => ret tt
  | x :: rest => body x ;; for_each rest body
  end.

Definition read {A} (f : World -> A) : M A := fun w => (Ok (f w), w).

Definition set_runner (r : CheckRunner) : M unit :=
  fun w => (Ok tt, {| runner := r; log := log w; calls := calls w |}).

Definition emit (e : LogEntry) : M unit :=
  fun w => (Ok tt, {| runner := runner w; log := log w ++ [e]; calls := calls w |}).

Definition core_debug (text : string) : M unit := emit (Debug text).
Definition core_info (text : string) : M unit := emit (Info text).
Definition core_warning (text : string) : M unit := emit (Warning text).
Definition core_error (text : string) : M unit := emit (ErrorEntry text).

(** [new Date().toISOString()]. *)
Definition Date_now_toISOString : M string := read (fun w => now_iso (calls w)).

(** [await client.checks.create(params)]: the call is recorded, then the
    reply is awaited. *)
Definition client_checks_create (client : Client) (params : CreateParams) : M number :=
  fun w =>
    let w' := {| runner := runner w; log := log w; calls := calls w ++ [Create params] |} in
    await (checks_create client (calls w) params) w'.

(** [await client.checks.update(req)]. *)
Definition client_checks_update (client : Client) (req : UpdateParams) : M unit :=
  fun w =>
    let w' := {| runner := runner w; log := log w; calls := calls w ++ [Update req] |} in
    await (checks_update client (calls w) req) w'.

(** ** Array members of the runner *)

(** [this.annotations.push(a)]. *)
Definition annotations_push (a : Annotation) : M unit :=
  r <- read runner ;;
  set_runner {| annotations := annotations r ++ [a];
                file_metrics := file_metrics r;
                file_jsons := file_jsons r |}.

(** [this.file_metrics.push(text)]. *)
Definition file_metrics_push (text : string) : M unit :=
  r <- read runner ;;
  set_runner {| annotations := annotations r;
                file_metrics := file_metrics r ++ [text];
                file_jsons := file_jsons r |}.

(** [this.file_jsons.push(json)]. *)
Definition file_jsons_push (json : value) : M unit :=
  r <- read runner ;;
  set_runner {| annotations := annotations r;
                file_metrics := file_metrics r;
                file_jsons := file_jsons r ++ [json] |}.

(** [this.annotations.pop()]: the last element, removed, or [undefined]. *)
Definition annotations_pop : M (option Annotation) :=
  r <- read runner ;;
  match rev (annotations r) with
  | [] => ret None
  | a :: _ =>
      set_runner {| annotations := removelast (annotations r);
                    file_metrics := file_metrics r;
                    file_jsons := file_jsons r |} ;;
      ret (Some a)
  end.

(** ** Template literals over decoded values *)

(** A piece of a template literal: text, or [${m.k1.k2}] for the value [m]
    the template is about. *)
Inductive segment : Type :=
| Lit (text : string)
| Sub (keys : list string).

(** [m.k1.k2...]. *)
Fixpoint read_keys (v : value) (keys : list string) : outcome value :=
  match keys with
  | [] => Ok v
  | k :: rest => obind (get v k) (fun x => read_keys x rest)
  end.

(** A template literal is evaluated left to right; every substitution is
    converted with [ToString]. *)
Fixpoint template (segments : list segment) (m : value) : outcome string :=
  match segments with
  | [] => Ok ""
  | Lit text :: rest => obind (template rest m) (fun t => Ok (text ^^ t))
  | Sub keys :: rest =>
      obind (read_keys m keys) (fun x =>
      obind (ToString x) (fun sx =>
      obind (template rest m) (fun t => Ok (sx ^^ t))))
  end.

(** The template literal of [getMetrics]. *)
Definition getMetrics_template : list segment :=
  [ Lit "Nargs: ";
  Sub ["nargs"];
  Lit "

  Nexits: ";
  Sub ["nexits"];
  Lit "

  Cognitive: ";
  Sub ["cognitive"];
  Lit "
  <details>
  <summary>Cyclomatic</summary>

  - Sum: ";
  Sub ["cyclomatic";"sum"];
  Lit "
  - Average: ";
  Sub ["cyclomatic";"average"];
  Lit "
  </details>
  <details>
  <summary>Loc</summary>

  - Sloc: ";
  Sub ["loc";"sloc"];
  Lit "
  - Ploc: ";
  Sub ["loc";"ploc"];
  Lit "
  - Lloc: ";
  Sub ["loc";"lloc"];
  Lit "
  - Cloc: ";
  Sub ["loc";"cloc"];
  Lit "
  - Blank: ";
  Sub ["loc";"blank"];
  Lit "
  </details>
  <details>
  <summary>Nom</summary>

  - Functions: ";
  Sub ["nom";"functions"];
  Lit "
  - Closures: ";
  Sub ["nom";"closures"];
  Lit "
  - Total: ";
  Sub ["nom";"total"];
  Lit "
  </details>
  <details>
  <summary>Halstead</summary>

  - n1: ";
  Sub ["halstead";"n1"];
  Lit "
  - N1: ";
  Sub ["halstead";"N1"];
  Lit "
  - n2: ";
  Sub ["halstead";"n2"];
  Lit "
  - N2: ";
  Sub ["halstead";"N2"];
  Lit "
  - Length: ";
  Sub ["halstead";"length"];
  Lit "
  - Estimated program length: ";
  Sub ["halstead";"estimated_program_length"];
  Lit "
  - Purity ratio: ";
  Sub ["halstead";"purity_ratio"];
  Lit "
  - Vocabulary: ";
  Sub ["halstead";"vocabulary"];
  Lit "
  - Volume: ";
  Sub ["halstead";"volume"];
  Lit "
  - Difficulty: ";
  Sub ["halstead";"difficulty"];
  Lit "
  - Level: ";
  Sub ["halstead";"level"];
  Lit "
  - Effort: ";
  Sub ["halstead";"effort"];
  Lit "
  - Time: ";
  Sub ["halstead";"time"];
  Lit "
  - Bugs: ";
  Sub ["halstead";"bugs"];
  Lit "
  </details>
  <details>
  <summary>Maintainability Index</summary>

  - Original: ";
  Sub ["mi";"mi_original"];
  Lit "
  - Visual studio: ";
  Sub ["mi";"mi_visual_studio"];
  Lit "
  - Sei: ";
  Sub ["mi";"mi_sei"];
  Lit "
  </details>" ].

(** [getMetrics]: metrics formatted as markdown. *)
Definition getMetrics (metrics : value) : outcome string :=
  template getMetrics_template metrics.

(** [getFileMetrics]: file metrics formatted as markdown. *)
Definition getFileMetrics (contents : value) : outcome string :=
  obind (get contents "name") (fun name =>
  obind (ToString name) (fun name_text =>
  obind (get contents "metrics") (fun metrics =>
  obind (getMetrics metrics) (fun metrics_text =>
  Ok ("<details>
<summary><b>"
^^ name_text
^^ "</b></summary>

"
^^ metrics_text
^^ "
</details>"))))).

(** [getAnnotationMetrics]: the real body is commented out in the source. *)
Definition getAnnotationMetrics (_metrics : value) : string := "Hello".

(** [Array.prototype.join] on an array of strings. *)
Fixpoint join (sep : string) (l : list string) : string :=
  match l with
  | [] => ""
  | [x] => x
  | x :: rest => x ^^ sep ^^ join sep rest
  end.

(** [getText]: the text shown in the check. *)
Definition getText (rcaVersion : string) : M string :=
  metrics <- read (fun w => file_metrics (runner w)) ;;
  ret ("## Info
|          Name          |    Version    |
|:----------------------:|:-------------:|
| rust-code-analysis-cli | "
^^ rcaVersion
^^ " |

## Results

"
^^ join "
" metrics).

(** ** Annotations *)

(** [addAnnotation]: save an annotation in memory. *)
Definition addAnnotation (contents : value) : M unit :=
  path_v <- lift (get contents "name") ;;
  start_v <- lift (get contents "start_line") ;;
  end_v <- lift (get contents "end_line") ;;
  title_v <- lift (get contents "name") ;;
  metrics <- lift (get contents "metrics") ;;
  let annotation :=
    {| path := path_v;
       start_line := start_v;
       end_line := end_v;
       annotation_level := "notice";
       title := title_v;
       message := getAnnotationMetrics metrics |} in
  annotations_push annotation.

(** [makeAnnotations]: one annotation per space, then the subspaces. Every
    nested call spends one unit of [fuel]. *)
Fixpoint makeAnnotations (fuel : nat) (contents : value) : M unit :=
  match fuel with
  | 0 => out_of_fuel
  | S fuel' =>
      spaces <- lift (get contents "spaces") ;;
      elems <- lift (iterate spaces) ;;
      for_each elems (fun space =>
        space_obj <- lift (JSON_parse space) ;;
        addAnnotation space_obj ;;
        subspaces <- lift (get space_obj "spaces") ;;
        more <- lift (length_gt_zero subspaces) ;;
        if (more : bool) then makeAnnotations fuel' space_obj else ret tt)
  end.

(** [parseJson]: one line of the output of rust-code-analysis-cli. *)
Definition parseJson (fuel : nat) (file : string) : M unit :=
  parsed <- attempt (lift (JSON_parse (VStr file))) ;;
  match parsed with
  | inr _ => core_debug "Not a JSON, ignoring it"
  | inl contents =>
      file_jsons_push (Object_assign_empty contents) ;;
      text <- lift (getFileMetrics contents) ;;
      file_metrics_push text ;;
      spaces <- lift (get contents "spaces") ;;
      nonempty <- lift (length_gt_zero spaces) ;;
      if (nonempty : bool) then makeAnnotations fuel contents else ret tt
  end.

(** The capacity of a bucket: the checks API takes at most 50 annotations. *)
Definition BUCKET_SIZE : nat := 50.

(** The loop of [getBucket]; [room] is [50 - annotations.length], what the
    loop condition [annotations.length < 50] leaves. *)
Fixpoint getBucket_loop (room : nat) (bucket : list Annotation) : M (list Annotation) :=
  match room with
  | 0 => ret bucket
  | S room' =>
      annotation <- annotations_pop ;;
      match annotation with
      | Some a => getBucket_loop room' (bucket ++ [a])
      | None => ret bucket
      end
  end.

(** [getBucket]: a bucket of at most 50 annotations. *)
Definition getBucket : M (list Annotation) :=
  bucket <- getBucket_loop BUCKET_SIZE [] ;;
  core_debug ("Prepared next annotations bucket, "
              ^^ nat_to_string (List.length bucket) ^^ " size") ;;
  ret bucket.

(** ** The check run *)

(** [createCheck]: create a new check. *)
Definition createCheck (client : Client) (options : CheckOptions) : M number :=
  client_checks_create client
    {| create_owner := owner options;
       create_repo := repo options;
       create_name := name options;
       create_head_sha := head_sha options;
       create_status := "in_progress" |}.

(** [globalMetricsCheck]: the check that displays only global metrics. *)
Definition globalMetricsCheck (client : Client) (checkRunId : number)
    (options : CheckOptions) : M unit :=
  completed_at <- Date_now_toISOString ;;
  text <- getText (rca_version options) ;;
  let req :=
    {| req_owner := owner options;
       req_repo := repo options;
       req_name := name options;
       req_check_run_id := checkRunId;
       req_status := Some "completed";
       req_conclusion := Some "success";
       req_completed_at := Some completed_at;
       req_output :=
         {| output_title := name options;
            output_summary := "";
            output_text := text;
            output_annotations := None |} |} in
  client_checks_update client req.

(** The [while] loop of [allMetricsCheck], entered with the bucket at hand.
    Every iteration spends one unit of [fuel]. *)
Fixpoint allMetricsCheck_loop (fuel : nat) (client : Client) (checkRunId : number)
    (options : CheckOptions) (bucket : list Annotation) : M unit :=
  match bucket with
  | [] => ret tt
  | _ :: _ =>
      match fuel with
      | 0 => out_of_fuel
      | S fuel' =>
          text <- getText (rca_version options) ;;
          let output :=
            {| output_title := name options;
               output_summary := "";
               output_text := text;
               output_annotations := Some bucket |} in
          pending <- read (fun w => annotations (runner w)) ;;
          req <- match pending with
                 | _ :: _ =>
                     core_debug ("This is not the last iteration, marking check as "
                                 ^^ dquote ^^ "in_progress" ^^ dquote) ;;
                     ret {| req_owner := owner options;
                            req_repo := repo options;
                            req_name := name options;
                            req_check_run_id := checkRunId;
                            req_status := Some "in_progress";
                            req_conclusion := None;
                            req_completed_at := None;
                            req_output := output |}
                 | [] =>
                     completed_at <- Date_now_toISOString ;;
                     ret {| req_owner := owner options;
                            req_repo := repo options;
                            req_name := name options;
                            req_check_run_id := checkRunId;
                            req_status := Some "completed";
                            req_conclusion := Some "success";
                            req_completed_at := Some completed_at;
                            req_output := output |}
                 end ;;
          client_checks_update client req ;;
          next <- getBucket ;;
          allMetricsCheck_loop fuel' client checkRunId options next
      end
  end.

(** [allMetricsCheck]: the check that displays global and space metrics. *)
Definition allMetricsCheck (fuel : nat) (client : Client) (checkRunId : number)
    (options : CheckOptions) : M unit :=
  bucket <- getBucket ;;
  allMetricsCheck_loop fuel client checkRunId options bucket.

(** The request of [cancelCheck], but for its time stamp. *)
Definition cancel_request (checkRunId : number) (options : CheckOptions)
    (completed_at : string) : UpdateParams :=
  {| req_owner := owner options;
     req_repo := repo options;
     req_name := name options;
     req_check_run_id := checkRunId;
     req_status := Some "completed";
     req_conclusion := Some "cancelled";
     req_completed_at := Some completed_at;
     req_output :=
       {| output_title := name options;
          output_summary := "Unhandled error";
          output_text :=
            "Check was cancelled due to unhandled error. Check the Action logs for details.";
          output_annotations := None |} |}.

(** [cancelCheck]: cancel the whole check. *)
Definition cancelCheck (client : Client) (checkRunId : number)
    (options : CheckOptions) : M unit :=
  completed_at <- Date_now_toISOString ;;
  client_checks_update client (cancel_request checkRunId options completed_at).

(** [dumpToStdout]: print every stored file, pretty-printed. *)
Definition dumpToStdout : M unit :=
  jsons <- read (fun w => file_jsons (runner w)) ;;
  for_each jsons (fun json_metric => core_info (JSON_stringify_pretty json_metric)).

(** Whether an environment variable is set to something: [undefined] and the
    empty string are falsy. *)
Definition env_truthy (v : option string) : bool :=
  match v with
  | Some s => negb (String.eqb s "")
  | None => false
  end.

(** The body of the second [try] of [executeCheck]. *)
Definition completeCheck (fuel : nat) (client : Client) (checkRunId : number)
    (options : CheckOptions) : M unit :=
  pending <- read (fun w => annotations (runner w)) ;;
  match pending with
  | [] => globalMetricsCheck client checkRunId options
  | _ :: _ => allMetricsCheck fuel client checkRunId options
  end.

(** [executeCheck]: execute the check and display the results. *)
Definition executeCheck (fuel : nat) (options : CheckOptions) : M unit :=
  client <- await (getOctokit (token options) USER_AGENT) ;;
  created <- attempt (createCheck client options) ;;
  match created with
  | inr error =>
      if env_truthy GITHUB_HEAD_REF then
        core_error ("Unable to create the prospective summary! Reason: "
                    ^^ exn_to_string error) ;;
        core_warning "It seems that this Action is executed from the forked repository." ;;
        core_warning "GitHub Actions are not allowed to create Check annotations, when executed for a forked repos. See https://github.com/Luni-4/rust-code-analysis-check#limitations for details." ;;
        core_info "Posting the prospective summary here instead." ;;
        dumpToStdout
      else throw error
  | inl checkRunId =>
      try_catch (completeCheck fuel client checkRunId options)
        (fun error =>
           cancelCheck client checkRunId options ;;
           throw error)
  end.

(** ** What the remote API was sent *)

(** The requests of the update calls among [cs], in order. *)
Definition updates (cs : list Call) : list UpdateParams :=
  flat_map (fun c => match c with Update req => [req] | Create _ => [] end) cs.

(** The annotations a request carries. *)
Definition batch (req : UpdateParams) : list Annotation :=
  match output_annotations (req_output req) with
  | Some b => b
  | None => []
  end.

(** A request that leaves the check in progress. *)
Definition in_progress (req : UpdateParams) : Prop :=
  req_status req = Some "in_progress" /\ req_conclusion req = None.

(** A request that completes the check with success. *)
Definition completed_success (req : UpdateParams) : Prop :=
  req_status req = Some "completed" /\ req_conclusion req = Some "success"
  /\ exists t, req_completed_at req = Some t.

(** The runner with another array of annotations. *)
Definition with_annotations (r : CheckRunner) (l : list Annotation) : CheckRunner :=
  {| annotations := l; file_metrics := file_metrics r; file_jsons := file_jsons r |}.

(** The text [getText] returns for a runner. *)
Definition rendered_text (rcaVersion : string) (r : CheckRunner) : string :=
  match getText rcaVersion {| runner := r; log := []; calls := [] |} with
  | (Ok t, _) => t
  | _ => ""
  end.

(** The request [allMetricsCheck] builds for a bucket, when [rest] is what
    the array still holds (last first) and [h] the calls made so far. *)
Definition page_request (checkRunId : number) (options : CheckOptions)
    (text : string) (h : list Call) (bucket rest : list Annotation) : UpdateParams :=
  let output :=
    {| output_title := name options;
       output_summary := "";
       output_text := text;
       output_annotations := Some bucket |} in
  match rest with
  | _ :: _ =>
      {| req_owner := owner options;
         req_repo := repo options;
         req_name := name options;
         req_check_run_id := checkRunId;
         req_status := Some "in_progress";
         req_conclusion := None;
         req_completed_at := None;
         req_output := output |}
  | [] =>
      {| req_owner := owner options;
         req_repo := repo options;
         req_name := name options;
         req_check_run_id := checkRunId;
         req_status := Some "completed";
         req_conclusion := Some "success";
         req_completed_at := Some (now_iso h);
         req_output := output |}
  end.

(** The requests that page a stack of annotations (the array, last element
    first), 50 at a time. *)
Fixpoint expected_pages (fuel : nat) (checkRunId : number) (options : CheckOptions)
    (text : string) (h : list Call) (stack : list Annotation) : list UpdateParams :=
  match stack with
  | [] => []
  | _ :: _ =>
      match fuel with
      | 0 => []
      | S fuel' =>
          let req := page_request checkRunId options text h
                       (firstn BUCKET_SIZE stack) (skipn BUCKET_SIZE stack) in
          req :: expected_pages fuel' checkRunId options text (h ++ [Update req])
                   (skipn BUCKET_SIZE stack)
      end
  end.

(** The argument [createCheck] passes to the API. *)
Definition create_params (options : CheckOptions) : CreateParams :=
  {| create_owner := owner options;
     create_repo := repo options;
     create_name := name options;
     create_head_sha := head_sha options;
     create_status := "in_progress" |}.

(** The request of [globalMetricsCheck], after the calls [h]. *)
Definition global_request (checkRunId : number) (options : CheckOptions)
    (text : string) (h : list Call) : UpdateParams :=
  {| req_owner := owner options;
     req_repo := repo options;
     req_name := name options;
     req_check_run_id := checkRunId;
     req_status := Some "completed";
     req_conclusion := Some "success";
     req_completed_at := Some (now_iso h);
     req_output :=
       {| output_title := name options;
          output_summary := "";
          output_text := text;
          output_annotations := None |} |}.

(** The world once a call has been recorded. *)
Definition called (w : World) (c : Call) : World :=
  {| runner := runner w; log := log w; calls := calls w ++ [c] |}.

(** The annotations sent to the API by the calls [cs], in the order sent. *)
Definition submitted (cs : list Call) : list Annotation :=
  concat (map batch (updates cs)).

(** The requests a cycle sends when the create and every update resolve. *)
Definition cycle_requests (fuel : nat) (checkRunId : number) (options : CheckOptions)
    (w : World) : list UpdateParams :=
  let h := calls w ++ [Create (create_params options)] in
  let text := rendered_text (rca_version options) (runner w) in
  match annotations (runner w) with
  | [] => [global_request checkRunId options text h]
  | _ :: _ =>
      expected_pages fuel checkRunId options text h (List.rev (annotations (runner w)))
  end.

(** What a line leaves in [file_jsons]: its decoded value, copied, when it
    decodes. *)
Definition parsed_record (file : string) : list value :=
  match JSON_parse_text file with
  | Some contents => [Object_assign_empty contents]
  | None => []
  end.

(** The records a sequence of lines leaves in [file_jsons]. *)
Definition parsed_records (lines : list string) : list value :=
  flat_map parsed_record lines.

(** The decoded files kept and the calls made are the same in both worlds. *)
Definition same_files (w w' : World) : Prop :=
  file_jsons (runner w') = file_jsons (runner w)
  /\ calls w' = calls w.

(** The lines [executeCheck] writes before the dump, on a fork. *)
Definition fork_notice (error : exn) : list LogEntry :=
  [ ErrorEntry ("Unable to create the prospective summary! Reason: "
                ^^ exn_to_string error);
    Warning "It seems that this Action is executed from the forked repository.";
    Warning "GitHub Actions are not allowed to create Check annotations, when executed for a forked repos. See https://github.com/Luni-4/rust-code-analysis-check#limitations for details.";
    Info "Posting the prospective summary here instead." ].

(** The annotation [addAnnotation] builds from a decoded object. *)
Definition annotation_of (props : list (string * value)) : Annotation :=
  let member k := match lookup k props with Some x => x | None => VUndefined end in
  {| path := member "name";
     start_line := member "start_line";
     end_line := member "end_line";
     annotation_level := "notice";
     title := member "name";
     message := "Hello" |}.

(** A space as [makeAnnotations] can read it: a string, the object the
    string decodes to, and the subspaces, read the same way. *)
Inductive space_tree : Type :=
| SpaceNode (text : string) (props : list (string * value)) (children : list space_tree).

(** The element of a [spaces] array that stands for a space. *)
Definition space_value (t : space_tree) : value :=
  match t with SpaceNode text _ _ => VStr text end.

(** The string of every space decodes to its object, whose [spaces] member
    is the array of the strings of its subspaces. *)
Inductive encodes : space_tree -> Prop :=
| encodes_node (text : string) (props : list (string * value))
    (children : list space_tree) :
    JSON_parse_text text = Some (VObj props) ->
    lookup "spaces" props = Some (VArr (map space_value children)) ->
    Forall encodes children ->
    encodes (SpaceNode text props children).

(** The nesting depth and the number of spaces of a tree. *)
Fixpoint depth (t : space_tree) : nat :=
  match t with
  | SpaceNode _ _ children => S (fold_right (fun c m => Nat.max (depth c) m) 0 children)
  end.

Fixpoint spaces_count (t : space_tree) : nat :=
  match t with
  | SpaceNode _ _ children => S (fold_right (fun c n => spaces_count c + n) 0 children)
  end.

(** The annotations of a tree, depth first in document order: a space, then
    its subspaces, then the spaces after it. *)
Fixpoint preorder (t : space_tree) : list Annotation :=
  match t with
  | SpaceNode _ props children => annotation_of props :: flat_map preorder children
  end.

(** The world once annotations have been pushed. *)
Definition pushed (w : World) (l : list Annotation) : World :=
  {| runner := with_annotations (runner w) (annotations (runner w) ++ l);
     log := log w; calls := calls w |}.

(** ** Properties of the buckets *)

Lemma getText_run (rcaVersion : string) (w : World) :
  getText rcaVersion w = (Ok (rendered_text rcaVersion (runner w)), w).
Proof. reflexivity. Qed.

Lemma removelast_snoc (A : Type) (l : list A) (a : A) : removelast (l ++ [a]) = l.
Proof.
  induction l as [|x l IH]; [reflexivity|].
  cbn [app removelast]. destruct (l ++ [a]) eqn:E.
  - destruct l; discriminate.
  - now rewrite IH.
Qed.

(** [pop] on an array whose elements, last first, are [a :: stack]. *)
Lemma annotations_pop_some (w : World) (a : Annotation) (stack : list Annotation) :
  List.rev (annotations (runner w)) = a :: stack ->
  annotations_pop w =
    (Ok (Some a),
     {| runner := with_annotations (runner w) (List.rev stack);
        log := log w; calls := calls w |}).
Proof.
  intros H. unfold annotations_pop, bind, read, set_runner, ret. cbn.
  rewrite H. cbn.
  assert (E : annotations (runner w) = List.rev stack ++ [a]).
  { rewrite <- (rev_involutive (annotations (runner w))), H. reflexivity. }
  rewrite E, removelast_snoc. reflexivity.
Qed.

Lemma annotations_pop_none (w : World) :
  annotations (runner w) = [] -> annotations_pop w = (Ok None, w).
Proof.
  intros H. unfold annotations_pop, bind, read, ret. cbn. now rewrite H.
Qed.

Lemma with_annotations_same (w : World) :
  {| runner := with_annotations (runner w) (annotations (runner w));
     log := log w; calls := calls w |} = w.
Proof. destruct w as [[a m j] l c]. reflexivity. Qed.

(** The loop moves to the bucket as many annotations as there is room for,
    taken from the end of the array, last first. *)
Lemma getBucket_loop_run (room : nat) (bucket : list Annotation) (w : World) :
  let stack := List.rev (annotations (runner w)) in
  getBucket_loop room bucket w =
    (Ok (bucket ++ firstn room stack),
     {| runner := with_annotations (runner w) (List.rev (skipn room stack));
        log := log w; calls := calls w |}).
Proof.
  revert bucket w. induction room as [|room IH]; intros bucket w stack.
  - cbn [getBucket_loop firstn skipn]. unfold ret, stack.
    now rewrite app_nil_r, rev_involutive, with_annotations_same.
  - cbn [getBucket_loop]. unfold bind at 1.
    destruct stack as [|a rest] eqn:E; unfold stack in E.
    + assert (H0 : annotations (runner w) = []).
      { rewrite <- (rev_involutive (annotations (runner w))), E. reflexivity. }
      rewrite (annotations_pop_none _ H0). unfold ret.
      cbn [firstn skipn List.rev]. rewrite app_nil_r.
      rewrite <- H0. now rewrite with_annotations_same.
    + rewrite (annotations_pop_some _ _ _ E).
      rewrite IH. cbn [runner log calls with_annotations annotations
                       file_metrics file_jsons].
      rewrite rev_involutive. cbn [firstn skipn].
      now rewrite <- app_assoc.
Qed.

(** [getBucket] returns the last 50 annotations of the array, last first
    (all of them when there are fewer), and leaves the others. *)
Lemma getBucket_run (w : World) :
  let stack := List.rev (annotations (runner w)) in
  let bucket := firstn BUCKET_SIZE stack in
  getBucket w =
    (Ok bucket,
     {| runner := with_annotations (runner w) (List.rev (skipn BUCKET_SIZE stack));
        log := log w ++ [Debug ("Prepared next annotations bucket, "
                                ^^ nat_to_string (List.length bucket) ^^ " size")];
        calls := calls w |}).
Proof.
  intros stack bucket. unfold getBucket, bind.
  rewrite getBucket_loop_run. reflexivity.
Qed.

(** ** Properties of the paging loop *)

Lemma client_checks_update_resolved (client : Client) (req : UpdateParams) (w : World) :
  checks_update client (calls w) req = Resolved tt ->
  client_checks_update client req w =
    (Ok tt, {| runner := runner w; log := log w; calls := calls w ++ [Update req] |}).
Proof. intros H. unfold client_checks_update, await. now rewrite H. Qed.

Lemma client_checks_update_rejects (client : Client) (req : UpdateParams) (w : World)
    (e : exn) :
  checks_update client (calls w) req = Rejects e ->
  client_checks_update client req w =
    (Throw e, {| runner := runner w; log := log w; calls := calls w ++ [Update req] |}).
Proof. intros H. unfold client_checks_update, await. now rewrite H. Qed.

Lemma skipn_shorter (A : Type) (n : nat) (l : list A) :
  l <> [] -> List.length (skipn (S n) l) < List.length l.
Proof.
  intros H. destruct l as [|a l]; [congruence|].
  cbn [skipn List.length]. pose proof (length_skipn n l). lia.
Qed.

Lemma rev_cons_not_nil (A : Type) (x : A) (l : list A) : List.rev (x :: l) <> [].
Proof.
  intros H. apply (f_equal (@List.length A)) in H.
  rewrite length_rev in H. discriminate.
Qed.

(** One iteration of the loop, when the update resolves. *)
Lemma allMetricsCheck_loop_step (client : Client) (checkRunId : number)
    (options : CheckOptions) (fuel : nat) (a : Annotation)
    (bucket' : list Annotation) (w : World) :
  (forall h req, checks_update client h req = Resolved tt) ->
  exists lg,
    allMetricsCheck_loop (S fuel) client checkRunId options (a :: bucket') w =
    (next <- getBucket ;;
     allMetricsCheck_loop fuel client checkRunId options next)
      {| runner := runner w;
         log := lg;
         calls := calls w ++
           [Update (page_request checkRunId options
                      (rendered_text (rca_version options) (runner w)) (calls w)
                      (a :: bucket') (List.rev (annotations (runner w))))] |}.
Proof.
  intros Hupd. cbn [allMetricsCheck_loop].
  unfold bind at 1. rewrite getText_run.
  unfold bind at 1. unfold read at 1.
  destruct (annotations (runner w)) as [|x pending] eqn:Hp.
  - exists (log w). cbn [List.rev].
    unfold bind at 1. unfold bind at 1. unfold Date_now_toISOString, read, ret.
    unfold bind at 1.
    rewrite client_checks_update_resolved by apply Hupd. reflexivity.
  - exists (log w ++ [Debug ("This is not the last iteration, marking check as "
                             ^^ dquote ^^ "in_progress" ^^ dquote)]).
    pose proof (rev_cons_not_nil _ x pending) as Hne.
    destruct (List.rev (x :: pending)) as [|y rest] eqn:Hrev; [congruence|].
    unfold bind at 1. unfold bind at 1. unfold core_debug, emit, ret.
    unfold bind at 1.
    rewrite client_checks_update_resolved by apply Hupd. reflexivity.
Qed.

(** The whole loop, when every update resolves: the bucket at hand is the
    head of [stack], the array holds the rest, and there is a unit of fuel
    for every annotation. *)
Lemma allMetricsCheck_loop_run (client : Client) (checkRunId : number)
    (options : CheckOptions) :
  (forall h req, checks_update client h req = Resolved tt) ->
  forall (fuel : nat) (stack : list Annotation) (w : World),
    List.length stack <= fuel ->
    annotations (runner w) = List.rev (skipn BUCKET_SIZE stack) ->
    exists lg,
      allMetricsCheck_loop fuel client checkRunId options (firstn BUCKET_SIZE stack) w =
        (Ok tt,
         {| runner := with_annotations (runner w) [];
            log := lg;
            calls := calls w ++
                     map Update (expected_pages fuel checkRunId options
                                   (rendered_text (rca_version options) (runner w))
                                   (calls w) stack) |}).
Proof.
  intros Hupd. induction fuel as [|fuel IH]; intros stack w Hlen Hpending.
  - destruct stack; [|cbn in Hlen; lia].
    exists (log w). cbn. unfold ret. rewrite app_nil_r.
    cbn in Hpending. rewrite <- Hpending. now rewrite with_annotations_same.
  - destruct stack as [|a stack'] eqn:Hstack.
    + exists (log w). cbn. unfold ret. rewrite app_nil_r.
      cbn in Hpending. rewrite <- Hpending. now rewrite with_annotations_same.
    + change (firstn BUCKET_SIZE (a :: stack')) with (a :: firstn 49 stack').
      destruct (allMetricsCheck_loop_step client checkRunId options fuel a
                  (firstn 49 stack') w Hupd) as [lg0 Hstep].
      rewrite Hstep. clear Hstep.
      unfold bind. rewrite getBucket_run.
      cbn [runner log calls]. rewrite Hpending, rev_involutive.
      set (rest := skipn BUCKET_SIZE (a :: stack')) in *.
      match goal with
      | |- context [allMetricsCheck_loop fuel _ _ _ _ ?w1] =>
          destruct (IH rest w1) as [lg Hrun]
      end.
      * assert (Hs : List.length rest < List.length (a :: stack')).
        { apply (skipn_shorter _ 49). discriminate. }
        lia.
      * reflexivity.
      * exists lg. rewrite Hrun.
        cbn [runner log calls with_annotations annotations file_metrics file_jsons].
        cbn [expected_pages]. fold rest.
        change (firstn BUCKET_SIZE (a :: stack')) with (a :: firstn 49 stack').
        cbn [map]. rewrite <- app_assoc. reflexivity.
Qed.

(** ** Properties of the pages *)

Section Pages.
Variable checkRunId : number.
Variable options : CheckOptions.
Variable text : string.

Lemma batch_page_request (h : list Call) (bucket rest : list Annotation) :
  batch (page_request checkRunId options text h bucket rest) = bucket.
Proof. destruct rest; reflexivity. Qed.

(** The number of pages is the number of annotations over 50, rounded up. *)
Lemma expected_pages_length (fuel : nat) (h : list Call) (stack : list Annotation) :
  List.length stack <= fuel ->
  List.length (expected_pages fuel checkRunId options text h stack) =
    (List.length stack + 49) / 50.
Proof.
  revert h stack. induction fuel as [|fuel IH]; intros h stack Hlen.
  - destruct stack; [reflexivity|cbn in Hlen; lia].
  - destruct stack as [|a stack']; [reflexivity|].
    cbn [expected_pages List.length].
    set (rest := skipn BUCKET_SIZE (a :: stack')).
    assert (Hrest : List.length rest = List.length (a :: stack') - 50).
    { unfold rest. now rewrite length_skipn. }
    rewrite IH by (cbn [List.length] in *; lia).
    rewrite Hrest. cbn [List.length].
    assert (H1 : S (List.length stack') + 49 = 50 + List.length stack') by lia.
    rewrite H1.
    destruct (Nat.le_gt_cases 50 (S (List.length stack'))) as [Hbig|Hsmall].
    + replace (50 + List.length stack') with
        ((S (List.length stack') - 50 + 49) + 1 * 50) by lia.
      rewrite Nat.div_add by lia. lia.
    + replace (S (List.length stack') - 50 + 49) with 49 by lia.
      rewrite (Nat.div_small 49 50) by lia.
      replace (50 + List.length stack') with (List.length stack' + 1 * 50) by lia.
      rewrite Nat.div_add by lia. rewrite Nat.div_small by lia. reflexivity.
Qed.

(** Every page carries at most 50 annotations. *)
Lemma expected_pages_capacity (fuel : nat) (h : list Call) (stack : list Annotation) :
  Forall (fun req => List.length (batch req) <= BUCKET_SIZE)
    (expected_pages fuel checkRunId options text h stack).
Proof.
  revert h stack. induction fuel as [|fuel IH]; intros h stack.
  - destruct stack; constructor.
  - destruct stack as [|a stack']; [constructor|].
    cbn [expected_pages]. constructor; [|apply IH].
    rewrite batch_page_request. apply firstn_le_length.
Qed.

(** The pages, one after the other, are the stack: the array, last first. *)
Lemma expected_pages_concat (fuel : nat) (h : list Call) (stack : list Annotation) :
  List.length stack <= fuel ->
  concat (map batch (expected_pages fuel checkRunId options text h stack)) = stack.
Proof.
  revert h stack. induction fuel as [|fuel IH]; intros h stack Hlen.
  - destruct stack; [reflexivity|cbn in Hlen; lia].
  - destruct stack as [|a stack']; [reflexivity|].
    cbn [expected_pages map concat].
    rewrite batch_page_request.
    rewrite IH.
    + apply firstn_skipn.
    + assert (Hs : List.length (skipn 50 (a :: stack')) < List.length (a :: stack')).
      { apply (skipn_shorter _ 49). discriminate. }
      change BUCKET_SIZE with 50. lia.
Qed.

(** Every page but the last leaves the check in progress; the last one
    completes it with success. *)
Lemma expected_pages_status (fuel : nat) (h : list Call) (stack : list Annotation) :
  List.length stack <= fuel ->
  stack <> [] ->
  exists init last,
    expected_pages fuel checkRunId options text h stack = init ++ [last]
    /\ Forall in_progress init
    /\ completed_success last.
Proof.
  revert h stack. induction fuel as [|fuel IH]; intros h stack Hlen Hne.
  - destruct stack; [congruence|cbn in Hlen; lia].
  - destruct stack as [|a stack']; [congruence|].
    cbn [expected_pages].
    assert (Hs : List.length (skipn 50 (a :: stack')) < List.length (a :: stack')).
    { apply (skipn_shorter _ 49). discriminate. }
    change BUCKET_SIZE with 50.
    set (bucket := firstn 50 (a :: stack')).
    set (rest := skipn 50 (a :: stack')) in *.
    destruct rest as [|b rest'] eqn:Hrest.
    + exists [], (page_request checkRunId options text h bucket []).
      split; [|split].
      * destruct fuel; reflexivity.
      * constructor.
      * unfold completed_success, page_request; cbn. eauto.
    + rewrite <- Hrest in *.
      assert (Hrne : rest <> []) by (rewrite Hrest; discriminate).
      assert (Hrlen : List.length rest <= fuel) by lia.
      destruct (IH (h ++ [Update (page_request checkRunId options text h bucket rest)])
                  rest Hrlen Hrne) as (init & last & Heq & Hinit & Hlast).
      exists (page_request checkRunId options text h bucket rest :: init), last.
      split; [|split].
      * rewrite Heq. reflexivity.
      * constructor; [|exact Hinit].
        rewrite Hrest. unfold in_progress, page_request; cbn. auto.
      * exact Hlast.
Qed.

End Pages.

(** ** The paths of [executeCheck] *)

(** After a successful create, [executeCheck] is its second [try]. *)
Lemma executeCheck_created (fuel : nat) (options : CheckOptions) (w : World)
    (client : Client) (checkRunId : number) :
  getOctokit (token options) USER_AGENT = Resolved client ->
  checks_create client (calls w) (create_params options) = Resolved checkRunId ->
  executeCheck fuel options w =
    try_catch (completeCheck fuel client checkRunId options)
      (fun error => cancelCheck client checkRunId options ;; throw error)
      (called w (Create (create_params options))).
Proof.
  intros Hclient Hcreate.
  unfold executeCheck. unfold bind at 1. unfold await at 1. rewrite Hclient.
  unfold bind at 1. unfold attempt, try_catch at 1. unfold bind at 1.
  unfold createCheck, client_checks_create. fold (create_params options).
  rewrite Hcreate. reflexivity.
Qed.

(** After a failed create, [executeCheck] is the handler of its first [try]. *)
Lemma executeCheck_not_created (fuel : nat) (options : CheckOptions) (w : World)
    (client : Client) (error : exn) :
  getOctokit (token options) USER_AGENT = Resolved client ->
  checks_create client (calls w) (create_params options) = Rejects error ->
  executeCheck fuel options w =
    (if env_truthy GITHUB_HEAD_REF then
       core_error ("Unable to create the prospective summary! Reason: "
                   ^^ exn_to_string error) ;;
       core_warning "It seems that this Action is executed from the forked repository." ;;
       core_warning "GitHub Actions are not allowed to create Check annotations, when executed for a forked repos. See https://github.com/Luni-4/rust-code-analysis-check#limitations for details." ;;
       core_info "Posting the prospective summary here instead." ;;
       dumpToStdout
     else throw error)
      (called w (Create (create_params options))).
Proof.
  intros Hclient Hcreate.
  unfold executeCheck. unfold bind at 1. unfold await at 1. rewrite Hclient.
  unfold bind at 1. unfold attempt, try_catch at 1. unfold bind at 1.
  unfold createCheck, client_checks_create. fold (create_params options).
  rewrite Hcreate. reflexivity.
Qed.

(** A cycle in which the create and every update resolve returns normally,
    having sent [cycle_requests] and emptied the array of annotations. *)
Lemma executeCheck_resolved (fuel : nat) (options : CheckOptions) (w : World)
    (client : Client) (checkRunId : number) :
  getOctokit (token options) USER_AGENT = Resolved client ->
  checks_create client (calls w) (create_params options) = Resolved checkRunId ->
  (forall h req, checks_update client h req = Resolved tt) ->
  List.length (annotations (runner w)) <= fuel ->
  exists lg,
    executeCheck fuel options w =
      (Ok tt,
       {| runner := with_annotations (runner w) [];
          log := lg;
          calls := calls w ++ Create (create_params options)
                     :: map Update (cycle_requests fuel checkRunId options w) |}).
Proof.
  intros Hclient Hcreate Hupd Hfuel.
  rewrite (executeCheck_created _ _ _ _ _ Hclient Hcreate).
  unfold cycle_requests, try_catch, completeCheck.
  unfold bind at 1. unfold read at 1. cbn [called runner].
  destruct (annotations (runner w)) as [|a pending] eqn:Hp.
  - exists (log w). unfold globalMetricsCheck.
    unfold bind at 1. unfold Date_now_toISOString, read.
    unfold bind at 1. rewrite getText_run.
    rewrite client_checks_update_resolved by apply Hupd.
    cbn [runner log calls called map]. rewrite <- app_assoc.
    rewrite <- Hp. destruct w as [[a m j] l c]. reflexivity.
  - rewrite <- Hp in *. unfold allMetricsCheck. unfold bind at 1.
    rewrite getBucket_run. cbn [runner log calls called].
    set (stack := List.rev (annotations (runner w))).
    match goal with
    | |- context [allMetricsCheck_loop fuel client checkRunId options _ ?w1] =>
        destruct (allMetricsCheck_loop_run client checkRunId options Hupd
                    fuel stack w1) as [lg Hrun]
    end.
    + unfold stack. now rewrite length_rev.
    + reflexivity.
    + exists lg. rewrite Hrun.
      cbn [runner log calls with_annotations annotations file_metrics file_jsons].
      rewrite <- app_assoc. reflexivity.
Qed.

Lemma updates_map_Update (reqs : list UpdateParams) : updates (map Update reqs) = reqs.
Proof.
  induction reqs as [|r reqs IH]; [reflexivity|].
  cbn [map updates flat_map app] in *. unfold updates in IH. now rewrite IH.
Qed.

(** ** The update calls of a cycle *)

(** C1. When the create call and every update call succeed: with no pending
    annotation, exactly one update call is issued, completed with conclusion
    success; with [L > 0] pending annotations, exactly [ceil(L/50)] update
    calls are issued, each with at most 50 annotations and [L] in total,
    every call but the last in progress and the last completed with
    conclusion success. *)
Theorem executeCheck_update_calls (fuel : nat) (options : CheckOptions) (w : World)
    (client : Client) (checkRunId : number) :
  getOctokit (token options) USER_AGENT = Resolved client ->
  checks_create client (calls w) (create_params options) = Resolved checkRunId ->
  (forall h req, checks_update client h req = Resolved tt) ->
  List.length (annotations (runner w)) <= fuel ->
  exists w' reqs,
    executeCheck fuel options w = (Ok tt, w')
    /\ calls w' = calls w ++ Create (create_params options) :: map Update reqs
    /\ (annotations (runner w) = [] ->
          exists req, reqs = [req] /\ completed_success req /\ batch req = [])
    /\ (annotations (runner w) <> [] ->
          List.length reqs = (List.length (annotations (runner w)) + 49) / 50
          /\ 50 * (List.length reqs - 1) < List.length (annotations (runner w))
             <= 50 * List.length reqs
          /\ Forall (fun req => List.length (batch req) <= 50) reqs
          /\ List.length (concat (map batch reqs)) = List.length (annotations (runner w))
          /\ exists init last,
               reqs = init ++ [last]
               /\ Forall in_progress init
               /\ completed_success last).
Proof.
  intros Hclient Hcreate Hupd Hfuel.
  destruct (executeCheck_resolved fuel options w client checkRunId
              Hclient Hcreate Hupd Hfuel) as [lg Hrun].
  eexists. exists (cycle_requests fuel checkRunId options w).
  split; [exact Hrun|]. split; [reflexivity|].
  unfold cycle_requests. split.
  - intros Hnil. rewrite Hnil. eexists. split; [reflexivity|].
    split; [|reflexivity].
    unfold completed_success, global_request; cbn. eauto.
  - intros Hne.
    destruct (annotations (runner w)) as [|a pending] eqn:Hp; [congruence|].
    rewrite <- Hp in *.
    set (stack := List.rev (annotations (runner w))).
    assert (Hlen : List.length stack = List.length (annotations (runner w))).
    { unfold stack. apply length_rev. }
    assert (Hstack : List.length stack <= fuel) by lia.
    assert (Hsne : stack <> []).
    { intros E. rewrite E in Hlen. rewrite Hp in Hlen. discriminate. }
    assert (Hcount := expected_pages_length checkRunId options
      (rendered_text (rca_version options) (runner w))
      fuel (calls w ++ [Create (create_params options)]) stack Hstack).
    rewrite Hlen in Hcount.
    split; [exact Hcount|]. split.
    + rewrite Hcount.
      assert (Hpos : 0 < List.length (annotations (runner w))).
      { rewrite Hp. cbn. lia. }
      pose proof (Nat.div_mod_eq (List.length (annotations (runner w)) + 49) 50) as Hdm.
      pose proof (Nat.mod_upper_bound (List.length (annotations (runner w)) + 49) 50) as Hm.
      lia.
    + split; [apply expected_pages_capacity|]. split.
      * rewrite expected_pages_concat by exact Hstack. exact Hlen.
      * apply expected_pages_status; assumption.
Qed.

(** C2 (as the code has it). The batches, one after the other in the order
    they are sent, hold the pending annotations in exactly the reverse of the
    order in which they were extracted: the annotation extracted last is the
    first element of the first batch. *)
Theorem executeCheck_submits_in_reverse (fuel : nat) (options : CheckOptions)
    (w : World) (client : Client) (checkRunId : number) :
  getOctokit (token options) USER_AGENT = Resolved client ->
  checks_create client (calls w) (create_params options) = Resolved checkRunId ->
  (forall h req, checks_update client h req = Resolved tt) ->
  List.length (annotations (runner w)) <= fuel ->
  exists w' sent,
    executeCheck fuel options w = (Ok tt, w')
    /\ calls w' = calls w ++ sent
    /\ submitted sent = List.rev (annotations (runner w))
    /\ (forall earlier a,
          annotations (runner w) = earlier ++ [a] ->
          exists req reqs others,
            updates sent = req :: reqs /\ batch req = a :: others).
Proof.
  intros Hclient Hcreate Hupd Hfuel.
  destruct (executeCheck_resolved fuel options w client checkRunId
              Hclient Hcreate Hupd Hfuel) as [lg Hrun].
  eexists. eexists. split; [exact Hrun|]. split; [reflexivity|].
  unfold submitted. cbn [updates flat_map app].
  fold (updates (map Update (cycle_requests fuel checkRunId options w))).
  rewrite updates_map_Update. unfold cycle_requests.
  destruct (annotations (runner w)) as [|x pending] eqn:Hp.
  - split; [reflexivity|]. intros earlier a E. destruct earlier; discriminate.
  - rewrite <- Hp in *.
    assert (Hstack : List.length (List.rev (annotations (runner w))) <= fuel).
    { now rewrite length_rev. }
    split.
    + apply expected_pages_concat. exact Hstack.
    + intros earlier a E. rewrite E, rev_app_distr. cbn [List.rev app].
      destruct fuel as [|fuel'].
      { rewrite E, length_app in Hfuel. cbn in Hfuel. lia. }
      cbn [expected_pages]. do 3 eexists. split; [reflexivity|].
      rewrite batch_page_request. reflexivity.
Qed.

(** ** Parsing a line *)

Lemma same_files_refl (w : World) : same_files w w.
Proof. repeat split. Qed.

Lemma same_files_trans (w1 w2 w3 : World) :
  same_files w1 w2 -> same_files w2 w3 -> same_files w1 w3.
Proof.
  intros (A & B) (A' & B'). split; congruence.
Qed.

Lemma bind_same_files {A B} (c : M A) (k : A -> M B) (w : World) :
  (forall w0, same_files w0 (snd (c w0))) ->
  (forall a w0, same_files w0 (snd (k a w0))) ->
  same_files w (snd (bind c k w)).
Proof.
  intros Hc Hk. unfold bind. specialize (Hc w).
  destruct (c w) as [[a|e|] w1]; cbn [snd] in *; try exact Hc.
  eapply same_files_trans; [exact Hc|apply Hk].
Qed.

Lemma lift_same_files {A} (c : outcome A) (w : World) : same_files w (snd (lift c w)).
Proof. apply same_files_refl. Qed.

Lemma for_each_same_files {A} (l : list A) (body : A -> M unit) :
  (forall x w0, same_files w0 (snd (body x w0))) ->
  forall w, same_files w (snd (for_each l body w)).
Proof.
  intros Hbody. induction l as [|x l IH]; intros w.
  - apply same_files_refl.
  - cbn [for_each]. apply bind_same_files; [apply Hbody|intros _; apply IH].
Qed.

Lemma addAnnotation_same_files (contents : value) (w : World) :
  same_files w (snd (addAnnotation contents w)).
Proof.
  unfold addAnnotation.
  do 5 (apply bind_same_files; [intros; apply lift_same_files|intros]).
  unfold annotations_push, bind, read, set_runner. cbn. split; reflexivity.
Qed.

Lemma makeAnnotations_same_files (fuel : nat) (contents : value) (w : World) :
  same_files w (snd (makeAnnotations fuel contents w)).
Proof.
  revert contents w. induction fuel as [|fuel IH]; intros contents w.
  - apply same_files_refl.
  - cbn [makeAnnotations].
    apply bind_same_files; [intros; apply lift_same_files|intros spaces w0].
    apply bind_same_files; [intros; apply lift_same_files|intros elems w1].
    apply for_each_same_files. intros space w2.
    apply bind_same_files; [intros; apply lift_same_files|intros space_obj w3].
    apply bind_same_files; [intros; apply addAnnotation_same_files|intros _ w4].
    apply bind_same_files; [intros; apply lift_same_files|intros sub w5].
    apply bind_same_files; [intros; apply lift_same_files|intros more w6].
    destruct more; [apply IH|apply same_files_refl].
Qed.

Lemma JSON_parse_line (file : string) :
  JSON_parse (VStr file) =
    match JSON_parse_text file with
    | Some contents => Ok contents
    | None => Throw SyntaxError
    end.
Proof. reflexivity. Qed.

(** A line that does not decode: nothing but a debug message. *)
Lemma parseJson_not_json (fuel : nat) (file : string) (w : World) :
  JSON_parse_text file = None ->
  parseJson fuel file w =
    (Ok tt, {| runner := runner w;
               log := log w ++ [Debug "Not a JSON, ignoring it"];
               calls := calls w |}).
Proof.
  intros H. unfold parseJson. unfold bind at 1.
  unfold attempt, try_catch, bind, lift. rewrite JSON_parse_line, H. reflexivity.
Qed.

(** A line that decodes: the steps after the [try]. *)
Lemma parseJson_json (fuel : nat) (file : string) (w : World) (contents : value) :
  JSON_parse_text file = Some contents ->
  parseJson fuel file w =
    (file_jsons_push (Object_assign_empty contents) ;;
     text <- lift (getFileMetrics contents) ;;
     file_metrics_push text ;;
     spaces <- lift (get contents "spaces") ;;
     nonempty <- lift (length_gt_zero spaces) ;;
     if (nonempty : bool) then makeAnnotations fuel contents else ret tt) w.
Proof.
  intros H. unfold parseJson. unfold bind at 1.
  unfold attempt, try_catch. unfold bind at 1. unfold lift at 1.
  rewrite JSON_parse_line, H. reflexivity.
Qed.

(** Whatever else a line does, it adds to [file_jsons] its decoded value, if
    it has one, and nothing else. *)
Lemma parseJson_file_jsons (fuel : nat) (file : string) (w : World) :
  file_jsons (runner (snd (parseJson fuel file w))) =
    file_jsons (runner w) ++ parsed_record file.
Proof.
  unfold parsed_record. destruct (JSON_parse_text file) as [contents|] eqn:H.
  - rewrite (parseJson_json _ _ _ _ H).
    unfold bind at 1. unfold file_jsons_push at 1.
    unfold bind at 1. unfold read, set_runner.
    match goal with
    | |- context [bind ?c ?k ?w1] =>
        assert (S : same_files w1 (snd (bind c k w1)))
    end.
    { apply bind_same_files; [intros; apply lift_same_files|intros text w0].
      apply bind_same_files.
      - intros w1. unfold file_metrics_push, bind, read, set_runner; cbn.
        split; reflexivity.
      - intros _ w1.
        apply bind_same_files; [intros; apply lift_same_files|intros spaces w2].
        apply bind_same_files; [intros; apply lift_same_files|intros nonempty w3].
        destruct nonempty; [apply makeAnnotations_same_files|apply same_files_refl]. }
    exact (proj1 S).
  - rewrite (parseJson_not_json _ _ _ H). cbn. now rewrite app_nil_r.
Qed.

(** Lines handed to [parseJson] one after the other, all of them returning
    normally, leave in [file_jsons] one entry per line that decodes. *)
Lemma for_each_parseJson_file_jsons (fuel : nat) (lines : list string) :
  forall w w',
    for_each lines (parseJson fuel) w = (Ok tt, w') ->
    file_jsons (runner w') = file_jsons (runner w) ++ parsed_records lines.
Proof.
  induction lines as [|file lines IH]; intros w w' H.
  - cbn in H. unfold ret in H. injection H as <-. cbn. now rewrite app_nil_r.
  - cbn [for_each] in H. unfold bind in H.
    pose proof (parseJson_file_jsons fuel file w) as Hone.
    destruct (parseJson fuel file w) as [[[]|e|] w1]; try discriminate.
    cbn [snd] in Hone. apply IH in H. rewrite H, Hone.
    unfold parsed_records. cbn [flat_map]. now rewrite app_assoc.
Qed.

(** C5. A line that does not decode is discarded without any error: the
    call returns normally and leaves the runner as it was (stored records,
    rendered texts, annotations), hence the report text too; no remote call
    is made; only a debug message is written. *)
Theorem parseJson_discards_undecodable_line (fuel : nat) (file : string) (w : World) :
  JSON_parse_text file = None ->
  exists w',
    parseJson fuel file w = (Ok tt, w')
    /\ runner w' = runner w
    /\ annotations (runner w') = annotations (runner w)
    /\ file_jsons (runner w') = file_jsons (runner w)
    /\ file_metrics (runner w') = file_metrics (runner w)
    /\ (forall rcaVersion,
          rendered_text rcaVersion (runner w') = rendered_text rcaVersion (runner w))
    /\ calls w' = calls w
    /\ log w' = log w ++ [Debug "Not a JSON, ignoring it"].
Proof.
  intros H. eexists. split; [apply parseJson_not_json; exact H|].
  cbn [runner log calls]. repeat split.
Qed.

(** C10. A line that decodes to a record whose metrics render and whose
    [spaces] array starts with an object (the nesting the tool prints) makes
    [parseJson] raise: [makeAnnotations] hands the object to [JSON.parse],
    outside the [try] of [parseJson]. The record is already stored and
    rendered by then; no annotation is added. *)
Theorem parseJson_raises_on_nested_object (fuel : nat) (file : string) (w : World)
    (contents : value) (text : string) (props : list (string * value))
    (rest : list value) :
  JSON_parse_text file = Some contents ->
  getFileMetrics contents = Ok text ->
  get contents "spaces" = Ok (VArr (VObj props :: rest)) ->
  JSON_parse_text "[object Object]" = None ->
  exists e w',
    parseJson (S fuel) file w = (Throw e, w')
    /\ (e = SyntaxError \/ e = TypeError)
    /\ annotations (runner w') = annotations (runner w)
    /\ file_jsons (runner w') = file_jsons (runner w) ++ [Object_assign_empty contents]
    /\ file_metrics (runner w') = file_metrics (runner w) ++ [text].
Proof.
  intros Hparse Htext Hspaces Htag.
  rewrite (parseJson_json _ _ _ _ Hparse).
  unfold bind at 1. unfold file_jsons_push at 1. unfold bind at 1.
  unfold read at 1, set_runner at 1.
  unfold bind at 1. unfold lift at 1. rewrite Htext.
  unfold bind at 1. unfold file_metrics_push at 1. unfold bind at 1.
  unfold read at 1, set_runner at 1.
  unfold bind at 1. unfold lift at 1. rewrite Hspaces.
  unfold bind at 1. unfold lift at 1. cbn [JS.length_gt_zero List.length Nat.ltb Nat.leb].
  cbn [makeAnnotations].
  unfold bind at 1. unfold lift at 1. rewrite Hspaces.
  unfold bind at 1. unfold lift at 1. cbn [iterate for_each].
  unfold bind at 1. unfold bind at 1. unfold lift at 1.
  unfold JS.JSON_parse. cbn [JS.ToString].
  destruct (lookup "toString" props) as [x|].
  - cbn [obind]. exists TypeError. eexists. split; [reflexivity|].
    cbn [runner annotations file_jsons file_metrics]. auto.
  - cbn [obind]. rewrite Htag.
    exists SyntaxError. eexists. split; [reflexivity|].
    cbn [runner annotations file_jsons file_metrics]. auto.
Qed.

(** ** Failure of the create call *)

Lemma for_each_core_info (texts : list value) (w : World) :
  for_each texts (fun json_metric => core_info (JSON_stringify_pretty json_metric)) w =
    (Ok tt,
     {| runner := runner w;
        log := log w ++ map (fun j => Info (JSON_stringify_pretty j)) texts;
        calls := calls w |}).
Proof.
  revert w. induction texts as [|j texts IH]; intros w.
  - cbn. unfold ret. rewrite app_nil_r. now destruct w.
  - cbn [for_each map]. unfold bind, core_info, emit. rewrite IH.
    cbn [runner log calls]. now rewrite <- app_assoc.
Qed.

(** C7. When the create call fails: with the fork signal, no further remote
    call is made, the cycle returns normally, and standard output receives
    one pretty-printed entry per stored record, in order, after the notice
    (the stored records being one per line that decoded); without the fork
    signal, the error of the create call is thrown as it is, and no update
    call is made. *)
Theorem executeCheck_create_fails (fuel : nat) (options : CheckOptions) (w : World)
    (client : Client) (error : exn) :
  getOctokit (token options) USER_AGENT = Resolved client ->
  checks_create client (calls w) (create_params options) = Rejects error ->
  (env_truthy GITHUB_HEAD_REF = true ->
     exists w',
       executeCheck fuel options w = (Ok tt, w')
       /\ calls w' = calls w ++ [Create (create_params options)]
       /\ updates (calls w') = updates (calls w)
       /\ runner w' = runner w
       /\ log w' = log w ++ fork_notice error
                     ++ map (fun j => Info (JSON_stringify_pretty j))
                          (file_jsons (runner w))
       /\ (forall pfuel lines w0,
             runner w0 = new_CheckRunner ->
             for_each lines (parseJson pfuel) w0 = (Ok tt, w) ->
             file_jsons (runner w) = parsed_records lines))
  /\ (env_truthy GITHUB_HEAD_REF = false ->
        executeCheck fuel options w =
          (Throw error, called w (Create (create_params options)))
        /\ updates (calls (called w (Create (create_params options))))
           = updates (calls w)).
Proof.
  intros Hclient Hcreate.
  rewrite (executeCheck_not_created _ _ _ _ _ Hclient Hcreate).
  assert (Hupd : forall cs, updates (cs ++ [Create (create_params options)]) = updates cs).
  { intros cs. unfold updates. rewrite flat_map_app. cbn. apply app_nil_r. }
  split; intros Hfork; rewrite Hfork.
  - unfold bind, core_error, core_warning, core_info, emit.
    cbn [runner log calls called]. unfold dumpToStdout, bind, read.
    rewrite for_each_core_info. cbn [runner log calls].
    eexists. split; [reflexivity|]. cbn [runner log calls].
    split; [reflexivity|]. split; [apply Hupd|]. split; [reflexivity|]. split.
    + unfold fork_notice. rewrite <- !app_assoc. reflexivity.
    + intros pfuel lines w0 Hnew Hfeed.
      rewrite (for_each_parseJson_file_jsons _ _ _ _ Hfeed), Hnew. reflexivity.
  - split; [reflexivity|]. cbn [called calls]. apply Hupd.
Qed.

(** ** Failure after the create call *)

(** C8. When the second [try] of [executeCheck] raises an error after a
    successful create, exactly one more update call is made, the cancel
    request (completed, cancelled, with a completion time, the summary
    "Unhandled error" and the fixed text); when that call succeeds, the error
    that was raised is thrown again, the same one. *)
Theorem executeCheck_cancels_on_error (fuel : nat) (options : CheckOptions)
    (w w1 : World) (client : Client) (checkRunId : number) (error : exn) :
  getOctokit (token options) USER_AGENT = Resolved client ->
  checks_create client (calls w) (create_params options) = Resolved checkRunId ->
  completeCheck fuel client checkRunId options (called w (Create (create_params options)))
    = (Throw error, w1) ->
  checks_update client (calls w1)
    (cancel_request checkRunId options (now_iso (calls w1))) = Resolved tt ->
  exists req,
    executeCheck fuel options w = (Throw error, called w1 (Update req))
    /\ calls (called w1 (Update req)) = calls w1 ++ [Update req]
    /\ req = cancel_request checkRunId options (now_iso (calls w1))
    /\ req_status req = Some "completed"
    /\ req_conclusion req = Some "cancelled"
    /\ (exists t, req_completed_at req = Some t)
    /\ output_summary (req_output req) = "Unhandled error"
    /\ output_text (req_output req) =
         "Check was cancelled due to unhandled error. Check the Action logs for details."
    /\ req_check_run_id req = checkRunId.
Proof.
  intros Hclient Hcreate Hfail Hcancel.
  exists (cancel_request checkRunId options (now_iso (calls w1))).
  split.
  - rewrite (executeCheck_created _ _ _ _ _ Hclient Hcreate).
    unfold try_catch. rewrite Hfail.
    unfold bind at 1. unfold cancelCheck. unfold bind at 1.
    unfold Date_now_toISOString, read.
    rewrite client_checks_update_resolved by exact Hcancel.
    reflexivity.
  - cbn. repeat split; eauto.
Qed.

(** ** Extraction of annotations *)

(** [addAnnotation] on a decoded object: the path and the title are both the
    [name] member of the object itself, the level is [notice] and the message
    is the placeholder. *)
Lemma addAnnotation_object (props : list (string * value)) (w : World) :
  addAnnotation (VObj props) w = (Ok tt, pushed w [annotation_of props]).
Proof.
  unfold addAnnotation, bind, lift, JS.get, annotations_push, read, set_runner,
    annotation_of, getAnnotationMetrics, pushed, with_annotations.
  destruct (lookup "name" props), (lookup "start_line" props),
    (lookup "end_line" props), (lookup "metrics" props); reflexivity.
Qed.

Lemma pushed_nil (w : World) : pushed w [] = w.
Proof.
  unfold pushed. rewrite app_nil_r. apply with_annotations_same.
Qed.

Lemma pushed_app (w : World) (l1 l2 : list Annotation) :
  pushed (pushed w l1) l2 = pushed w (l1 ++ l2).
Proof.
  unfold pushed, with_annotations. cbn [runner annotations file_metrics file_jsons log calls].
  now rewrite <- app_assoc.
Qed.

Lemma preorder_length (t : space_tree) :
  forall n, depth t <= n -> List.length (preorder t) = spaces_count t.
Proof.
  intros n. revert t. induction n as [|n IH]; intros [text props children] Hd.
  - cbn in Hd. lia.
  - cbn [preorder spaces_count List.length]. f_equal.
    cbn [depth] in Hd. apply le_S_n in Hd.
    induction children as [|c cs IHcs]; [reflexivity|].
    cbn [flat_map fold_right] in *. rewrite length_app.
    rewrite (IH c) by lia. rewrite IHcs by lia. reflexivity.
Qed.

Lemma makeAnnotations_S (fuel : nat) (contents : value) :
  makeAnnotations (S fuel) contents =
    (spaces <- lift (get contents "spaces") ;;
     elems <- lift (iterate spaces) ;;
     for_each elems (fun space =>
       space_obj <- lift (JSON_parse space) ;;
       addAnnotation space_obj ;;
       subspaces <- lift (get space_obj "spaces") ;;
       more <- lift (length_gt_zero subspaces) ;;
       if (more : bool) then makeAnnotations fuel space_obj else ret tt)).
Proof. reflexivity. Qed.

Lemma depth_children (children : list space_tree) (n : nat) :
  fold_right (fun c m => Nat.max (depth c) m) 0 children <= n ->
  Forall (fun c => depth c <= n) children.
Proof.
  induction children as [|c cs IH]; intros H; constructor;
    cbn [fold_right] in H; [lia|apply IH; lia].
Qed.

(** On spaces that are strings holding the text of each space, with one unit
    of fuel per level, [makeAnnotations] returns normally and has pushed one
    annotation per space below the record, depth first in document order. *)
Lemma makeAnnotations_encoded (fuel : nat) :
  forall (contents : value) (children : list space_tree) (w : World),
    get contents "spaces" = Ok (VArr (map space_value children)) ->
    Forall encodes children ->
    Forall (fun c => depth c <= fuel) children ->
    makeAnnotations (S fuel) contents w = (Ok tt, pushed w (flat_map preorder children)).
Proof.
  induction fuel as [|fuel IH]; intros contents children w Hget Henc Hdepth.
  - destruct children as [|[text props cs] rest].
    + rewrite makeAnnotations_S. unfold bind at 1. unfold lift at 1. rewrite Hget.
      unfold bind at 1. unfold lift at 1. cbn. unfold ret. now rewrite pushed_nil.
    + inversion Hdepth as [|? ? Hc _]; subst. cbn in Hc. lia.
  - rewrite makeAnnotations_S. unfold bind at 1. unfold lift at 1. rewrite Hget.
    unfold bind at 1. unfold lift at 1. cbn [iterate].
    clear Hget. revert w.
    induction children as [|[text props cs] rest IHrest]; intros w.
    + cbn. unfold ret. now rewrite pushed_nil.
    + inversion Henc as [|? ? Hc Hrest_enc]; subst.
      inversion Hdepth as [|? ? Hd Hrest_depth]; subst.
      inversion Hc as [? ? ? Hparse Hspaces Hcs]; subst.
      cbn [map for_each space_value flat_map preorder].
      unfold bind at 1. unfold bind at 1. unfold lift at 1.
      rewrite JSON_parse_line, Hparse.
      unfold bind at 1. rewrite addAnnotation_object.
      unfold bind at 1. unfold lift at 1. cbn [JS.get]. rewrite Hspaces.
      unfold bind at 1. unfold lift at 1. cbn [JS.length_gt_zero].
      assert (Hsub : forall w0,
                 (if Nat.ltb 0 (List.length (map space_value cs))
                  then makeAnnotations (S fuel) (VObj props) else ret tt) w0
                 = (Ok tt, pushed w0 (flat_map preorder cs))).
      { intros w0. destruct cs as [|c cs'].
        - cbn. unfold ret. now rewrite pushed_nil.
        - cbn [map List.length Nat.ltb Nat.leb].
          apply IH.
          + cbn [JS.get]. now rewrite Hspaces.
          + exact Hcs.
          + cbn [depth] in Hd. apply le_S_n in Hd. now apply depth_children. }
      rewrite Hsub. rewrite (IHrest Hrest_enc Hrest_depth).
      rewrite !pushed_app. reflexivity.
Qed.

(** X1. A line whose record has its spaces encoded as strings: the call returns
    normally, and the annotations added are those of the spaces below the
    record, none for the record itself, depth first in document order; there
    are as many of them as spaces. *)
Theorem parseJson_encoded_spaces (fuel : nat) (file : string) (w : World)
    (contents : value) (text : string) (children : list space_tree) :
  JSON_parse_text file = Some contents ->
  getFileMetrics contents = Ok text ->
  get contents "spaces" = Ok (VArr (map space_value children)) ->
  Forall encodes children ->
  Forall (fun c => depth c <= fuel) children ->
  exists w',
    parseJson (S fuel) file w = (Ok tt, w')
    /\ annotations (runner w') =
         annotations (runner w) ++ flat_map preorder children
    /\ List.length (flat_map preorder children) =
         fold_right (fun c n => spaces_count c + n) 0 children.
Proof.
  intros Hparse Htext Hspaces Henc Hdepth.
  rewrite (parseJson_json _ _ _ _ Hparse).
  unfold bind at 1. unfold file_jsons_push at 1. unfold bind at 1.
  unfold read at 1, set_runner at 1.
  unfold bind at 1. unfold lift at 1. rewrite Htext.
  unfold bind at 1. unfold file_metrics_push at 1. unfold bind at 1.
  unfold read at 1, set_runner at 1.
  unfold bind at 1. unfold lift at 1. rewrite Hspaces.
  unfold bind at 1. unfold lift at 1. cbn [JS.length_gt_zero].
  assert (Hcount : List.length (flat_map preorder children) =
                   fold_right (fun c n => spaces_count c + n) 0 children).
  { clear - Hdepth. induction children as [|c cs IH]; [reflexivity|].
    inversion Hdepth as [|? ? Hc Hcs]; subst.
    cbn [flat_map fold_right]. rewrite length_app, (preorder_length c fuel Hc).
    now rewrite IH. }
  destruct children as [|c cs].
  - cbn. unfold ret. eexists. split; [reflexivity|]. cbn. now rewrite app_nil_r.
  - cbn [map List.length Nat.ltb Nat.leb].
    rewrite (makeAnnotations_encoded fuel contents (c :: cs) _ Hspaces Henc Hdepth).
    eexists. split; [reflexivity|]. split; [reflexivity|exact Hcount].
Qed.

(** [getFileMetrics] of this revision does not read the [spaces] member: the
    block of a file is the same whatever its spaces. *)
Lemma getFileMetrics_ignores_spaces (props : list (string * value)) (x y : value) :
  getFileMetrics (VObj (("spaces", x) :: props)) =
  getFileMetrics (VObj (("spaces", y) :: props)).
Proof. reflexivity. Qed.

(* ------------------------------------------------------------------ *)
(** ** More on the buckets and on the requests of a cycle *)

(** X2. [getBucket] never fails. It returns the last annotations of the
    array, 50 of them or all when there are fewer, the last one first, and
    leaves the others in the array, in place: nothing is lost or repeated.
    On an empty array it returns an empty bucket. It changes nothing else of
    the runner and makes no remote call. *)
Theorem getBucket_takes_the_last (w : World) :
  exists bucket w',
    getBucket w = (Ok bucket, w')
    /\ List.length bucket = Nat.min 50 (List.length (annotations (runner w)))
    /\ annotations (runner w) = annotations (runner w') ++ List.rev bucket
    /\ (annotations (runner w) = [] -> bucket = [])
    /\ file_metrics (runner w') = file_metrics (runner w)
    /\ file_jsons (runner w') = file_jsons (runner w)
    /\ calls w' = calls w.
Proof.
  eexists. eexists. split; [apply getBucket_run|].
  cbn [runner calls with_annotations annotations file_metrics file_jsons].
  change BUCKET_SIZE with 50.
  set (stack := List.rev (annotations (runner w))).
  split; [|split; [|split]].
  - rewrite length_firstn. unfold stack. now rewrite length_rev.
  - rewrite <- rev_app_distr, firstn_skipn.
    unfold stack. now rewrite rev_involutive.
  - intros H. unfold stack. rewrite H. reflexivity.
  - auto.
Qed.

(** The fields of a request that do not depend on the page. *)
Definition addressed_to (checkRunId : number) (options : CheckOptions) (text : string)
    (req : UpdateParams) : Prop :=
  req_check_run_id req = checkRunId
  /\ req_owner req = owner options
  /\ req_repo req = repo options
  /\ req_name req = name options
  /\ output_title (req_output req) = name options
  /\ output_summary (req_output req) = ""
  /\ output_text (req_output req) = text.

Lemma expected_pages_addressed (checkRunId : number) (options : CheckOptions)
    (text : string) (fuel : nat) (h : list Call) (stack : list Annotation) :
  Forall (addressed_to checkRunId options text)
    (expected_pages fuel checkRunId options text h stack).
Proof.
  revert h stack. induction fuel as [|fuel IH]; intros h stack.
  - destruct stack; constructor.
  - destruct stack as [|a stack']; [constructor|].
    cbn [expected_pages]. constructor; [|apply IH].
    unfold page_request, addressed_to.
    destruct (skipn BUCKET_SIZE (a :: stack')); cbn; repeat split.
Qed.

(** X5. In a cycle whose create call and update calls all succeed, every
    update request carries the identifier the create call returned, the
    owner, repository and name of the options, the name as title, an empty
    summary and the same text: the report as it was when the cycle started,
    repeated on every page. The cycle leaves the array of annotations empty
    and the stored records and texts as they were. *)
Theorem executeCheck_requests_addressed (fuel : nat) (options : CheckOptions)
    (w : World) (client : Client) (checkRunId : number) :
  getOctokit (token options) USER_AGENT = Resolved client ->
  checks_create client (calls w) (create_params options) = Resolved checkRunId ->
  (forall h req, checks_update client h req = Resolved tt) ->
  List.length (annotations (runner w)) <= fuel ->
  exists w' reqs,
    executeCheck fuel options w = (Ok tt, w')
    /\ calls w' = calls w ++ Create (create_params options) :: map Update reqs
    /\ Forall (addressed_to checkRunId options
                 (rendered_text (rca_version options) (runner w))) reqs
    /\ annotations (runner w') = []
    /\ file_metrics (runner w') = file_metrics (runner w)
    /\ file_jsons (runner w') = file_jsons (runner w).
Proof.
  intros Hclient Hcreate Hupd Hfuel.
  destruct (executeCheck_resolved fuel options w client checkRunId
              Hclient Hcreate Hupd Hfuel) as [lg Hrun].
  eexists. exists (cycle_requests fuel checkRunId options w).
  split; [exact Hrun|]. split; [reflexivity|].
  cbn [runner with_annotations annotations file_metrics file_jsons].
  split; [|auto].
  unfold cycle_requests. destruct (annotations (runner w)) as [|a pending].
  - constructor; [|constructor]. unfold addressed_to, global_request; cbn. repeat split.
  - apply expected_pages_addressed.
Qed.

(** X3. When the second [try] of [executeCheck] raises an error and the
    cancellation call fails too, the error thrown is the one of the
    cancellation call: the error that was raised first is lost. The
    cancellation call is the last call made. *)
Theorem executeCheck_cancel_failure_masks (fuel : nat) (options : CheckOptions)
    (w w1 : World) (client : Client) (checkRunId : number) (error error' : exn) :
  getOctokit (token options) USER_AGENT = Resolved client ->
  checks_create client (calls w) (create_params options) = Resolved checkRunId ->
  completeCheck fuel client checkRunId options (called w (Create (create_params options)))
    = (Throw error, w1) ->
  checks_update client (calls w1)
    (cancel_request checkRunId options (now_iso (calls w1))) = Rejects error' ->
  executeCheck fuel options w =
    (Throw error',
     called w1 (Update (cancel_request checkRunId options (now_iso (calls w1))))).
Proof.
  intros Hclient Hcreate Hfail Hcancel.
  rewrite (executeCheck_created _ _ _ _ _ Hclient Hcreate).
  unfold try_catch. rewrite Hfail.
  unfold bind at 1. unfold cancelCheck. unfold bind at 1.
  unfold Date_now_toISOString, read.
  rewrite (client_checks_update_rejects _ _ _ _ Hcancel). reflexivity.
Qed.

(* ------------------------------------------------------------------ *)
(** ** Calls that fail, and the order of the calls *)

Lemma rendered_text_with_annotations (rcaVersion : string) (r : CheckRunner)
    (l : list Annotation) :
  rendered_text rcaVersion (with_annotations r l) = rendered_text rcaVersion r.
Proof. reflexivity. Qed.

(** One iteration of the loop, whatever the reply to the update. *)
Lemma allMetricsCheck_loop_unfold (client : Client) (checkRunId : number)
    (options : CheckOptions) (fuel : nat) (a : Annotation)
    (bucket' : list Annotation) (w : World) :
  exists lg,
    allMetricsCheck_loop (S fuel) client checkRunId options (a :: bucket') w =
    let req := page_request checkRunId options
                 (rendered_text (rca_version options) (runner w)) (calls w)
                 (a :: bucket') (List.rev (annotations (runner w))) in
    let w_sent := {| runner := runner w; log := lg;
                     calls := calls w ++ [Update req] |} in
    match checks_update client (calls w) req with
    | Resolved _ =>
        (next <- getBucket ;;
         allMetricsCheck_loop fuel client checkRunId options next) w_sent
    | Rejects e => (Throw e, w_sent)
    end.
Proof.
  cbn [allMetricsCheck_loop].
  unfold bind at 1. rewrite getText_run.
  unfold bind at 1. unfold read at 1.
  destruct (annotations (runner w)) as [|x pending] eqn:Hp.
  - exists (log w). cbn [List.rev]. cbv zeta.
    unfold bind at 1. unfold bind at 1. unfold Date_now_toISOString, read, ret.
    unfold bind at 1. unfold client_checks_update, await. cbn [runner log calls].
    unfold page_request.
    destruct (checks_update client (calls w) _) as [[]|e]; reflexivity.
  - exists (log w ++ [Debug ("This is not the last iteration, marking check as "
                             ^^ dquote ^^ "in_progress" ^^ dquote)]).
    pose proof (rev_cons_not_nil _ x pending) as Hne.
    destruct (List.rev (x :: pending)) as [|y rest] eqn:Hrev; [congruence|].
    cbv zeta.
    unfold bind at 1. unfold bind at 1. unfold core_debug, emit, ret.
    unfold bind at 1. unfold client_checks_update, await. cbn [runner log calls].
    unfold page_request.
    destruct (checks_update client (calls w) _) as [[]|e]; reflexivity.
Qed.

(** The first request of a cycle with pending annotations. *)
Definition first_page (checkRunId : number) (options : CheckOptions) (w : World)
  : UpdateParams :=
  let stack := List.rev (annotations (runner w)) in
  page_request checkRunId options (rendered_text (rca_version options) (runner w))
    (calls w ++ [Create (create_params options)])
    (firstn BUCKET_SIZE stack) (skipn BUCKET_SIZE stack).

(** X4. When the update call of the first page fails (and the cancellation
    call succeeds), no other page is sent: the calls of the cycle are the
    create call, that update and the cancellation, and the error of the
    update is thrown. The annotations of the page that failed have left the
    array and were not delivered; the others are still in the array. *)
Theorem executeCheck_rejected_page_is_lost (fuel : nat) (options : CheckOptions)
    (w : World) (client : Client) (checkRunId : number) (error : exn) :
  getOctokit (token options) USER_AGENT = Resolved client ->
  checks_create client (calls w) (create_params options) = Resolved checkRunId ->
  annotations (runner w) <> [] ->
  checks_update client (calls w ++ [Create (create_params options)])
    (first_page checkRunId options w) = Rejects error ->
  checks_update client
    ((calls w ++ [Create (create_params options)])
       ++ [Update (first_page checkRunId options w)])
    (cancel_request checkRunId options
       (now_iso ((calls w ++ [Create (create_params options)])
                   ++ [Update (first_page checkRunId options w)]))) = Resolved tt ->
  exists w' cancel,
    executeCheck (S fuel) options w = (Throw error, w')
    /\ calls w' = calls w ++ [Create (create_params options);
                              Update (first_page checkRunId options w);
                              Update cancel]
    /\ req_conclusion cancel = Some "cancelled"
    /\ batch (first_page checkRunId options w)
       = firstn 50 (List.rev (annotations (runner w)))
    /\ annotations (runner w)
       = annotations (runner w') ++ List.rev (batch (first_page checkRunId options w)).
Proof.
  intros Hclient Hcreate Hne Hfirst Hcancel.
  rewrite (executeCheck_created _ _ _ _ _ Hclient Hcreate).
  assert (Hbatch : batch (first_page checkRunId options w)
                   = firstn 50 (List.rev (annotations (runner w)))).
  { unfold first_page. cbv zeta. now rewrite batch_page_request. }
  assert (Hcomplete : exists lg,
    completeCheck (S fuel) client checkRunId options
      (called w (Create (create_params options)))
    = (Throw error,
       {| runner := with_annotations (runner w)
                      (List.rev (skipn BUCKET_SIZE (List.rev (annotations (runner w)))));
          log := lg;
          calls := (calls w ++ [Create (create_params options)])
                     ++ [Update (first_page checkRunId options w)] |})).
  { unfold completeCheck. unfold bind at 1. unfold read at 1. cbn [called runner].
    destruct (annotations (runner w)) as [|x pending] eqn:Hp; [congruence|].
    rewrite <- Hp in *.
    unfold allMetricsCheck. unfold bind at 1. rewrite getBucket_run.
    cbn [runner log calls called].
    set (stack := List.rev (annotations (runner w))).
    assert (Hstack : stack <> []).
    { unfold stack. rewrite Hp. apply rev_cons_not_nil. }
    destruct stack as [|a stack'] eqn:Hs; [congruence|]. rewrite <- Hs in *.
    assert (Hf : firstn BUCKET_SIZE stack = a :: firstn 49 stack')
      by (rewrite Hs; reflexivity).
    rewrite Hf.
    match goal with
    | |- context [allMetricsCheck_loop (S fuel) _ _ _ _ ?w1] =>
        destruct (allMetricsCheck_loop_unfold client checkRunId options fuel a
                    (firstn 49 stack') w1) as [lg Hstep]
    end.
    rewrite Hstep. cbv zeta.
    cbn [runner log calls with_annotations annotations file_metrics file_jsons].
    rewrite rev_involutive, rendered_text_with_annotations, <- Hf.
    fold stack. unfold first_page in Hfirst. cbv zeta in Hfirst. fold stack in Hfirst.
    rewrite Hfirst. exists lg. unfold first_page. cbv zeta. fold stack. reflexivity. }
  destruct Hcomplete as [lg Hcomplete].
  unfold try_catch. rewrite Hcomplete.
  unfold bind at 1. unfold cancelCheck. unfold bind at 1.
  unfold Date_now_toISOString, read. cbn [calls].
  rewrite client_checks_update_resolved by exact Hcancel.
  eexists. eexists. split; [reflexivity|].
  cbn [runner log calls with_annotations annotations].
  split; [now rewrite <- !app_assoc|]. split; [reflexivity|]. split; [exact Hbatch|].
  rewrite Hbatch. change BUCKET_SIZE with 50.
  rewrite <- rev_app_distr, firstn_skipn. now rewrite rev_involutive.
Qed.

(** From [w] to [w'], only update calls were made, all for the check
    [checkRunId]. *)
Definition sends_updates (checkRunId : number) (w w' : World) : Prop :=
  exists reqs,
    calls w' = calls w ++ map Update reqs
    /\ Forall (fun req => req_check_run_id req = checkRunId) reqs.

Lemma sends_updates_refl (checkRunId : number) (w w' : World) :
  calls w' = calls w -> sends_updates checkRunId w w'.
Proof. intros H. exists []. split; [now rewrite app_nil_r|constructor]. Qed.

Lemma sends_updates_trans (checkRunId : number) (w1 w2 w3 : World) :
  sends_updates checkRunId w1 w2 -> sends_updates checkRunId w2 w3 ->
  sends_updates checkRunId w1 w3.
Proof.
  intros (r1 & H1 & F1) (r2 & H2 & F2). exists (r1 ++ r2). split.
  - rewrite H2, H1, map_app. now rewrite app_assoc.
  - apply Forall_app. now split.
Qed.

Lemma sends_updates_one (checkRunId : number) (w w' : World) (req : UpdateParams) :
  calls w' = calls w ++ [Update req] ->
  req_check_run_id req = checkRunId ->
  sends_updates checkRunId w w'.
Proof. intros H E. exists [req]. split; [exact H|]. constructor; [exact E|constructor]. Qed.

Lemma page_request_check_run_id (checkRunId : number) (options : CheckOptions)
    (text : string) (h : list Call) (bucket rest : list Annotation) :
  req_check_run_id (page_request checkRunId options text h bucket rest) = checkRunId.
Proof. destruct rest; reflexivity. Qed.

Lemma allMetricsCheck_loop_sends (client : Client) (checkRunId : number)
    (options : CheckOptions) (fuel : nat) :
  forall bucket w,
    sends_updates checkRunId w
      (snd (allMetricsCheck_loop fuel client checkRunId options bucket w)).
Proof.
  induction fuel as [|fuel IH]; intros bucket w.
  - destruct bucket; apply sends_updates_refl; reflexivity.
  - destruct bucket as [|a bucket']; [apply sends_updates_refl; reflexivity|].
    destruct (allMetricsCheck_loop_unfold client checkRunId options fuel a bucket' w)
      as [lg Hstep].
    rewrite Hstep. cbv zeta.
    destruct (checks_update client (calls w) _) as [[]|e].
    + unfold bind. rewrite getBucket_run.
      eapply sends_updates_trans; [|apply IH].
      eapply sends_updates_one; [reflexivity|apply page_request_check_run_id].
    + eapply sends_updates_one; [reflexivity|apply page_request_check_run_id].
Qed.

Lemma completeCheck_sends (client : Client) (checkRunId : number)
    (options : CheckOptions) (fuel : nat) (w : World) :
  sends_updates checkRunId w (snd (completeCheck fuel client checkRunId options w)).
Proof.
  unfold completeCheck. unfold bind at 1. unfold read at 1.
  destruct (annotations (runner w)) as [|a pending].
  - unfold globalMetricsCheck. unfold bind at 1. unfold Date_now_toISOString, read.
    unfold bind at 1. rewrite getText_run.
    unfold client_checks_update, await.
    destruct (checks_update client (calls w) _) as [[]|e];
      (eapply sends_updates_one; [reflexivity|reflexivity]).
  - unfold allMetricsCheck. unfold bind at 1. rewrite getBucket_run.
    eapply sends_updates_trans; [|apply allMetricsCheck_loop_sends].
    apply sends_updates_refl. reflexivity.
Qed.

Lemma cancelCheck_sends (client : Client) (checkRunId : number)
    (options : CheckOptions) (w : World) :
  sends_updates checkRunId w (snd (cancelCheck client checkRunId options w)).
Proof.
  unfold cancelCheck. unfold bind at 1. unfold Date_now_toISOString, read.
  unfold client_checks_update, await.
  destruct (checks_update client (calls w) _) as [[]|e];
    (eapply sends_updates_one; [reflexivity|reflexivity]).
Qed.

(** X6. Whatever the client answers and whatever the fuel, [executeCheck]
    makes its calls in this order: nothing when no client can be had, else
    the create call, once and first, and after it update calls only. When
    the create call fails no update call follows; when it succeeds every
    update call carries the identifier it returned. *)
Theorem executeCheck_creates_once (fuel : nat) (options : CheckOptions) (w : World) :
  exists new,
    calls (snd (executeCheck fuel options w)) = calls w ++ new
    /\ (new = []
        \/ exists client reqs,
             getOctokit (token options) USER_AGENT = Resolved client
             /\ new = Create (create_params options) :: map Update reqs
             /\ (forall error,
                   checks_create client (calls w) (create_params options)
                     = Rejects error -> reqs = [])
             /\ (forall checkRunId,
                   checks_create client (calls w) (create_params options)
                     = Resolved checkRunId ->
                   Forall (fun req => req_check_run_id req = checkRunId) reqs)).
Proof.
  destruct (getOctokit (token options) USER_AGENT) as [client|e0] eqn:Hclient.
  - destruct (checks_create client (calls w) (create_params options))
      as [checkRunId|error] eqn:Hcreate.
    + rewrite (executeCheck_created _ _ _ _ _ Hclient Hcreate).
      set (w0 := called w (Create (create_params options))).
      assert (Hsends : sends_updates checkRunId w0
                (snd (try_catch (completeCheck fuel client checkRunId options)
                        (fun error => cancelCheck client checkRunId options ;; throw error)
                        w0))).
      { unfold try_catch.
        pose proof (completeCheck_sends client checkRunId options fuel w0) as Hc.
        destruct (completeCheck fuel client checkRunId options w0) as [[[]|e|] w1];
          cbn [snd] in *; try exact Hc.
        eapply sends_updates_trans; [exact Hc|].
        pose proof (cancelCheck_sends client checkRunId options w1) as Hk.
        unfold bind.
        destruct (cancelCheck client checkRunId options w1) as [[[]|e'|] w2];
          cbn [snd] in *; exact Hk. }
      destruct Hsends as (reqs & Hcalls & Hall).
      exists (Create (create_params options) :: map Update reqs). split.
      * rewrite Hcalls. unfold w0. cbn [called calls]. now rewrite <- app_assoc.
      * right. exists client, reqs. split; [reflexivity|]. split; [reflexivity|].
        split; [intros error H; congruence|].
        intros id H. assert (id = checkRunId) as -> by congruence. exact Hall.
    + rewrite (executeCheck_not_created _ _ _ _ _ Hclient Hcreate).
      exists [Create (create_params options)]. split.
      * destruct (env_truthy GITHUB_HEAD_REF); [|reflexivity].
        unfold bind, core_error, core_warning, core_info, emit.
        cbn [runner log calls called]. unfold dumpToStdout, bind, read.
        rewrite for_each_core_info. reflexivity.
      * right. exists client, []. split; [reflexivity|]. split; [reflexivity|].
        split; [reflexivity|]. intros id H. congruence.
  - exists []. split; [|left; reflexivity].
    unfold executeCheck. unfold bind at 1. unfold await at 1. rewrite Hclient.
    cbn. now rewrite app_nil_r.
Qed.

(* ------------------------------------------------------------------ *)
(** ** What a line can and cannot change *)

Section Relations.
Variable R : World -> World -> Prop.
Hypothesis R_refl : forall w, R w w.
Hypothesis R_trans : forall w1 w2 w3, R w1 w2 -> R w2 w3 -> R w1 w3.

Lemma bind_related {A B} (c : M A) (k : A -> M B) (w : World) :
  (forall w0, R w0 (snd (c w0))) ->
  (forall a w0, R w0 (snd (k a w0))) ->
  R w (snd (bind c k w)).
Proof.
  intros Hc Hk. unfold bind. specialize (Hc w).
  destruct (c w) as [[a|e|] w1]; cbn [snd] in *; try exact Hc.
  eapply R_trans; [exact Hc|apply Hk].
Qed.

Lemma for_each_related {A} (l : list A) (body : A -> M unit) :
  (forall x w0, R w0 (snd (body x w0))) ->
  forall w, R w (snd (for_each l body w)).
Proof.
  intros Hbody. induction l as [|x l IH]; intros w.
  - apply R_refl.
  - cbn [for_each]. apply bind_related; [apply Hbody|intros _; apply IH].
Qed.

End Relations.

(** From [w] to [w'], annotations were added at the end of the array and
    nothing else happened. *)
Definition only_annotates (w w' : World) : Prop :=
  calls w' = calls w
  /\ log w' = log w
  /\ file_jsons (runner w') = file_jsons (runner w)
  /\ file_metrics (runner w') = file_metrics (runner w)
  /\ exists added, annotations (runner w') = annotations (runner w) ++ added.

Lemma only_annotates_refl (w : World) : only_annotates w w.
Proof. repeat split. exists []. now rewrite app_nil_r. Qed.

Lemma only_annotates_trans (w1 w2 w3 : World) :
  only_annotates w1 w2 -> only_annotates w2 w3 -> only_annotates w1 w3.
Proof.
  intros (A & B & C & D & l1 & E) (A' & B' & C' & D' & l2 & E').
  repeat split; try congruence.
  exists (l1 ++ l2). rewrite E', E. now rewrite app_assoc.
Qed.

Lemma addAnnotation_only_annotates (contents : value) (w : World) :
  only_annotates w (snd (addAnnotation contents w)).
Proof.
  unfold addAnnotation.
  do 5 (apply (bind_related only_annotates only_annotates_trans);
        [intros; apply only_annotates_refl|intros]).
  unfold annotations_push, bind, read, set_runner. cbn.
  split; [reflexivity|]. split; [reflexivity|]. split; [reflexivity|].
  split; [reflexivity|]. eexists. reflexivity.
Qed.

Lemma makeAnnotations_only_annotates (fuel : nat) (contents : value) (w : World) :
  only_annotates w (snd (makeAnnotations fuel contents w)).
Proof.
  revert contents w. induction fuel as [|fuel IH]; intros contents w.
  - apply only_annotates_refl.
  - rewrite makeAnnotations_S.
    apply (bind_related only_annotates only_annotates_trans);
      [intros; apply only_annotates_refl|intros spaces w0].
    apply (bind_related only_annotates only_annotates_trans);
      [intros; apply only_annotates_refl|intros elems w1].
    apply (for_each_related only_annotates only_annotates_refl only_annotates_trans).
    intros space w2.
    apply (bind_related only_annotates only_annotates_trans);
      [intros; apply only_annotates_refl|intros space_obj w3].
    apply (bind_related only_annotates only_annotates_trans);
      [intros; apply addAnnotation_only_annotates|intros _ w4].
    apply (bind_related only_annotates only_annotates_trans);
      [intros; apply only_annotates_refl|intros sub w5].
    apply (bind_related only_annotates only_annotates_trans);
      [intros; apply only_annotates_refl|intros more w6].
    destruct more; [apply IH|apply only_annotates_refl].
Qed.

(** The steps of [parseJson] after the record and its text are stored. *)
Lemma parseJson_tail_only_annotates (fuel : nat) (contents : value) (w : World) :
  only_annotates w
    (snd ((spaces <- lift (get contents "spaces") ;;
           nonempty <- lift (length_gt_zero spaces) ;;
           if (nonempty : bool) then makeAnnotations fuel contents else ret tt) w)).
Proof.
  apply (bind_related only_annotates only_annotates_trans);
    [intros; apply only_annotates_refl|intros spaces w0].
  apply (bind_related only_annotates only_annotates_trans);
    [intros; apply only_annotates_refl|intros nonempty w1].
  destruct nonempty; [apply makeAnnotations_only_annotates|apply only_annotates_refl].
Qed.

(** The world once the record of a line is stored, and once its text is. *)
Definition record_stored (w : World) (contents : value) : World :=
  {| runner := {| annotations := annotations (runner w);
                  file_metrics := file_metrics (runner w);
                  file_jsons := file_jsons (runner w) ++ [Object_assign_empty contents] |};
     log := log w; calls := calls w |}.

Definition text_stored (w : World) (contents : value) (text : string) : World :=
  {| runner := {| annotations := annotations (runner w);
                  file_metrics := file_metrics (runner w) ++ [text];
                  file_jsons := file_jsons (runner w) ++ [Object_assign_empty contents] |};
     log := log w; calls := calls w |}.

(** A line that decodes, by the outcome of the rendering. *)
Lemma parseJson_json_run (fuel : nat) (file : string) (w : World) (contents : value) :
  JSON_parse_text file = Some contents ->
  parseJson fuel file w =
    match getFileMetrics contents with
    | Ok text =>
        (spaces <- lift (get contents "spaces") ;;
         nonempty <- lift (length_gt_zero spaces) ;;
         if (nonempty : bool) then makeAnnotations fuel contents else ret tt)
          (text_stored w contents text)
    | Throw e => (Throw e, record_stored w contents)
    | OutOfFuel => (OutOfFuel, record_stored w contents)
    end.
Proof.
  intros H. rewrite (parseJson_json _ _ _ _ H).
  unfold bind at 1. unfold file_jsons_push at 1. unfold bind at 1.
  unfold read at 1, set_runner at 1.
  unfold bind at 1. unfold lift at 1.
  destruct (getFileMetrics contents) as [text|e|]; reflexivity.
Qed.

(** X7. Whatever the line, the fuel and the outcome, [parseJson] makes no
    remote call, removes nothing from the arrays of the runner and adds to
    them at most one stored record (exactly when the line decodes), at most
    one text, and annotations at the end. When it returns normally the
    stored records and the texts have grown by the same number; so lines that
    are all handled normally leave the two arrays with the same length, if
    they had it before. *)
Theorem parseJson_keeps_arrays_in_step (fuel : nat) (file : string) (w : World) :
  calls (snd (parseJson fuel file w)) = calls w
  /\ file_jsons (runner (snd (parseJson fuel file w)))
     = file_jsons (runner w) ++ parsed_record file
  /\ (exists texts,
        file_metrics (runner (snd (parseJson fuel file w)))
          = file_metrics (runner w) ++ texts
        /\ List.length texts <= List.length (parsed_record file)
        /\ (fst (parseJson fuel file w) = Ok tt ->
            List.length texts = List.length (parsed_record file)))
  /\ (exists added,
        annotations (runner (snd (parseJson fuel file w)))
          = annotations (runner w) ++ added)
  /\ (forall lines w1,
        for_each lines (parseJson fuel) w = (Ok tt, w1) ->
        List.length (file_metrics (runner w)) = List.length (file_jsons (runner w)) ->
        List.length (file_metrics (runner w1)) = List.length (file_jsons (runner w1))).
Proof.
  assert (Hone : forall file0 w0,
    calls (snd (parseJson fuel file0 w0)) = calls w0
    /\ (exists texts,
          file_metrics (runner (snd (parseJson fuel file0 w0)))
            = file_metrics (runner w0) ++ texts
          /\ List.length texts <= List.length (parsed_record file0)
          /\ (fst (parseJson fuel file0 w0) = Ok tt ->
              List.length texts = List.length (parsed_record file0)))
    /\ (exists added,
          annotations (runner (snd (parseJson fuel file0 w0)))
            = annotations (runner w0) ++ added)).
  { intros file0 w0.
    unfold parsed_record. destruct (JSON_parse_text file0) as [contents|] eqn:H.
    - rewrite (parseJson_json_run _ _ _ _ H).
      destruct (getFileMetrics contents) as [text|e|].
      + destruct (parseJson_tail_only_annotates fuel contents
                    (text_stored w0 contents text))
          as (Hc & _ & _ & Hm & added & Ha).
        split; [exact Hc|]. split.
        * exists [text]. split; [exact Hm|]. split; [reflexivity|reflexivity].
        * exists added. exact Ha.
      + cbn. split; [reflexivity|]. split.
        * exists []. split; [now rewrite app_nil_r|]. split; [cbn; lia|discriminate].
        * exists []. now rewrite app_nil_r.
      + cbn. split; [reflexivity|]. split.
        * exists []. split; [now rewrite app_nil_r|]. split; [cbn; lia|discriminate].
        * exists []. now rewrite app_nil_r.
    - rewrite (parseJson_not_json _ _ _ H). cbn. split; [reflexivity|]. split.
      + exists []. split; [now rewrite app_nil_r|]. split; [cbn; lia|reflexivity].
      + exists []. now rewrite app_nil_r. }
  destruct (Hone file w) as (H1 & H3 & H4).
  split; [exact H1|]. split; [apply parseJson_file_jsons|].
  split; [exact H3|]. split; [exact H4|].
  clear H1 H3 H4.
  intros lines. revert w. induction lines as [|l lines IH]; intros w0 w1 Hrun Hlen.
  - cbn in Hrun. unfold ret in Hrun. injection Hrun as <-. exact Hlen.
  - cbn [for_each] in Hrun. unfold bind in Hrun.
    destruct (Hone l w0) as (_ & (texts & Hm & _ & Hok) & _).
    pose proof (parseJson_file_jsons fuel l w0) as Hj.
    destruct (parseJson fuel l w0) as [[[]|e|] w2]; try discriminate.
    cbn [fst snd] in *. apply (IH w2 w1 Hrun).
    rewrite Hm, Hj, !length_app, (Hok eq_refl). lia.
Qed.

(* ------------------------------------------------------------------ *)
(** ** Records with a member missing *)

(** Induction on a value: a property holds of an array as soon as it holds
    of its elements. *)
Lemma value_array_ind (P : value -> Prop) :
  P VUndefined -> P VNull -> (forall b, P (VBool b)) -> (forall n, P (VNum n)) ->
  (forall s, P (VStr s)) ->
  (forall elems, Forall P elems -> P (VArr elems)) ->
  (forall props, P (VObj props)) ->
  forall v, P v.
Proof.
  intros Hu Hn Hb Hnum Hs Harr Hobj.
  fix IH 1. intros [| |b|n|s|elems|props].
  - exact Hu.
  - exact Hn.
  - apply Hb.
  - apply Hnum.
  - apply Hs.
  - apply Harr. induction elems as [|x rest IHrest]; constructor.
    + apply IH.
    + exact IHrest.
  - apply Hobj.
Qed.

Lemma ToString_array_cons (x : value) (rest : list value) :
  ToString (VArr (x :: rest)) =
    obind (match x with
           | VUndefined | VNull => Ok ""
           | _ => ToString x
           end)
      (fun sx =>
         match rest with
         | [] => Ok sx
         | _ :: _ => obind (ToString (VArr rest)) (fun sr => Ok (sx ^^ "," ^^ sr))
         end).
Proof. reflexivity. Qed.

(** A conversion to string gives a string or raises [TypeError]. *)
Lemma ToString_outcome (v : value) :
  (exists s, ToString v = Ok s) \/ ToString v = Throw TypeError.
Proof.
  induction v as [| |b|n|s|elems IH|props] using value_array_ind;
    try (left; eexists; reflexivity).
  - left. destruct b; eexists; reflexivity.
  - induction elems as [|x rest IHrest].
    + left. eexists. reflexivity.
    + inversion IH as [|? ? Hx Hrest]; subst. specialize (IHrest Hrest).
      rewrite ToString_array_cons.
      assert (Hhead : (exists s, match x with
                                 | VUndefined | VNull => Ok ""
                                 | _ => ToString x
                                 end = Ok s)
                      \/ match x with
                         | VUndefined | VNull => Ok ""
                         | _ => ToString x
                         end = Throw TypeError).
      { destruct x; try exact Hx; left; eexists; reflexivity. }
      destruct Hhead as [[sx ->]| ->]; [|right; reflexivity].
      cbn [obind]. destruct rest as [|y rest']; [left; eexists; reflexivity|].
      destruct IHrest as [[sr ->]| ->]; [left; eexists; reflexivity|right; reflexivity].
  - cbn [JS.ToString]. destruct (lookup "toString" props);
      [right; reflexivity|left; eexists; reflexivity].
Qed.

Lemma get_outcome (v : value) (k : string) :
  (exists x, get v k = Ok x) \/ get v k = Throw TypeError.
Proof.
  destruct v; cbn [JS.get]; try (left; eexists; reflexivity);
    try (right; reflexivity).
  - destruct (String.eqb k "length"); left; eexists; reflexivity.
  - destruct (String.eqb k "length"); left; eexists; reflexivity.
  - destruct (lookup k props); left; eexists; reflexivity.
Qed.

Lemma read_keys_outcome (keys : list string) :
  forall v, (exists x, read_keys v keys = Ok x) \/ read_keys v keys = Throw TypeError.
Proof.
  induction keys as [|k keys IH]; intros v.
  - left. eexists. reflexivity.
  - cbn [read_keys]. destruct (get_outcome v k) as [[x ->]| ->];
      [apply IH|right; reflexivity].
Qed.

(** A template gives a text or raises [TypeError]; when it gives a text,
    every substitution could be read. *)
Lemma template_outcome (segments : list segment) (m : value) :
  (exists t, template segments m = Ok t
             /\ forall keys, In (Sub keys) segments ->
                             exists x, read_keys m keys = Ok x)
  \/ template segments m = Throw TypeError.
Proof.
  induction segments as [|[text|keys] rest IH].
  - left. eexists. split; [reflexivity|]. intros keys [].
  - cbn [template]. destruct IH as [(t & -> & Hreads)| ->]; [|right; reflexivity].
    left. eexists. split; [reflexivity|].
    intros keys [H|H]; [discriminate|auto].
  - cbn [template].
    destruct (read_keys_outcome keys m) as [[x Hx]|Hx]; rewrite Hx;
      [|right; reflexivity].
    cbn [obind]. destruct (ToString_outcome x) as [[sx ->]| ->]; [|right; reflexivity].
    cbn [obind]. destruct IH as [(t & -> & Hreads)| ->]; [|right; reflexivity].
    left. eexists. split; [reflexivity|].
    intros keys' [H|H]; [injection H as <-; eauto|auto].
Qed.

(** The groups of metrics [getMetrics] reads members of. *)
Definition metric_groups : list string :=
  ["cyclomatic"; "loc"; "nom"; "halstead"; "mi"].

Lemma metric_groups_read (group : string) :
  In group metric_groups ->
  exists member, In (Sub [group; member]) getMetrics_template.
Proof.
  intros [<-|[<-|[<-|[<-|[<-|[]]]]]].
  - exists "sum". unfold getMetrics_template. cbn. tauto.
  - exists "sloc". unfold getMetrics_template. cbn. tauto.
  - exists "functions". unfold getMetrics_template. cbn. tauto.
  - exists "n1". unfold getMetrics_template. cbn. tauto.
  - exists "mi_original". unfold getMetrics_template. cbn. tauto.
Qed.

(** X10. [getMetrics] gives a text or raises [TypeError], nothing else. It
    raises [TypeError] as soon as one of the five groups (cyclomatic, loc,
    nom, halstead, mi) is missing or null in the metrics, and when the
    metrics themselves are missing or null. *)
Theorem getMetrics_needs_every_group (metrics : value) :
  ((exists text, getMetrics metrics = Ok text)
   \/ getMetrics metrics = Throw TypeError)
  /\ (forall group,
        In group metric_groups ->
        (forall x, get metrics group = Ok x -> x = VUndefined \/ x = VNull) ->
        getMetrics metrics = Throw TypeError).
Proof.
  unfold getMetrics.
  destruct (template_outcome getMetrics_template metrics) as [(t & Ht & Hreads)|Ht].
  - split; [left; eauto|].
    intros group Hin Hmissing. exfalso.
    destruct (metric_groups_read group Hin) as [member Hmember].
    destruct (Hreads _ Hmember) as [x Hx].
    cbn [read_keys] in Hx.
    destruct (get metrics group) as [y|e|] eqn:Hy; cbn [obind] in Hx; try discriminate.
    destruct (Hmissing y eq_refl) as [-> | ->]; cbn in Hx; discriminate.
  - split; [right; exact Ht|]. intros; exact Ht.
Qed.

Lemma getMetrics_undefined : getMetrics VUndefined = Throw TypeError.
Proof. reflexivity. Qed.

Lemma getMetrics_null : getMetrics VNull = Throw TypeError.
Proof. reflexivity. Qed.

(** X8. A line that decodes to a value without metrics (an object whose
    [metrics] member is missing or null, a number, a string, an array, null)
    makes [parseJson] raise [TypeError], whatever the fuel: the copy of the
    value is already stored in [file_jsons] by then, but no text is stored
    and no annotation is added, so the stored records are one more than the
    texts. *)
Theorem parseJson_without_metrics (fuel : nat) (file : string) (w : World)
    (contents : value) :
  JSON_parse_text file = Some contents ->
  (forall x, get contents "metrics" = Ok x -> x = VUndefined \/ x = VNull) ->
  exists w',
    parseJson fuel file w = (Throw TypeError, w')
    /\ file_jsons (runner w') = file_jsons (runner w) ++ [Object_assign_empty contents]
    /\ file_metrics (runner w') = file_metrics (runner w)
    /\ annotations (runner w') = annotations (runner w)
    /\ calls w' = calls w.
Proof.
  intros Hparse Hmissing.
  assert (Hrender : getFileMetrics contents = Throw TypeError).
  { unfold getFileMetrics.
    destruct (get_outcome contents "name") as [[nv ->]| ->]; [|reflexivity].
    cbn [obind]. destruct (ToString_outcome nv) as [[s ->]| ->]; [|reflexivity].
    cbn [obind]. destruct (get_outcome contents "metrics") as [[x Hx]|Hx];
      rewrite Hx; [|reflexivity].
    cbn [obind]. destruct (Hmissing x Hx) as [-> | ->].
    - now rewrite getMetrics_undefined.
    - now rewrite getMetrics_null. }
  rewrite (parseJson_json_run _ _ _ _ Hparse), Hrender.
  eexists. split; [reflexivity|]. cbn. auto.
Qed.

(** X9. A line whose record renders but has no array of spaces (the
    [spaces] member is missing or null) is not handled as a record without
    spaces: [parseJson] raises [TypeError], whatever the fuel, after the
    record and its text were stored; no annotation is added. *)
Theorem parseJson_without_spaces (fuel : nat) (file : string) (w : World)
    (contents : value) (text : string) :
  JSON_parse_text file = Some contents ->
  getFileMetrics contents = Ok text ->
  (forall x, get contents "spaces" = Ok x -> x = VUndefined \/ x = VNull) ->
  exists w',
    parseJson fuel file w = (Throw TypeError, w')
    /\ file_jsons (runner w') = file_jsons (runner w) ++ [Object_assign_empty contents]
    /\ file_metrics (runner w') = file_metrics (runner w) ++ [text]
    /\ annotations (runner w') = annotations (runner w)
    /\ calls w' = calls w.
Proof.
  intros Hparse Htext Hmissing.
  rewrite (parseJson_json_run _ _ _ _ Hparse), Htext.
  unfold bind at 1. unfold lift at 1.
  destruct (get_outcome contents "spaces") as [[x Hx]|Hx]; rewrite Hx.
  - unfold bind at 1. unfold lift at 1.
    destruct (Hmissing x Hx) as [-> | ->]; cbn [JS.length_gt_zero];
      (eexists; split; [reflexivity|]; cbn; auto).
  - eexists. split; [reflexivity|]. cbn. auto.
Qed.

(** X11. A line whose record renders and has an empty array of spaces is
    handled normally whatever the fuel, even none: the record and its text
    are stored, [makeAnnotations] is not called and no annotation is added. *)
Theorem parseJson_without_subspaces (fuel : nat) (file : string) (w : World)
    (contents : value) (text : string) :
  JSON_parse_text file = Some contents ->
  getFileMetrics contents = Ok text ->
  get contents "spaces" = Ok (VArr []) ->
  exists w',
    parseJson fuel file w = (Ok tt, w')
    /\ file_jsons (runner w') = file_jsons (runner w) ++ [Object_assign_empty contents]
    /\ file_metrics (runner w') = file_metrics (runner w) ++ [text]
    /\ annotations (runner w') = annotations (runner w)
    /\ calls w' = calls w
    /\ log w' = log w.
Proof.
  intros Hparse Htext Hspaces.
  rewrite (parseJson_json_run _ _ _ _ Hparse), Htext.
  unfold bind at 1. unfold lift at 1. rewrite Hspaces.
  unfold bind at 1. unfold lift at 1. cbn [JS.length_gt_zero List.length Nat.ltb Nat.leb].
  eexists. split; [reflexivity|]. cbn. auto 10.
Qed.

(* ------------------------------------------------------------------ *)
(** ** Pages with any client *)



(* ------------------------------------------------------------------ *)
(** ** Extraction that fails on the way *)

(** The body of the loop of [makeAnnotations], with [fuel] for the nested
    calls. *)
Definition space_step (fuel : nat) (space : value) : M unit :=
  space_obj <- lift (JSON_parse space) ;;
  addAnnotation space_obj ;;
  subspaces <- lift (get space_obj "spaces") ;;
  more <- lift (length_gt_zero subspaces) ;;
  if (more : bool) then makeAnnotations fuel space_obj else ret tt.

Lemma makeAnnotations_loop (fuel : nat) (contents : value) (elems : list value)
    (w : World) :
  get contents "spaces" = Ok (VArr elems) ->
  makeAnnotations (S fuel) contents w = for_each elems (space_step fuel) w.
Proof.
  intros H. rewrite makeAnnotations_S. unfold bind at 1. unfold lift at 1. rewrite H.
  reflexivity.
Qed.

Lemma for_each_app {A} (l1 l2 : list A) (body : A -> M unit) (w : World) :
  for_each (l1 ++ l2) body w = (for_each l1 body ;; for_each l2 body) w.
Proof.
  revert w. induction l1 as [|x l1 IH]; intros w.
  - reflexivity.
  - cbn [app for_each]. unfold bind.
    destruct (body x w) as [[[]|e|] w1]; try reflexivity.
    rewrite IH. unfold bind. reflexivity.
Qed.

Lemma for_each_encoded (fuel : nat) (children : list space_tree) (w : World) :
  Forall encodes children ->
  Forall (fun c => depth c <= fuel) children ->
  for_each (map space_value children) (space_step fuel) w
    = (Ok tt, pushed w (flat_map preorder children)).
Proof.
  intros Henc Hdepth.
  rewrite <- (makeAnnotations_loop fuel
                (VObj [("spaces", VArr (map space_value children))])); [|reflexivity].
  apply makeAnnotations_encoded; [reflexivity|exact Henc|exact Hdepth].
Qed.

(** X17. Extraction is not all or nothing. When the spaces of a record are
    strings holding the text of each space, up to one that is not JSON, then
    [makeAnnotations] raises [SyntaxError] at that one: the annotations of
    the spaces before it, with their subspaces, are in the array already and
    stay there; nothing is extracted from the spaces after it. *)
Theorem makeAnnotations_stops_at_bad_space (fuel : nat) (contents : value)
    (children : list space_tree) (bad : string) (rest : list value) (w : World) :
  get contents "spaces" = Ok (VArr (map space_value children ++ VStr bad :: rest)) ->
  Forall encodes children ->
  Forall (fun c => depth c <= fuel) children ->
  JSON_parse_text bad = None ->
  makeAnnotations (S fuel) contents w
    = (Throw SyntaxError, pushed w (flat_map preorder children)).
Proof.
  intros Hspaces Henc Hdepth Hbad.
  rewrite (makeAnnotations_loop _ _ _ _ Hspaces), for_each_app.
  unfold bind at 1. rewrite (for_each_encoded _ _ _ Henc Hdepth).
  cbn [for_each]. unfold bind at 1. unfold space_step. unfold bind at 1.
  unfold lift at 1. rewrite JSON_parse_line, Hbad. reflexivity.
Qed.

End Runner.

Arguments runner {number} _.
Arguments log {number} _.
Arguments calls {number} _.
Arguments annotations {number} _.
Arguments file_metrics {number} _.
Arguments file_jsons {number} _.
Arguments Create {number} _.
Arguments Update {number} _.
Arguments ret {number A} _ _.
Arguments bind {number A B} _ _ _.
Arguments throw {number A} _ _.
Arguments await {number A} _ _.
Arguments try_catch {number A} _ _ _.
Arguments set_runner {number} _ _.
Arguments emit {number} _ _.
Arguments core_error {number} _ _.

End CheckAnnotations.

(* ================================================================== *)
(** * The report with nested spaces, on decoded values *)
(* ================================================================== *)

(** The same revision of [check.ts] as [CheckSpaces], read as it runs: on
    the values [JSON.parse] returns, whatever their shape. *)
Module CheckSpacesRuntime.
Import JS.

Section Runtime.
Variable number : Type.
Variable number_of_nat : nat -> number.
Variable number_to_string : number -> string.
Variable JSON_parse_text : string -> option (value number).
Variable js_gt_zero : value number -> bool.

Notation value := (JS.value number).
Notation get := (JS.get number_of_nat).
Notation ToString := (JS.ToString number_to_string).
Notation JSON_parse := (JS.JSON_parse number_to_string JSON_parse_text).
Notation length_gt_zero := (JS.length_gt_zero js_gt_zero).
Notation template := (CheckAnnotations.template number number_of_nat number_to_string).
Notation Lit := CheckAnnotations.Lit.
Notation Sub := CheckAnnotations.Sub.
Notation "x <- c ;; k" := (obind c (fun x => k))
  (at level 61, c at next level, right associativity).

(** The template literal of [getMetrics]. *)
Definition getMetrics_template : list CheckAnnotations.segment :=
  [ Lit "<details>
  <summary>Nargs</summary>

  <ul><li>Sum: ";
  Sub ["nargs"];
  Lit "</li></ul>
  </details>
  <details>
  <summary>Nexits</summary>

  <ul><li>Sum: ";
  Sub ["nexits"];
  Lit "</li></ul>
  </details>
  <details>
  <summary>Cognitive</summary>

  <ul><li>Sum: ";
  Sub ["cognitive"];
  Lit "</li></ul>
  </details>
  <details>
  <summary>Cyclomatic</summary>

  <ul>
  <li>Sum: ";
  Sub ["cyclomatic";"sum"];
  Lit "</li>
  <li>Average: ";
  Sub ["cyclomatic";"average"];
  Lit "</li>
  </ul>
  </details>
  <details>
  <summary>Loc</summary>

  <ul>
  <li>Sloc: ";
  Sub ["loc";"sloc"];
  Lit "</li>
  <li>Ploc: ";
  Sub ["loc";"ploc"];
  Lit "</li>
  <li>Lloc: ";
  Sub ["loc";"lloc"];
  Lit "</li>
  <li>Cloc: ";
  Sub ["loc";"cloc"];
  Lit "</li>
  <li>Blank: ";
  Sub ["loc";"blank"];
  Lit "</li>
  </ul>
  </details>
  <details>
  <summary>Nom</summary>

  <ul>
  <li>Functions: ";
  Sub ["nom";"functions"];
  Lit "</li>
  <li>Closures: ";
  Sub ["nom";"closures"];
  Lit "</li>
  <li>Total: ";
  Sub ["nom";"total"];
  Lit "</li>
  </ul>
  </details>
  <details>
  <summary>Halstead</summary>

  <ul>
  <li>n1: ";
  Sub ["halstead";"n1"];
  Lit "</li>
  <li>N1: ";
  Sub ["halstead";"N1"];
  Lit "</li>
  <li>n2: ";
  Sub ["halstead";"n2"];
  Lit "</li>
  <li>N2: ";
  Sub ["halstead";"N2"];
  Lit "</li>
  <li>Length: ";
  Sub ["halstead";"length"];
  Lit "</li>
  <li>Estimated program length: ";
  Sub ["halstead";"estimated_program_length"];
  Lit "</li>
  <li>Purity ratio: ";
  Sub ["halstead";"purity_ratio"];
  Lit "</li>
  <li>Vocabulary: ";
  Sub ["halstead";"vocabulary"];
  Lit "</li>
  <li>Volume: ";
  Sub ["halstead";"volume"];
  Lit "</li>
  <li>Difficulty: ";
  Sub ["halstead";"difficulty"];
  Lit "</li>
  <li>Level: ";
  Sub ["halstead";"level"];
  Lit "</li>
  <li>Effort: ";
  Sub ["halstead";"effort"];
  Lit "</li>
  <li>Time: ";
  Sub ["halstead";"time"];
  Lit "</li>
  <li>Bugs: ";
  Sub ["halstead";"bugs"];
  Lit "</li>
  </ul>
  </details>
  <details>
  <summary>Maintainability Index</summary>

  <ul>
  <li>Original: ";
  Sub ["mi";"mi_original"];
  Lit "</li>
  <li>Visual studio: ";
  Sub ["mi";"mi_visual_studio"];
  Lit "</li>
  <li>Sei: ";
  Sub ["mi";"mi_sei"];
  Lit "</li>
  </ul>
  </details>" ].

(** [getMetrics]: the metrics of one file or space, as markdown. *)
Definition getMetrics (metrics : value) : outcome string :=
  template getMetrics_template metrics.

(** The name shown for a space: [name] after the [if] of the loop. *)
Definition shown_name (space_name : value) : value :=
  match space_name with
  | VStr s => if String.eqb s "<anonymous>" then VStr "unnamed space" else space_name
  | _ => space_name
  end.

(** [getSpaceMetrics]: the spaces of a file or of a space, as markdown.
    Every nested call spends one unit of [fuel]. *)
Fixpoint getSpaceMetrics (fuel : nat) (spaces : value) : outcome string :=
  match fuel with
  | 0 => OutOfFuel
  | S fuel' =>
      elems <- iterate spaces ;;
      spaces_str <-
        (fix loop (l : list value) (spaces_str : string) : outcome string :=
           match l with
           | [] => Ok spaces_str
           | space :: rest =>
               space_name <- get space "name" ;;
               name_text <- ToString (shown_name space_name) ;;
               metrics <- get space "metrics" ;;
               metrics_text <- getMetrics metrics ;;
               let s := "<li><details>
<summary><b>"
^^ name_text
^^ "</b></summary>

<ul>
<li>
<details>
<summary><b>Metrics</b></summary>

  "
^^ metrics_text
^^ "
</details></li>
" in
               subspaces <- get space "spaces" ;;
               more <- length_gt_zero subspaces ;;
               s <- (if (more : bool) then
                       let s := s ^^ "<li><details>
<summary><b>Spaces</b></summary>

" in
                       nested <- getSpaceMetrics fuel' subspaces ;;
                       let s := s ^^ nested in
                       Ok (s ^^ "</details></li></ul>
")
                     else Ok s) ;;
               let s := s ^^ "</details></li>
" in
               loop rest (spaces_str ^^ s)
           end) elems "<ul>" ;;
      Ok (spaces_str ^^ "</ul>")
  end.

(** [getFileMetrics]: the block of one file. *)
Definition getFileMetrics (fuel : nat) (contents : value) : outcome string :=
  name_v <- get contents "name" ;;
  name_text <- ToString name_v ;;
  metrics <- get contents "metrics" ;;
  metrics_text <- getMetrics metrics ;;
  let s := "<details>
<summary><b>"
^^ name_text
^^ "</b></summary>

<ul>
<li>
  <details>
  <summary><b>Global</b></summary>

  "
^^ metrics_text
^^ "
  </details>
</li>
" in
  spaces <- get contents "spaces" ;;
  nonempty <- length_gt_zero spaces ;;
  s <- (if (nonempty : bool) then
          spaces_text <- getSpaceMetrics fuel spaces ;;
          Ok (s ^^ ("<li><details>
<summary><b>Spaces</b></summary>

"
^^ spaces_text
^^ "
</details></li>
"))
        else Ok s) ;;
  Ok (s ^^ "</details></ul>").

(** The fields of this [CheckRunner]. *)
Record CheckRunner : Type := {
  file_metrics : list string;
  file_jsons : list value }.

(** [parseJson]: one line of the output of the tool. The outcome comes with
    the runner as the call leaves it; [true] tells that the debug message was
    written. *)
Definition parseJson (fuel : nat) (file : string) (r : CheckRunner)
  : outcome bool * CheckRunner :=
  match JSON_parse (VStr file) with
  | Ok contents =>
      let r1 := {| file_metrics := file_metrics r;
                   file_jsons := file_jsons r ++ [contents] |} in
      match getFileMetrics fuel contents with
      | Ok text =>
          (Ok false, {| file_metrics := file_metrics r1 ++ [text];
                        file_jsons := file_jsons r1 |})
      | Throw e => (Throw e, r1)
      | OutOfFuel => (OutOfFuel, r1)
      end
  | Throw _ => (Ok true, r)
  | OutOfFuel => (OutOfFuel, r)
  end.

(** [getText]: the text shown in the check. *)
Definition getText (rcaVersion : string) (r : CheckRunner) : string :=
  "## Info
|          Name          |    Version    |
|:----------------------:|:-------------:|
| rust-code-analysis-cli | "
^^ rcaVersion
^^ " |

## Files Metrics

"
^^ CheckAnnotations.join "

---

" (file_metrics r).

(** ** Records of the declared shape, as values *)

Notation RcaFile := (CheckSpaces.RcaFile number).
Notation mkRcaFile := (CheckSpaces.mkRcaFile number).

















End Runtime.
End CheckSpacesRuntime.

(* ================================================================== *)
(** * The action *)
(* ================================================================== *)

(** [run] of [main.ts], with [RcaCli.get] and the parsed input. *)
Module Main.
Import JS CheckAnnotations.

(** [interface Input]. *)
Record Input : Type := {
  input_token : string;
  input_directory : string;
  input_name : string }.

(** What [run] reads of [github.context]. *)
Record GitHubContext : Type := {
  context_sha : string;
  context_pull_request_head_sha : option string;
  context_repo_owner : string;
  context_repo_repo : string }.

Section Run.
Variable number : Type.
Variable number_of_nat : nat -> number.
Variable number_to_string : number -> string.
Variable JSON_parse_text : string -> option (value number).
Variable js_gt_zero : value number -> bool.
Variable JSON_stringify_pretty : value number -> string.
Variable exn_to_string : exn -> string.
Variable getOctokit : string -> string -> reply (Client number).
Variable USER_AGENT : string.
Variable now_iso : list (Call number) -> string.
Variable GITHUB_HEAD_REF : option string.

Notation M := (CheckAnnotations.M number).
Notation World := (CheckAnnotations.World number).
Notation parseJson :=
  (CheckAnnotations.parseJson number number_of_nat number_to_string
     JSON_parse_text js_gt_zero).
Notation executeCheck :=
  (CheckAnnotations.executeCheck number JSON_stringify_pretty exn_to_string
     getOctokit USER_AGENT now_iso GITHUB_HEAD_REF).
Notation "x <- c ;; k" := (bind c (fun x => k))
  (at level 61, c at next level, right associativity).
Notation "c ;; k" := (bind c (fun _ => k))
  (at level 61, right associativity).

(** [io.which(tool, true)]. *)
Variable io_which : string -> bool -> reply string.
(** [program.call(['-V'], ...)]: what its [stdout] listener leaves in
    [rcaVersion]. *)
Variable exec_version : string -> reply string.
(** [program.call(args, { listeners: { stdline } })]: the child process runs
    and the host hands its lines to the listener; the exit code is returned,
    since [ignoreReturnCode] is set. *)
Variable exec_stdline : string -> list string -> (string -> M unit) -> M Z.
(** [github.context]. *)
Variable context : GitHubContext.

(** [try { c } finally { f }]. *)
Definition finally {A} (c : M A) (f : M unit) : M A :=
  fun w =>
    match c w with
    | (r, w1) =>
        match f w1 with
        | (Ok _, w2) => (r, w2)
        | (Throw e, w2) => (Throw e, w2)
        | (OutOfFuel, w2) => (OutOfFuel, w2)
        end
    end.

(** [RcaCli.get]: the path of rust-code-analysis-cli. *)
Definition RcaCli_get : M string :=
  try_catch (await (io_which "rust-code-analysis-cli" true))
    (fun error =>
       core_error "rust-code-analysis-cli is not installed, see how to do that in                  (link to the example)" ;;
       throw error).

(** The commit the check is attached to. *)
Definition head_commit : string :=
  match context_pull_request_head_sha context with
  | Some s => if String.eqb s "" then context_sha context else s
  | None => context_sha context
  end.

(** The options [run] hands to [executeCheck]. *)
Definition check_options (actionInput : Input) (startedAt rcaVersion : string)
  : CheckOptions :=
  {| token := input_token actionInput;
     name := input_name actionInput;
     owner := context_repo_owner context;
     repo := context_repo_repo context;
     head_sha := head_commit;
     started_at := startedAt;
     rca_version := rcaVersion |}.

(** The error [run] ends with when the tool failed. *)
Definition exit_code_error (RcaExitCode : Z) : exn :=
  Error ("rust-code-analysis-check had exited with the "
         ^^ Z_to_string RcaExitCode ^^ " exit code").

(** [run]. *)
Definition run (parse_fuel check_fuel : nat) (actionInput : Input) : M unit :=
  startedAt <- Date_now_toISOString number now_iso ;;
  program <- RcaCli_get ;;
  rcaVersion <- await (exec_version program) ;;
  let args := ["--metrics"; "--output-format=json"; "-p"; input_directory actionInput] in
  set_runner (new_CheckRunner number) ;;
  RcaExitCode <-
    finally
      (emit (StartGroup "Executing rust-code-analysis-cli (JSON output)") ;;
       exec_stdline program args (parseJson parse_fuel))
      (emit EndGroup) ;;
  executeCheck check_fuel (check_options actionInput startedAt rcaVersion) ;;
  if Z.eqb RcaExitCode 0 then ret tt
  else throw (exit_code_error RcaExitCode).

(** ** Properties of [run] *)

(** The world in which the child process starts: a new runner, the group
    opened. *)
Definition started (w : World) : World :=
  {| runner := new_CheckRunner number;
     log := log w ++ [StartGroup "Executing rust-code-analysis-cli (JSON output)"];
     calls := calls w |}.

(** The world once the group is closed. *)
Definition ended (w : World) : World :=
  {| runner := runner w; log := log w ++ [EndGroup]; calls := calls w |}.

(** The arguments [run] passes to the tool. *)
Definition tool_args (actionInput : Input) : list string :=
  ["--metrics"; "--output-format=json"; "-p"; input_directory actionInput].

(** Once the tool has exited, [run] is the reporting cycle and then the test
    of the exit code. *)
Lemma run_after_exit (parse_fuel check_fuel : nat) (actionInput : Input) (w w2 : World)
    (program rcaVersion : string) (RcaExitCode : Z) :
  io_which "rust-code-analysis-cli" true = Resolved program ->
  exec_version program = Resolved rcaVersion ->
  exec_stdline program (tool_args actionInput) (parseJson parse_fuel) (started w)
    = (Ok RcaExitCode, w2) ->
  run parse_fuel check_fuel actionInput w =
    (executeCheck check_fuel
       (check_options actionInput (now_iso (calls w)) rcaVersion) ;;
     if Z.eqb RcaExitCode 0 then ret tt else throw (exit_code_error RcaExitCode))
      (ended w2).
Proof.
  intros Hwhich Hversion Hexec.
  unfold run. unfold bind at 1. unfold Date_now_toISOString, read.
  unfold bind at 1. unfold RcaCli_get, try_catch, await at 1. rewrite Hwhich.
  unfold bind at 1. unfold await at 1. rewrite Hversion.
  unfold bind at 1. unfold set_runner at 1.
  unfold bind at 1. unfold finally. unfold bind at 1. unfold emit at 1.
  cbn [runner log calls]. fold (started w). fold (tool_args actionInput).
  rewrite Hexec. unfold emit at 1. reflexivity.
Qed.

(** C9. Whatever the exit code of the tool, the reporting cycle is executed
    in full before anything else: the effects of [run] are those of
    [executeCheck]. When the cycle returns normally, a non-zero exit code
    makes [run] throw, after it, an error whose message holds the exit code
    (and tells two exit codes apart); a zero exit code makes [run] return
    normally. *)
Theorem run_reports_before_failing (parse_fuel check_fuel : nat) (actionInput : Input)
    (w w2 : World) (program rcaVersion : string) (RcaExitCode : Z) :
  io_which "rust-code-analysis-cli" true = Resolved program ->
  exec_version program = Resolved rcaVersion ->
  exec_stdline program (tool_args actionInput) (parseJson parse_fuel) (started w)
    = (Ok RcaExitCode, w2) ->
  snd (run parse_fuel check_fuel actionInput w) =
    snd (executeCheck check_fuel
           (check_options actionInput (now_iso (calls w)) rcaVersion) (ended w2))
  /\ (forall w3,
        executeCheck check_fuel
          (check_options actionInput (now_iso (calls w)) rcaVersion) (ended w2)
        = (Ok tt, w3) ->
        (RcaExitCode <> 0%Z ->
           run parse_fuel check_fuel actionInput w =
             (Throw (Error ("rust-code-analysis-check had exited with the "
                            ^^ Z_to_string RcaExitCode ^^ " exit code")), w3))
        /\ (RcaExitCode = 0%Z ->
              run parse_fuel check_fuel actionInput w = (Ok tt, w3)))
  /\ (forall code', exit_code_error RcaExitCode = exit_code_error code' ->
                    RcaExitCode = code').
Proof.
  intros Hwhich Hversion Hexec.
  rewrite (run_after_exit _ _ _ _ _ _ _ _ Hwhich Hversion Hexec).
  split; [|split].
  - unfold bind.
    destruct (executeCheck check_fuel _ (ended w2)) as [[[]|e|] w3]; cbn [snd];
      try reflexivity.
    destruct (Z.eqb RcaExitCode 0); reflexivity.
  - intros w3 Hcycle. unfold bind. rewrite Hcycle. split.
    + intros Hcode. apply Z.eqb_neq in Hcode. rewrite Hcode. reflexivity.
    + intros ->. reflexivity.
  - intros code' H. unfold exit_code_error in H. injection H as H.
    apply append_inj_r in H. now apply Z_to_string_inj.
Qed.

(* ------------------------------------------------------------------ *)
(** ** The entry point *)

(** [core.getInput(name, { required })]. *)
Variable core_getInput : string -> bool -> reply string.
(** [error.message] for an error the engine or the host made. *)
Variable engine_message : exn -> string.

(** [error.message]. *)
Definition exn_message (e : exn) : string :=
  match e with
  | Error message => message
  | _ => engine_message e
  end.

(** [get] of [input.ts]: the parsed input of the action. *)
Definition input_get : M Input :=
  token_v <- await (core_getInput "token" true) ;;
  directory_v <- await (core_getInput "directory" true) ;;
  name_v <- await (core_getInput "name" false) ;;
  ret {| input_token := token_v;
         input_directory := directory_v;
         input_name := name_v |}.

(** [core.setFailed(message)]: the message is written as an error; that the
    exit code of the process is set to failure is what [main] returns. *)
Definition core_setFailed (message : string) : M unit := emit (ErrorEntry message).

(** [main]: the value returned tells whether [core.setFailed] was called. *)
Definition main (parse_fuel check_fuel : nat) : M bool :=
  try_catch
    (actionInput <- input_get ;;
     run parse_fuel check_fuel actionInput ;;
     ret false)
    (fun error => core_setFailed (exn_message error) ;; ret true).

(** The world once an entry is written. *)
Definition written (w : World) (e : LogEntry) : World :=
  {| runner := runner w; log := log w ++ [e]; calls := calls w |}.

(** X12. When rust-code-analysis-cli is not installed, [run] writes the
    error of [RcaCli.get] and throws what [io.which] threw: the version is
    not asked, the tool is not run, no remote call is made and the runner is
    not touched. *)
Theorem run_tool_not_installed (parse_fuel check_fuel : nat) (actionInput : Input)
    (w : World) (error : exn) :
  io_which "rust-code-analysis-cli" true = Rejects error ->
  run parse_fuel check_fuel actionInput w =
    (Throw error,
     written w (ErrorEntry "rust-code-analysis-cli is not installed, see how to do that in                  (link to the example)"))
  /\ calls (snd (run parse_fuel check_fuel actionInput w)) = calls w
  /\ runner (snd (run parse_fuel check_fuel actionInput w)) = runner w.
Proof.
  intros Hwhich.
  assert (H : run parse_fuel check_fuel actionInput w =
    (Throw error,
     written w (ErrorEntry "rust-code-analysis-cli is not installed, see how to do that in                  (link to the example)"))).
  { unfold run. unfold bind at 1. unfold Date_now_toISOString, read.
    unfold bind at 1. unfold RcaCli_get, try_catch, await at 1. rewrite Hwhich.
    reflexivity. }
  rewrite H. repeat split.
Qed.

(** X13. When the call that runs the tool throws, the group that was opened
    is closed all the same, and [run] throws that error without starting the
    reporting cycle: no call is made after those of the tool run. *)
Theorem run_tool_run_throws (parse_fuel check_fuel : nat) (actionInput : Input)
    (w w2 : World) (program rcaVersion : string) (error : exn) :
  io_which "rust-code-analysis-cli" true = Resolved program ->
  exec_version program = Resolved rcaVersion ->
  exec_stdline program (tool_args actionInput) (parseJson parse_fuel) (started w)
    = (Throw error, w2) ->
  run parse_fuel check_fuel actionInput w = (Throw error, ended w2)
  /\ log (ended w2) = log w2 ++ [EndGroup]
  /\ calls (ended w2) = calls w2.
Proof.
  intros Hwhich Hversion Hexec. split; [|split; reflexivity].
  unfold run. unfold bind at 1. unfold Date_now_toISOString, read.
  unfold bind at 1. unfold RcaCli_get, try_catch, await at 1. rewrite Hwhich.
  unfold bind at 1. unfold await at 1. rewrite Hversion.
  unfold bind at 1. unfold set_runner at 1.
  unfold bind at 1. unfold finally. unfold bind at 1. unfold emit at 1.
  cbn [runner log calls]. fold (started w). fold (tool_args actionInput).
  rewrite Hexec. unfold emit at 1. reflexivity.
Qed.

(** [main] once the input is read. *)
Lemma main_with_input (parse_fuel check_fuel : nat) (w : World)
    (token_v directory_v name_v : string) :
  core_getInput "token" true = Resolved token_v ->
  core_getInput "directory" true = Resolved directory_v ->
  core_getInput "name" false = Resolved name_v ->
  main parse_fuel check_fuel w =
    match run parse_fuel check_fuel
            {| input_token := token_v; input_directory := directory_v;
               input_name := name_v |} w with
    | (Ok _, w') => (Ok false, w')
    | (Throw error, w') => (Ok true, written w' (ErrorEntry (exn_message error)))
    | (OutOfFuel, w') => (OutOfFuel, w')
    end.
Proof.
  intros Ht Hd Hn. unfold main, try_catch. unfold bind at 1.
  unfold input_get. unfold bind at 1. unfold await at 1. rewrite Ht.
  unfold bind at 1. unfold await at 1. rewrite Hd.
  unfold bind at 1. unfold await at 1. rewrite Hn.
  unfold ret at 1. unfold bind at 1.
  destruct (run parse_fuel check_fuel _ w) as [[[]|e|] w']; reflexivity.
Qed.

(** X14. The action fails with the exit code of the tool: when the input is
    there, the tool has run and exited, and the reporting cycle has returned
    normally, [main] returns normally in every case; with a non-zero exit
    code it has called [core.setFailed] with the message that holds the code,
    after the cycle; with the exit code zero it has not called it. *)
Theorem main_fails_with_exit_code (parse_fuel check_fuel : nat) (w w2 w3 : World)
    (token_v directory_v name_v program rcaVersion : string) (RcaExitCode : Z) :
  core_getInput "token" true = Resolved token_v ->
  core_getInput "directory" true = Resolved directory_v ->
  core_getInput "name" false = Resolved name_v ->
  io_which "rust-code-analysis-cli" true = Resolved program ->
  exec_version program = Resolved rcaVersion ->
  exec_stdline program
    (tool_args {| input_token := token_v; input_directory := directory_v;
                  input_name := name_v |})
    (parseJson parse_fuel) (started w) = (Ok RcaExitCode, w2) ->
  executeCheck check_fuel
    (check_options {| input_token := token_v; input_directory := directory_v;
                      input_name := name_v |} (now_iso (calls w)) rcaVersion)
    (ended w2) = (Ok tt, w3) ->
  (RcaExitCode <> 0%Z ->
     main parse_fuel check_fuel w =
       (Ok true,
        written w3 (ErrorEntry ("rust-code-analysis-check had exited with the "
                                ^^ Z_to_string RcaExitCode ^^ " exit code"))))
  /\ (RcaExitCode = 0%Z -> main parse_fuel check_fuel w = (Ok false, w3)).
Proof.
  intros Ht Hd Hn Hwhich Hversion Hexec Hcycle.
  rewrite (main_with_input _ _ _ _ _ _ Ht Hd Hn).
  rewrite (run_after_exit _ _ _ _ _ _ _ _ Hwhich Hversion Hexec).
  unfold bind. rewrite Hcycle. split.
  - intros Hcode. apply Z.eqb_neq in Hcode. rewrite Hcode. reflexivity.
  - intros ->. reflexivity.
Qed.

(** X15. When a required input is missing ([token], or [directory] once
    [token] is there), [main] returns normally having called
    [core.setFailed] with the message of the error, and nothing else has
    happened: the tool was not looked for and no remote call was made. *)
Theorem main_missing_input (parse_fuel check_fuel : nat) (w : World) (error : exn) :
  (core_getInput "token" true = Rejects error
   \/ (exists token_v, core_getInput "token" true = Resolved token_v)
      /\ core_getInput "directory" true = Rejects error) ->
  main parse_fuel check_fuel w =
    (Ok true, written w (ErrorEntry (exn_message error))).
Proof.
  intros [Ht|[[token_v Ht] Hd]]; unfold main, try_catch; unfold bind at 1;
    unfold input_get; unfold bind at 1; unfold await at 1; rewrite Ht.
  - reflexivity.
  - unfold bind at 1. unfold await at 1. rewrite Hd. reflexivity.
Qed.

End Run.
End Main.

(* ================================================================== *)
(** * A host to run the action on *)
(* ================================================================== *)

(** A concrete host for the examples: integers for numbers, and a decoder
    for the part of JSON without fractions, exponents and [\u] escapes. *)
Module TestHost.
Import JS.

Definition number : Type := Z.
Definition number_of_nat (n : nat) : number := Z.of_nat n.
Definition number_to_string (n : number) : string := Z_to_string n.

Definition quote_char : ascii := ascii_of_nat 34.
Definition backslash_char : ascii := ascii_of_nat 92.

Definition is_ws (c : ascii) : bool :=
  let n := nat_of_ascii c in
  Nat.eqb n 32 || Nat.eqb n 9 || Nat.eqb n 10 || Nat.eqb n 13.

Definition is_digit (c : ascii) : bool :=
  let n := nat_of_ascii c in Nat.leb 48 n && Nat.leb n 57.

Fixpoint skip_ws (s : list ascii) : list ascii :=
  match s with
  | c :: r => if is_ws c then skip_ws r else s
  | [] => []
  end.

(** The characters of a string literal, after its opening quote. *)
Fixpoint string_body (s : list ascii) : option (string * list ascii) :=
  match s with
  | [] => None
  | c :: r =>
      if Ascii.eqb c quote_char then Some (EmptyString, r)
      else if Ascii.eqb c backslash_char then
        match r with
        | e :: r' =>
            let unescaped :=
              if Ascii.eqb e quote_char then Some quote_char
              else if Ascii.eqb e backslash_char then Some backslash_char
              else if Ascii.eqb e "/" then Some "/"%char
              else if Ascii.eqb e "n" then Some (ascii_of_nat 10)
              else if Ascii.eqb e "t" then Some (ascii_of_nat 9)
              else if Ascii.eqb e "r" then Some (ascii_of_nat 13)
              else if Ascii.eqb e "b" then Some (ascii_of_nat 8)
              else if Ascii.eqb e "f" then Some (ascii_of_nat 12)
              else None in
            match unescaped, string_body r' with
            | Some u, Some (t, rest) => Some (String u t, rest)
            | _, _ => None
            end
        | [] => None
        end
      else if Nat.ltb (nat_of_ascii c) 32 then None
      else
        match string_body r with
        | Some (t, rest) => Some (String c t, rest)
        | None => None
        end
  end.

(** The digits at the head of the input, as a number in base ten. *)
Fixpoint digits (acc : Z) (s : list ascii) : Z * list ascii :=
  match s with
  | c :: r =>
      if is_digit c then digits (10 * acc + Z.of_nat (nat_of_ascii c - 48)) r
      else (acc, s)
  | [] => (acc, [])
  end.

(** An integer literal; a fraction or an exponent is outside this decoder. *)
Definition integer (s : list ascii) : option (Z * list ascii) :=
  let '(negative, s1) :=
    match s with
    | c :: r => if Ascii.eqb c "-" then (true, r) else (false, s)
    | [] => (false, s)
    end in
  match s1 with
  | c :: _ =>
      if is_digit c then
        let '(n, rest) := digits 0 s1 in
        match rest with
        | d :: _ =>
            if Ascii.eqb d "." || Ascii.eqb d "e" || Ascii.eqb d "E" then None
            else Some (if negative then (- n)%Z else n, rest)
        | [] => Some (if negative then (- n)%Z else n, rest)
        end
      else None
  | [] => None
  end.

(** A repeated key keeps its place and takes the later value. *)
Fixpoint set_prop (k : string) (v : value number) (props : list (string * value number))
  : list (string * value number) :=
  match props with
  | [] => [(k, v)]
  | (k', v') :: rest =>
      if String.eqb k k' then (k, v) :: rest else (k', v') :: set_prop k v rest
  end.

Definition starts_with (word : string) (s : list ascii) : option (list ascii) :=
  let w := list_ascii_of_string word in
  if list_eq_dec Ascii.ascii_dec (firstn (List.length w) s) w
  then Some (skipn (List.length w) s) else None.

Fixpoint parse_value (fuel : nat) (s : list ascii) : option (value number * list ascii) :=
  match fuel with
  | 0 => None
  | S fuel' =>
      match skip_ws s with
      | [] => None
      | c :: r =>
          if Ascii.eqb c quote_char then
            match string_body r with
            | Some (t, rest) => Some (VStr t, rest)
            | None => None
            end
          else if Ascii.eqb c "[" then
            match skip_ws r with
            | d :: r' =>
                if Ascii.eqb d "]" then Some (VArr [], r')
                else parse_elements fuel' r []
            | [] => None
            end
          else if Ascii.eqb c "{" then
            match skip_ws r with
            | d :: r' =>
                if Ascii.eqb d "}" then Some (VObj [], r')
                else parse_members fuel' r []
            | [] => None
            end
          else
            match starts_with "null" (c :: r), starts_with "true" (c :: r),
                  starts_with "false" (c :: r) with
            | Some rest, _, _ => Some (VNull, rest)
            | _, Some rest, _ => Some (VBool true, rest)
            | _, _, Some rest => Some (VBool false, rest)
            | None, None, None =>
                match integer (c :: r) with
                | Some (n, rest) => Some (VNum n, rest)
                | None => None
                end
            end
      end
  end
with parse_elements (fuel : nat) (s : list ascii) (acc : list (value number))
  : option (value number * list ascii) :=
  match fuel with
  | 0 => None
  | S fuel' =>
      match parse_value fuel' s with
      | Some (v, r) =>
          match skip_ws r with
          | d :: r' =>
              if Ascii.eqb d "," then parse_elements fuel' r' (acc ++ [v])
              else if Ascii.eqb d "]" then Some (VArr (acc ++ [v]), r')
              else None
          | [] => None
          end
      | None => None
      end
  end
with parse_members (fuel : nat) (s : list ascii) (acc : list (string * value number))
  : option (value number * list ascii) :=
  match fuel with
  | 0 => None
  | S fuel' =>
      match skip_ws s with
      | q :: r =>
          if Ascii.eqb q quote_char then
            match string_body r with
            | Some (k, r1) =>
                match skip_ws r1 with
                | colon :: r2 =>
                    if Ascii.eqb colon ":" then
                      match parse_value fuel' r2 with
                      | Some (v, r3) =>
                          match skip_ws r3 with
                          | d :: r4 =>
                              if Ascii.eqb d "," then parse_members fuel' r4 (set_prop k v acc)
                              else if Ascii.eqb d "}" then Some (VObj (set_prop k v acc), r4)
                              else None
                          | [] => None
                          end
                      | None => None
                      end
                    else None
                | [] => None
                end
            | None => None
            end
          else None
      | [] => None
      end
  end.

(** The decoder: one value, and nothing but white space after it. *)
Definition JSON_parse_text (text : string) : option (value number) :=
  let s := list_ascii_of_string text in
  match parse_value (S (List.length s)) s with
  | Some (v, rest) =>
      match skip_ws rest with
      | [] => Some v
      | _ :: _ => None
      end
  | None => None
  end.

(** [v > 0] on the values this host has: only a positive number is. *)
Definition js_gt_zero (v : value number) : bool :=
  match v with
  | VNum n => Z.ltb 0 n
  | _ => false
  end.

(** A string literal holding [s]: quotes and backslashes escaped. *)
Fixpoint escape (s : string) : string :=
  match s with
  | EmptyString => EmptyString
  | String c r =>
      if Ascii.eqb c quote_char || Ascii.eqb c backslash_char
      then String backslash_char (String c (escape r))
      else String c (escape r)
  end.

Definition json_string (s : string) : string := dquote ^^ escape s ^^ dquote.

(** [JSON.stringify(v, null, 2)] on the values of this host. *)
Fixpoint stringify (indent : string) (v : value number) : string :=
  let newline := String (ascii_of_nat 10) EmptyString in
  let inner := indent ^^ "  " in
  match v with
  | VUndefined | VNull => "null"
  | VBool true => "true"
  | VBool false => "false"
  | VNum n => number_to_string n
  | VStr s => json_string s
  | VArr [] => "[]"
  | VArr (x :: rest) =>
      "[" ^^ newline ^^ inner ^^ stringify inner x ^^
      (fix items (l : list (value number)) : string :=
         match l with
         | [] => ""
         | y :: l' => "," ^^ newline ^^ inner ^^ stringify inner y ^^ items l'
         end) rest ^^ newline ^^ indent ^^ "]"
  | VObj [] => "{}"
  | VObj ((k, x) :: rest) =>
      "{" ^^ newline ^^ inner ^^ json_string k ^^ ": " ^^ stringify inner x ^^
      (fix members (l : list (string * value number)) : string :=
         match l with
         | [] => ""
         | (k', y) :: l' =>
             "," ^^ newline ^^ inner ^^ json_string k' ^^ ": " ^^ stringify inner y
             ^^ members l'
         end) rest ^^ newline ^^ indent ^^ "}"
  end.

Definition JSON_stringify_pretty (v : value number) : string := stringify "" v.

(** [`${error}`], as [Error.prototype.toString] prints. *)
Definition exn_to_string (e : exn) : string :=
  match e with
  | SyntaxError => "SyntaxError"
  | TypeError => "TypeError"
  | Error msg => "Error: " ^^ msg
  | Rejected reason => "HttpError: " ^^ reason
  end.

(** JSON text written with single quotes, for readability. *)
Fixpoint q (s : string) : string :=
  match s with
  | EmptyString => EmptyString
  | String c r => String (if Ascii.eqb c "'" then quote_char else c) (q r)
  end.

(** The metrics member of a record, as the tool prints it (integers only). *)
Definition metrics_text : string :=
  q "{'nargs':2,'nexits':0,'cognitive':0,'cyclomatic':{'sum':1,'average':1},'halstead':{'n1':3,'N1':4,'n2':5,'N2':6,'length':10,'estimated_program_length':16,'purity_ratio':1,'vocabulary':8,'volume':30,'difficulty':3,'level':0,'effort':90,'time':5,'bugs':0},'loc':{'sloc':9,'ploc':7,'lloc':3,'cloc':1,'blank':1},'nom':{'functions':1,'closures':0,'total':1},'mi':{'mi_original':100,'mi_sei':90,'mi_visual_studio':58}}".

(** The text of a record with the given name, lines and spaces member. *)
Definition record_text (name : string) (first last : Z) (spaces : string) : string :=
  q "{'name':" ^^ json_string name
  ^^ q ",'start_line':" ^^ Z_to_string first
  ^^ q ",'end_line':" ^^ Z_to_string last
  ^^ q ",'kind':'unit','metrics':" ^^ metrics_text
  ^^ q ",'spaces':" ^^ spaces ^^ "}".

(** A file without spaces. *)
Definition line_a : string := record_text "a.rs" 1 9 "[]".

(** A file with one function, nested as the tool prints it: an object. *)
Definition line_nested : string :=
  record_text "b.rs" 1 9 ("[" ^^ record_text "f" 2 4 "[]" ^^ "]").

(** A file whose spaces are strings holding the text of each space: [f],
    which holds [g], and then [h]. *)
Definition line_encoded : string :=
  record_text "c.rs" 1 20
    ("[" ^^ json_string (record_text "f" 2 9
                           ("[" ^^ json_string (record_text "g" 3 5 "[]") ^^ "]"))
     ^^ "," ^^ json_string (record_text "h" 11 15 "[]") ^^ "]").

(** A line of diagnostics. *)
Definition line_noise : string := "warning: skipping unreadable file".

(** ** Clients, options and worlds *)

Import CheckAnnotations.

(** A client whose calls all succeed; the check gets the identifier 7. *)
Definition client_ok : Client number :=
  {| checks_create := fun _ _ => Resolved 7%Z;
     checks_update := fun _ _ => Resolved tt |}.

(** A client that may not create checks, as on a fork. *)
Definition client_forbidden : Client number :=
  {| checks_create := fun _ _ => Rejects (Rejected "Resource not accessible by integration");
     checks_update := fun _ _ => Resolved tt |}.

(** A client that refuses every update but a cancellation. *)
Definition client_refusing : Client number :=
  {| checks_create := fun _ _ => Resolved 7%Z;
     checks_update := fun _ req =>
       match req_conclusion number req with
       | Some c => if String.eqb c "cancelled" then Resolved tt
                   else Rejects (Rejected "Bad gateway")
       | None => Rejects (Rejected "Bad gateway")
       end |}.

Definition getOctokit_of (client : Client number) (_token _userAgent : string)
  : reply (Client number) := Resolved client.

Definition USER_AGENT : string :=
  "rust-code-analysis-check/1.0.0 (https://github.com/Luni-4/rust-code-analysis-check/issues)".

(** A clock that advances with every remote call. *)
Definition now_iso (h : list (Call number)) : string :=
  "2020-06-01T12:00:0" ^^ nat_to_string (List.length h) ^^ ".000Z".

Definition options : CheckOptions :=
  {| token := "secret";
     name := "rust-code-analysis-cli";
     owner := "Luni-4";
     repo := "rust-code-analysis-check";
     head_sha := "0123abc";
     started_at := "2020-06-01T12:00:00.000Z";
     rca_version := "0.0.18" |}.

(** The functions of the runner on this host. *)
Definition parseJson : nat -> string -> M number unit :=
  CheckAnnotations.parseJson number number_of_nat number_to_string
    JSON_parse_text js_gt_zero.

Definition executeCheck (client : Client number) (GITHUB_HEAD_REF : option string)
  : nat -> CheckOptions -> M number unit :=
  CheckAnnotations.executeCheck number JSON_stringify_pretty exn_to_string
    (getOctokit_of client) USER_AGENT now_iso GITHUB_HEAD_REF.

(** A run that has not started. *)
Definition new_world : World number :=
  {| runner := new_CheckRunner number; log := []; calls := [] |}.

(** An annotation for the space number [i]. *)
Definition annotation_of (i : nat) : Annotation number :=
  {| path := VStr ("f" ^^ nat_to_string i);
     start_line := VNum (Z.of_nat i);
     end_line := VNum (Z.of_nat i);
     annotation_level := "notice";
     title := VStr ("f" ^^ nat_to_string i);
     message := "Hello" |}.

(** A world with [n] pending annotations. *)
Definition pending_world (n : nat) : World number :=
  {| runner := {| annotations := map annotation_of (seq 0 n);
                  file_metrics := [];
                  file_jsons := [] |};
     log := [];
     calls := [] |}.

(** The host of [main.ts]: the tool is installed, prints its version and the
    given lines, and exits with the given code. *)
Definition io_which (_tool : string) (_check : bool) : reply string :=
  Resolved "/usr/bin/rust-code-analysis-cli".

Definition exec_version (_path : string) : reply string := Resolved "0.0.18".

Definition exec_stdline (lines : list string) (code : Z) (_path : string)
    (_args : list string) (stdline : string -> M number unit) : M number Z :=
  bind (for_each number lines stdline) (fun _ => ret code).

Definition context : Main.GitHubContext :=
  {| Main.context_sha := "0123abc";
     Main.context_pull_request_head_sha := None;
     Main.context_repo_owner := "Luni-4";
     Main.context_repo_repo := "rust-code-analysis-check" |}.

Definition actionInput : Main.Input :=
  {| Main.input_token := "secret";
     Main.input_directory := "src";
     Main.input_name := "rust-code-analysis-cli" |}.

(** [run] on this host. *)
Definition run (client : Client number) (lines : list string) (code : Z)
  : nat -> nat -> Main.Input -> M number unit :=
  Main.run number number_of_nat number_to_string JSON_parse_text js_gt_zero
    JSON_stringify_pretty exn_to_string (getOctokit_of client) USER_AGENT now_iso
    None io_which exec_version (exec_stdline lines code) context.

(** ** More hosts *)

(** A client whose update calls all fail, the cancellation with an error of
    its own. *)
Definition client_down : Client number :=
  {| checks_create := fun _ _ => Resolved 7%Z;
     checks_update := fun _ req =>
       match req_conclusion number req with
       | Some c => if String.eqb c "cancelled"
                   then Rejects (Rejected "Service unavailable")
                   else Rejects (Rejected "Bad gateway")
       | None => Rejects (Rejected "Bad gateway")
       end |}.

(** A machine on which the tool is not installed. *)
Definition io_which_missing (tool : string) (_check : bool) : reply string :=
  Rejects (Error ("Unable to locate executable file: " ^^ tool)).

(** A tool that prints the given lines and then cannot go on. *)
Definition exec_stdline_failing (lines : list string) (_path : string)
    (_args : list string) (stdline : string -> M number unit) : M number Z :=
  bind (for_each number lines stdline)
    (fun _ => throw (Error "The process was terminated")).

(** The inputs of a workflow that sets [token] and [directory]. *)
Definition core_getInput (name : string) (_required : bool) : reply string :=
  if String.eqb name "token" then Resolved "secret"
  else if String.eqb name "directory" then Resolved "src"
  else if String.eqb name "name" then Resolved "rust-code-analysis-cli"
  else Resolved "".

(** The inputs of a workflow that sets nothing. *)
Definition core_getInput_unset (name : string) (required : bool) : reply string :=
  if required then Rejects (Error ("Input required and not supplied: " ^^ name))
  else Resolved "".

Definition engine_message : exn -> string := exn_to_string.

(** [run] and [main] on these hosts. *)
Definition run_on (which : string -> bool -> reply string)
    (stdline : string -> list string -> (string -> M number unit) -> M number Z)
  : nat -> nat -> Main.Input -> M number unit :=
  Main.run number number_of_nat number_to_string JSON_parse_text js_gt_zero
    JSON_stringify_pretty exn_to_string (getOctokit_of client_ok) USER_AGENT now_iso
    None which exec_version stdline context.

Definition main_on (getInput : string -> bool -> reply string)
    (stdline : string -> list string -> (string -> M number unit) -> M number Z)
  : nat -> nat -> M number bool :=
  Main.main number number_of_nat number_to_string JSON_parse_text js_gt_zero
    JSON_stringify_pretty exn_to_string (getOctokit_of client_ok) USER_AGENT now_iso
    None io_which exec_version stdline context getInput engine_message.

(** ** Records of the declared shape *)





(** ** Lines that are not quite records *)

(** A record without metrics, one without spaces, and one whose second
    space is not the text of a space. *)
Definition line_bare : string := q "{'name':'a.rs','spaces':[]}".

Definition line_flat : string := q "{'name':'a.rs','metrics':" ^^ metrics_text ^^ "}".

Definition text_g : string := record_text "g" 3 5 "[]".
Definition text_h : string := record_text "h" 11 15 "[]".
Definition text_f : string := record_text "f" 2 9 ("[" ^^ json_string text_g ^^ "]").

Definition line_broken : string :=
  record_text "d.rs" 1 20
    ("[" ^^ json_string text_f ^^ "," ^^ json_string "fn h" ^^ ","
     ^^ json_string text_h ^^ "]").

End TestHost.

(* ================================================================== *)
(** * The action on the test host *)
(* ================================================================== *)

Module Examples.
Import JS CheckAnnotations TestHost.

(** The runner after the line with encoded spaces. *)
Definition encoded_world : World number :=
  Eval vm_compute in snd (parseJson 5 line_encoded new_world).

(** The runner after a record without spaces and a line of diagnostics. *)
Definition fed_world : World number :=
  Eval vm_compute in snd (for_each number [line_a; line_noise] (parseJson 5) new_world).

(** The record the line with a nested object decodes to, its rendering and
    its first space. *)
Definition nested_record : value number :=
  Eval vm_compute in
    match JSON_parse_text line_nested with Some c => c | None => VNull end.

Definition nested_text : string :=
  Eval vm_compute in
    match getFileMetrics number number_of_nat number_to_string nested_record with
    | Ok t => t
    | _ => ""
    end.

Definition nested_space : list (string * value number) :=
  Eval vm_compute in
    match get number_of_nat nested_record "spaces" with
    | Ok (VArr (VObj props :: _)) => props
    | _ => []
    end.

(** Extraction on encoded spaces: [f], its subspace [g], then [h]. *)
Example line_encoded_annotations :
  fst (parseJson 5 line_encoded new_world) = Ok tt
  /\ map (fun a => (title number a, start_line number a, end_line number a))
       (annotations (runner encoded_world))
     = [ (VStr "f", VNum 2%Z, VNum 9%Z);
         (VStr "g", VNum 3%Z, VNum 5%Z);
         (VStr "h", VNum 11%Z, VNum 15%Z) ].
Proof. split; vm_compute; reflexivity. Qed.

(** C1, at 120 pending annotations: three update calls, two in progress and
    the last one completed. *)
Lemma executeCheck_update_calls_witness :
  List.length (annotations (runner (pending_world 120))) <= 120
  /\ exists w' reqs,
       executeCheck client_ok None 120 options (pending_world 120) = (Ok tt, w')
       /\ calls w' = Create (create_params options) :: map Update reqs
       /\ List.length reqs = 3
       /\ List.length (concat (map (batch number) reqs)) = 120
       /\ exists init last,
            reqs = init ++ [last]
            /\ Forall (in_progress number) init
            /\ completed_success number last.
Proof.
  assert (Hfuel : List.length (annotations (runner (pending_world 120))) <= 120).
  { vm_compute. apply le_n. }
  split; [exact Hfuel|].
  destruct (executeCheck_update_calls number JSON_stringify_pretty exn_to_string
              (getOctokit_of client_ok) USER_AGENT now_iso None 120 options
              (pending_world 120) client_ok 7%Z eq_refl eq_refl
              (fun _ _ => eq_refl) Hfuel)
    as (w' & reqs & Hrun & Hcalls & _ & Hmany).
  destruct Hmany as (Hlen & _ & _ & Htotal & Hstatus).
  { vm_compute. discriminate. }
  exists w', reqs. repeat split; assumption.
Defined.

(** C2 as stated fails: after the line with encoded spaces, the annotations
    were extracted in the order [f], [g], [h] and are sent in the order [h],
    [g], [f]; the first element of the first batch is the annotation
    extracted last. *)
Lemma batches_in_extraction_order_counterexample :
  fst (parseJson 5 line_encoded new_world) = Ok tt
  /\ snd (parseJson 5 line_encoded new_world) = encoded_world
  /\ map (title number) (annotations (runner encoded_world))
     = [VStr "f"; VStr "g"; VStr "h"]
  /\ fst (executeCheck client_ok None 3 options encoded_world) = Ok tt
  /\ map (title number)
       (submitted number (calls (snd (executeCheck client_ok None 3 options encoded_world))))
     = [VStr "h"; VStr "g"; VStr "f"]
  /\ submitted number (calls (snd (executeCheck client_ok None 3 options encoded_world)))
     <> annotations (runner encoded_world)
  /\ hd_error (submitted number
                 (calls (snd (executeCheck client_ok None 3 options encoded_world))))
     <> hd_error (annotations (runner encoded_world)).
Proof.
  repeat split; try (vm_compute; reflexivity).
  - intros H. apply (f_equal (map (title number))) in H.
    vm_compute in H. discriminate H.
  - intros H. vm_compute in H. discriminate H.
Qed.

(** C2 as the code has it, on the same run. *)
Lemma executeCheck_submits_in_reverse_witness :
  List.length (annotations (runner encoded_world)) <= 3
  /\ exists w' sent,
       executeCheck client_ok None 3 options encoded_world = (Ok tt, w')
       /\ calls w' = calls encoded_world ++ sent
       /\ submitted number sent = List.rev (annotations (runner encoded_world)).
Proof.
  assert (Hfuel : List.length (annotations (runner encoded_world)) <= 3).
  { vm_compute. apply le_n. }
  split; [exact Hfuel|].
  destruct (executeCheck_submits_in_reverse number JSON_stringify_pretty exn_to_string
              (getOctokit_of client_ok) USER_AGENT now_iso None 3 options
              encoded_world client_ok 7%Z eq_refl eq_refl
              (fun _ _ => eq_refl) Hfuel)
    as (w' & sent & Hrun & Hcalls & Hsent & _).
  exists w', sent. repeat split; assumption.
Defined.

(** C3 fails on what the tool prints: the record has one nested space, and
    extraction raises instead of producing its annotation. *)
Example parseJson_nested_space_no_annotation :
  JSON_parse_text line_nested = Some nested_record
  /\ get number_of_nat nested_record "spaces" = Ok (VArr [VObj nested_space])
  /\ fst (parseJson 5 line_nested new_world) = Throw SyntaxError
  /\ annotations (runner (snd (parseJson 5 line_nested new_world))) = [].
Proof. repeat split; vm_compute; reflexivity. Qed.

(** C4 fails where annotations are produced: every annotation of the file
    [c.rs] has for path the name of its own space, and the message is the
    placeholder, whatever the metrics. *)
Example parseJson_annotation_path_and_message :
  map (fun a => (path number a, annotation_level number a, title number a,
                 message number a))
    (annotations (runner encoded_world))
  = [ (VStr "f", "notice", VStr "f", "Hello");
      (VStr "g", "notice", VStr "g", "Hello");
      (VStr "h", "notice", VStr "h", "Hello") ]
  /\ Forall (fun a => path number a <> VStr "c.rs") (annotations (runner encoded_world)).
Proof.
  split; [vm_compute; reflexivity|].
  vm_compute. repeat constructor; discriminate.
Qed.

(** C5 as the code has it, on a line of diagnostics. *)
Lemma parseJson_discards_undecodable_line_witness :
  JSON_parse_text line_noise = None
  /\ exists w',
       parseJson 5 line_noise encoded_world = (Ok tt, w')
       /\ runner w' = runner encoded_world
       /\ calls w' = calls encoded_world.
Proof.
  assert (H : JSON_parse_text line_noise = None) by (vm_compute; reflexivity).
  split; [exact H|].
  destruct (parseJson_discards_undecodable_line number number_of_nat number_to_string
              JSON_parse_text js_gt_zero 5 line_noise encoded_world H)
    as (w' & Hrun & Hrunner & _ & _ & _ & _ & Hcalls & _).
  exists w'. repeat split; assumption.
Defined.

(** C7, on a fork: one record was stored out of two lines, and one entry is
    written after the notice. *)
Lemma executeCheck_create_fails_witness :
  getOctokit_of client_forbidden (token options) USER_AGENT = Resolved client_forbidden
  /\ checks_create number client_forbidden (calls fed_world) (create_params options)
     = Rejects (Rejected "Resource not accessible by integration")
  /\ exists w',
       executeCheck client_forbidden (Some "patch-1") 0 options fed_world = (Ok tt, w')
       /\ calls w' = calls fed_world ++ [Create (create_params options)]
       /\ List.length (log w') = List.length (log fed_world) + 4 + 1.
Proof.
  split; [reflexivity|]. split; [reflexivity|].
  destruct (executeCheck_create_fails number number_of_nat number_to_string
              JSON_parse_text js_gt_zero JSON_stringify_pretty exn_to_string
              (getOctokit_of client_forbidden) USER_AGENT now_iso (Some "patch-1")
              0 options fed_world client_forbidden
              (Rejected "Resource not accessible by integration") eq_refl eq_refl)
    as [Hfork _].
  destruct (Hfork eq_refl) as (w' & Hrun & Hcalls & _ & _ & Hlog & _).
  exists w'. split; [exact Hrun|]. split; [exact Hcalls|].
  rewrite Hlog. reflexivity.
Defined.

(** C8, when the only update is refused and the cancellation accepted. *)
Lemma executeCheck_cancels_on_error_witness :
  completeCheck number now_iso 0 client_refusing 7%Z options
    (called number new_world (Create (create_params options)))
  = (Throw (Rejected "Bad gateway"),
     snd (completeCheck number now_iso 0 client_refusing 7%Z options
            (called number new_world (Create (create_params options)))))
  /\ exists req,
       executeCheck client_refusing None 0 options new_world
       = (Throw (Rejected "Bad gateway"),
          called number
            (snd (completeCheck number now_iso 0 client_refusing 7%Z options
                    (called number new_world (Create (create_params options)))))
            (Update req))
       /\ req_conclusion number req = Some "cancelled".
Proof.
  assert (H : completeCheck number now_iso 0 client_refusing 7%Z options
                (called number new_world (Create (create_params options)))
              = (Throw (Rejected "Bad gateway"),
                 snd (completeCheck number now_iso 0 client_refusing 7%Z options
                        (called number new_world (Create (create_params options)))))).
  { vm_compute. reflexivity. }
  split; [exact H|].
  destruct (executeCheck_cancels_on_error number JSON_stringify_pretty exn_to_string
              (getOctokit_of client_refusing) USER_AGENT now_iso None 0 options
              new_world _ client_refusing 7%Z (Rejected "Bad gateway")
              eq_refl eq_refl H eq_refl)
    as (req & Hrun & _ & _ & _ & Hconclusion & _).
  exists req. split; assumption.
Defined.

(** C10, on the line the tool prints for a file with one function. *)
Lemma parseJson_raises_on_nested_object_witness :
  JSON_parse_text line_nested = Some nested_record
  /\ getFileMetrics number number_of_nat number_to_string nested_record = Ok nested_text
  /\ get number_of_nat nested_record "spaces" = Ok (VArr (VObj nested_space :: []))
  /\ JSON_parse_text "[object Object]" = None
  /\ exists e w',
       parseJson 1 line_nested new_world = (Throw e, w')
       /\ (e = SyntaxError \/ e = TypeError)
       /\ annotations (runner w') = [].
Proof.
  assert (H1 : JSON_parse_text line_nested = Some nested_record)
    by (vm_compute; reflexivity).
  assert (H2 : getFileMetrics number number_of_nat number_to_string nested_record
               = Ok nested_text) by (vm_compute; reflexivity).
  assert (H3 : get number_of_nat nested_record "spaces"
               = Ok (VArr (VObj nested_space :: []))) by (vm_compute; reflexivity).
  assert (H4 : JSON_parse_text "[object Object]" = None) by (vm_compute; reflexivity).
  repeat (split; [assumption|]).
  destruct (parseJson_raises_on_nested_object number number_of_nat number_to_string
              JSON_parse_text js_gt_zero 0 line_nested new_world nested_record
              nested_text nested_space [] H1 H2 H3 H4)
    as (e & w' & Hrun & He & Hann & _).
  exists e, w'. repeat split; assumption.
Defined.

(** C9, when the tool prints a record and a line of diagnostics and exits
    with the code 1: the check is completed, then [run] fails. *)
Lemma run_reports_before_failing_witness :
  exec_stdline [line_a; line_noise] 1%Z "/usr/bin/rust-code-analysis-cli"
    (Main.tool_args actionInput) (parseJson 5) (Main.started number new_world)
  = (Ok 1%Z,
     snd (exec_stdline [line_a; line_noise] 1%Z "/usr/bin/rust-code-analysis-cli"
            (Main.tool_args actionInput) (parseJson 5) (Main.started number new_world)))
  /\ exists w3,
       run client_ok [line_a; line_noise] 1%Z 5 5 actionInput new_world
       = (Throw (Error "rust-code-analysis-check had exited with the 1 exit code"), w3)
       /\ List.length (updates number (calls w3)) = 1.
Proof.
  assert (H : exec_stdline [line_a; line_noise] 1%Z "/usr/bin/rust-code-analysis-cli"
                (Main.tool_args actionInput) (parseJson 5) (Main.started number new_world)
              = (Ok 1%Z,
                 snd (exec_stdline [line_a; line_noise] 1%Z
                        "/usr/bin/rust-code-analysis-cli"
                        (Main.tool_args actionInput) (parseJson 5)
                        (Main.started number new_world)))).
  { vm_compute. reflexivity. }
  split; [exact H|].
  destruct (Main.run_reports_before_failing number number_of_nat number_to_string
              JSON_parse_text js_gt_zero JSON_stringify_pretty exn_to_string
              (getOctokit_of client_ok) USER_AGENT now_iso None io_which exec_version
              (exec_stdline [line_a; line_noise] 1%Z) context 5 5 actionInput
              new_world _ "/usr/bin/rust-code-analysis-cli" "0.0.18" 1%Z
              eq_refl eq_refl H)
    as (_ & Hcycle & _).
  eexists. split.
  - refine (proj1 (Hcycle _ _) _).
    + vm_compute. reflexivity.
    + discriminate.
  - vm_compute. reflexivity.
Defined.

(** A line that decodes to something that is not a record is not discarded:
    the number 42 is stored as an empty object, and rendering it raises. *)
Example parseJson_number_line :
  JSON_parse_text "42" = Some (VNum 42%Z)
  /\ fst (parseJson 5 "42" new_world) = Throw TypeError
  /\ file_jsons (runner (snd (parseJson 5 "42" new_world))) = [VObj []].
Proof. repeat split; vm_compute; reflexivity. Qed.

(* ------------------------------------------------------------------ *)
(** ** Further runs *)

(** The object a text decodes to. *)
Definition props_of (text : string) : list (string * value number) :=
  match JSON_parse_text text with
  | Some (VObj props) => props
  | _ => []
  end.

(** The spaces of the line with encoded spaces. *)
Definition props_g : list (string * value number) := Eval vm_compute in props_of text_g.
Definition props_h : list (string * value number) := Eval vm_compute in props_of text_h.
Definition props_f : list (string * value number) := Eval vm_compute in props_of text_f.

Definition tree_g : space_tree number := SpaceNode number text_g props_g [].
Definition tree_h : space_tree number := SpaceNode number text_h props_h [].
Definition tree_f : space_tree number := SpaceNode number text_f props_f [tree_g].

Lemma tree_g_encodes : encodes number JSON_parse_text tree_g.
Proof. constructor; [vm_compute; reflexivity|vm_compute; reflexivity|constructor]. Qed.

Lemma tree_h_encodes : encodes number JSON_parse_text tree_h.
Proof. constructor; [vm_compute; reflexivity|vm_compute; reflexivity|constructor]. Qed.

Lemma tree_f_encodes : encodes number JSON_parse_text tree_f.
Proof.
  constructor; [vm_compute; reflexivity|vm_compute; reflexivity|].
  constructor; [exact tree_g_encodes|constructor].
Qed.

(** What a line decodes to, and the block of a record. *)
Definition decoded (line : string) : value number :=
  match JSON_parse_text line with Some c => c | None => VNull end.

Definition block_of (contents : value number) : string :=
  match getFileMetrics number number_of_nat number_to_string contents with
  | Ok t => t
  | _ => ""
  end.

Definition encoded_record : value number := Eval vm_compute in decoded line_encoded.
Definition encoded_text : string := Eval vm_compute in block_of encoded_record.
Definition broken_record : value number := Eval vm_compute in decoded line_broken.
Definition bare_record : value number := Eval vm_compute in decoded line_bare.
Definition flat_record : value number := Eval vm_compute in decoded line_flat.
Definition flat_text : string := Eval vm_compute in block_of flat_record.
Definition a_record : value number := Eval vm_compute in decoded line_a.
Definition a_text : string := Eval vm_compute in block_of a_record.

(** C5 as stated fails on lines that decode but are not records: the number
    42 and a record without metrics are both stored in [file_jsons], and
    [parseJson] raises [TypeError] on both. *)
Lemma parseJson_non_record_line_counterexample :
  JSON_parse_text "42" = Some (VNum 42%Z)
  /\ fst (parseJson 5 "42" new_world) = Throw TypeError
  /\ file_jsons (runner (snd (parseJson 5 "42" new_world))) = [VObj []]
  /\ file_jsons (runner (snd (parseJson 5 "42" new_world)))
     <> file_jsons (runner new_world)
  /\ JSON_parse_text line_bare = Some bare_record
  /\ get number_of_nat bare_record "metrics" = Ok VUndefined
  /\ fst (parseJson 5 line_bare new_world) = Throw TypeError
  /\ List.length (file_jsons (runner (snd (parseJson 5 line_bare new_world)))) = 1
  /\ file_metrics (runner (snd (parseJson 5 line_bare new_world))) = [].
Proof.
  repeat split; try (vm_compute; reflexivity).
  intros H. vm_compute in H. discriminate H.
Qed.

(** X1, on the line with encoded spaces. *)
Lemma parseJson_encoded_spaces_witness :
  JSON_parse_text line_encoded = Some encoded_record
  /\ Forall (encodes number JSON_parse_text) [tree_f; tree_h]
  /\ exists w',
       parseJson 3 line_encoded new_world = (Ok tt, w')
       /\ annotations (runner w') = flat_map (preorder number) [tree_f; tree_h]
       /\ List.length (flat_map (preorder number) [tree_f; tree_h]) = 3.
Proof.
  assert (H1 : JSON_parse_text line_encoded = Some encoded_record)
    by (vm_compute; reflexivity).
  assert (H2 : getFileMetrics number number_of_nat number_to_string encoded_record
               = Ok encoded_text) by (vm_compute; reflexivity).
  assert (H3 : get number_of_nat encoded_record "spaces"
               = Ok (VArr (map (space_value number) [tree_f; tree_h])))
    by (vm_compute; reflexivity).
  assert (H4 : Forall (encodes number JSON_parse_text) [tree_f; tree_h]).
  { constructor; [exact tree_f_encodes|].
    constructor; [exact tree_h_encodes|constructor]. }
  assert (H5 : Forall (fun c => depth number c <= 2) [tree_f; tree_h]).
  { constructor; [vm_compute; lia|]. constructor; [vm_compute; lia|constructor]. }
  split; [exact H1|]. split; [exact H4|].
  destruct (parseJson_encoded_spaces number number_of_nat number_to_string
              JSON_parse_text js_gt_zero 2 line_encoded new_world encoded_record
              encoded_text [tree_f; tree_h] H1 H2 H3 H4 H5)
    as (w' & Hrun & Hann & Hlen).
  exists w'. split; [exact Hrun|]. split; [exact Hann|]. rewrite Hlen. reflexivity.
Defined.

(** X17, on a record whose second space is not the text of a space. *)
Lemma makeAnnotations_stops_at_bad_space_witness :
  get number_of_nat broken_record "spaces"
    = Ok (VArr (map (space_value number) [tree_f] ++ VStr "fn h" :: [VStr text_h]))
  /\ JSON_parse_text "fn h" = None
  /\ makeAnnotations number number_of_nat number_to_string JSON_parse_text js_gt_zero
       3 broken_record new_world
     = (Throw SyntaxError, pushed number new_world (flat_map (preorder number) [tree_f])).
Proof.
  assert (H1 : get number_of_nat broken_record "spaces"
               = Ok (VArr (map (space_value number) [tree_f]
                             ++ VStr "fn h" :: [VStr text_h])))
    by (vm_compute; reflexivity).
  assert (H2 : JSON_parse_text "fn h" = None) by (vm_compute; reflexivity).
  split; [exact H1|]. split; [exact H2|].
  apply (makeAnnotations_stops_at_bad_space number number_of_nat number_to_string
           JSON_parse_text js_gt_zero 2 broken_record [tree_f] "fn h" [VStr text_h]
           new_world H1).
  - constructor; [exact tree_f_encodes|constructor].
  - constructor; [vm_compute; lia|constructor].
  - exact H2.
Defined.

(** X3, when the only update and the cancellation are both refused. *)
Lemma executeCheck_cancel_failure_masks_witness :
  completeCheck number now_iso 0 client_down 7%Z options
    (called number new_world (Create (create_params options)))
  = (Throw (Rejected "Bad gateway"),
     snd (completeCheck number now_iso 0 client_down 7%Z options
            (called number new_world (Create (create_params options)))))
  /\ fst (executeCheck client_down None 0 options new_world)
     = Throw (Rejected "Service unavailable").
Proof.
  assert (H : completeCheck number now_iso 0 client_down 7%Z options
                (called number new_world (Create (create_params options)))
              = (Throw (Rejected "Bad gateway"),
                 snd (completeCheck number now_iso 0 client_down 7%Z options
                        (called number new_world (Create (create_params options))))))
    by (vm_compute; reflexivity).
  split; [exact H|]. unfold TestHost.executeCheck.
  rewrite (executeCheck_cancel_failure_masks number JSON_stringify_pretty exn_to_string
             (getOctokit_of client_down) USER_AGENT now_iso None 0 options
             new_world _ client_down 7%Z (Rejected "Bad gateway")
             (Rejected "Service unavailable") eq_refl eq_refl H eq_refl).
  reflexivity.
Defined.

(** X4, with 60 pending annotations: the first page of 50 is refused, and
    10 annotations stay in the array. *)
Lemma executeCheck_rejected_page_is_lost_witness :
  annotations (runner (pending_world 60)) <> []
  /\ exists w',
       executeCheck client_refusing None 1 options (pending_world 60)
         = (Throw (Rejected "Bad gateway"), w')
       /\ List.length (calls w') = 3
       /\ annotations (runner (pending_world 60))
          = annotations (runner w')
              ++ List.rev (batch number
                             (first_page number now_iso 7%Z options (pending_world 60))).
Proof.
  assert (H : annotations (runner (pending_world 60)) <> []).
  { vm_compute. discriminate. }
  split; [exact H|].
  destruct (executeCheck_rejected_page_is_lost number JSON_stringify_pretty
              exn_to_string (getOctokit_of client_refusing) USER_AGENT now_iso None
              0 options (pending_world 60) client_refusing 7%Z
              (Rejected "Bad gateway") eq_refl eq_refl H eq_refl eq_refl)
    as (w' & cancel & Hrun & Hcalls & _ & _ & Hleft).
  exists w'. split; [exact Hrun|]. split; [|exact Hleft].
  rewrite Hcalls. reflexivity.
Defined.

(** X5, at 120 pending annotations. *)
Lemma executeCheck_requests_addressed_witness :
  List.length (annotations (runner (pending_world 120))) <= 120
  /\ exists w' reqs,
       executeCheck client_ok None 120 options (pending_world 120) = (Ok tt, w')
       /\ calls w' = Create (create_params options) :: map Update reqs
       /\ Forall (addressed_to number 7%Z options
                    (rendered_text number "0.0.18" (runner (pending_world 120)))) reqs
       /\ annotations (runner w') = [].
Proof.
  assert (Hfuel : List.length (annotations (runner (pending_world 120))) <= 120).
  { vm_compute. apply le_n. }
  split; [exact Hfuel|].
  destruct (executeCheck_requests_addressed number JSON_stringify_pretty exn_to_string
              (getOctokit_of client_ok) USER_AGENT now_iso None 120 options
              (pending_world 120) client_ok 7%Z eq_refl eq_refl
              (fun _ _ => eq_refl) Hfuel)
    as (w' & reqs & Hrun & Hcalls & Haddr & Hann & _).
  exists w', reqs. repeat split; assumption.
Defined.

(** X8, on a record without metrics. *)
Lemma parseJson_without_metrics_witness :
  JSON_parse_text line_bare = Some bare_record
  /\ get number_of_nat bare_record "metrics" = Ok VUndefined
  /\ exists w',
       parseJson 0 line_bare new_world = (Throw TypeError, w')
       /\ List.length (file_jsons (runner w')) = 1
       /\ file_metrics (runner w') = [].
Proof.
  assert (H1 : JSON_parse_text line_bare = Some bare_record)
    by (vm_compute; reflexivity).
  assert (H2 : get number_of_nat bare_record "metrics" = Ok VUndefined)
    by (vm_compute; reflexivity).
  split; [exact H1|]. split; [exact H2|].
  destruct (parseJson_without_metrics number number_of_nat number_to_string
              JSON_parse_text js_gt_zero 0 line_bare new_world bare_record H1)
    as (w' & Hrun & Hjsons & Htexts & _).
  { intros x Hx. rewrite H2 in Hx. injection Hx as <-. left. reflexivity. }
  exists w'. split; [exact Hrun|]. split.
  - rewrite Hjsons. reflexivity.
  - exact Htexts.
Defined.

(** X9, on a record without spaces member. *)
Lemma parseJson_without_spaces_witness :
  JSON_parse_text line_flat = Some flat_record
  /\ get number_of_nat flat_record "spaces" = Ok VUndefined
  /\ exists w',
       parseJson 5 line_flat new_world = (Throw TypeError, w')
       /\ file_metrics (runner w') = [flat_text]
       /\ annotations (runner w') = [].
Proof.
  assert (H1 : JSON_parse_text line_flat = Some flat_record)
    by (vm_compute; reflexivity).
  assert (H2 : getFileMetrics number number_of_nat number_to_string flat_record
               = Ok flat_text) by (vm_compute; reflexivity).
  assert (H3 : get number_of_nat flat_record "spaces" = Ok VUndefined)
    by (vm_compute; reflexivity).
  split; [exact H1|]. split; [exact H3|].
  destruct (parseJson_without_spaces number number_of_nat number_to_string
              JSON_parse_text js_gt_zero 5 line_flat new_world flat_record flat_text
              H1 H2)
    as (w' & Hrun & _ & Htexts & Hann & _).
  { intros x Hx. rewrite H3 in Hx. injection Hx as <-. left. reflexivity. }
  exists w'. repeat split; assumption.
Defined.

(** X11, on a file without spaces and without fuel. *)
Lemma parseJson_without_subspaces_witness :
  JSON_parse_text line_a = Some a_record
  /\ get number_of_nat a_record "spaces" = Ok (VArr [])
  /\ exists w',
       parseJson 0 line_a new_world = (Ok tt, w')
       /\ file_metrics (runner w') = [a_text]
       /\ annotations (runner w') = [].
Proof.
  assert (H1 : JSON_parse_text line_a = Some a_record) by (vm_compute; reflexivity).
  assert (H2 : getFileMetrics number number_of_nat number_to_string a_record
               = Ok a_text) by (vm_compute; reflexivity).
  assert (H3 : get number_of_nat a_record "spaces" = Ok (VArr []))
    by (vm_compute; reflexivity).
  split; [exact H1|]. split; [exact H3|].
  destruct (parseJson_without_subspaces number number_of_nat number_to_string
              JSON_parse_text js_gt_zero 0 line_a new_world a_record a_text H1 H2 H3)
    as (w' & Hrun & _ & Htexts & Hann & _).
  exists w'. repeat split; assumption.
Defined.

(** X12, on a machine without the tool. *)
Lemma run_tool_not_installed_witness :
  io_which_missing "rust-code-analysis-cli" true
    = Rejects (Error "Unable to locate executable file: rust-code-analysis-cli")
  /\ fst (run_on io_which_missing (exec_stdline [line_a] 0%Z) 5 5 actionInput new_world)
     = Throw (Error "Unable to locate executable file: rust-code-analysis-cli")
  /\ calls (snd (run_on io_which_missing (exec_stdline [line_a] 0%Z) 5 5 actionInput
                   new_world)) = [].
Proof.
  split; [reflexivity|].
  destruct (Main.run_tool_not_installed number number_of_nat number_to_string
              JSON_parse_text js_gt_zero JSON_stringify_pretty exn_to_string
              (getOctokit_of client_ok) USER_AGENT now_iso None io_which_missing
              exec_version (exec_stdline [line_a] 0%Z) context 5 5 actionInput
              new_world
              (Error "Unable to locate executable file: rust-code-analysis-cli")
              eq_refl)
    as (Hrun & Hcalls & _).
  split.
  - unfold run_on. rewrite Hrun. reflexivity.
  - exact Hcalls.
Defined.

(** X13, when the tool prints a record and is then terminated. *)
Lemma run_tool_run_throws_witness :
  exec_stdline_failing [line_a] "/usr/bin/rust-code-analysis-cli"
    (Main.tool_args actionInput) (parseJson 5) (Main.started number new_world)
  = (Throw (Error "The process was terminated"),
     snd (exec_stdline_failing [line_a] "/usr/bin/rust-code-analysis-cli"
            (Main.tool_args actionInput) (parseJson 5) (Main.started number new_world)))
  /\ fst (run_on io_which (exec_stdline_failing [line_a]) 5 5 actionInput new_world)
     = Throw (Error "The process was terminated")
  /\ calls (snd (run_on io_which (exec_stdline_failing [line_a]) 5 5 actionInput
                   new_world)) = [].
Proof.
  assert (H : exec_stdline_failing [line_a] "/usr/bin/rust-code-analysis-cli"
                (Main.tool_args actionInput) (parseJson 5)
                (Main.started number new_world)
              = (Throw (Error "The process was terminated"),
                 snd (exec_stdline_failing [line_a] "/usr/bin/rust-code-analysis-cli"
                        (Main.tool_args actionInput) (parseJson 5)
                        (Main.started number new_world))))
    by (vm_compute; reflexivity).
  split; [exact H|].
  destruct (Main.run_tool_run_throws number number_of_nat number_to_string
              JSON_parse_text js_gt_zero JSON_stringify_pretty exn_to_string
              (getOctokit_of client_ok) USER_AGENT now_iso None io_which
              exec_version (exec_stdline_failing [line_a]) context 5 5 actionInput
              new_world _ "/usr/bin/rust-code-analysis-cli" "0.0.18"
              (Error "The process was terminated") eq_refl eq_refl H)
    as (Hrun & _ & Hcalls).
  unfold run_on. rewrite Hrun. split; [reflexivity|].
  cbn [snd]. rewrite Hcalls. vm_compute. reflexivity.
Defined.

(** X14, when the tool prints a record and exits with the code 1. *)
Lemma main_fails_with_exit_code_witness :
  exec_stdline [line_a] 1%Z "/usr/bin/rust-code-analysis-cli"
    (Main.tool_args actionInput) (parseJson 5) (Main.started number new_world)
  = (Ok 1%Z,
     snd (exec_stdline [line_a] 1%Z "/usr/bin/rust-code-analysis-cli"
            (Main.tool_args actionInput) (parseJson 5) (Main.started number new_world)))
  /\ fst (main_on core_getInput (exec_stdline [line_a] 1%Z) 5 5 new_world) = Ok true
  /\ last (log (snd (main_on core_getInput (exec_stdline [line_a] 1%Z) 5 5 new_world)))
       EndGroup
     = ErrorEntry "rust-code-analysis-check had exited with the 1 exit code".
Proof.
  assert (H : exec_stdline [line_a] 1%Z "/usr/bin/rust-code-analysis-cli"
                (Main.tool_args actionInput) (parseJson 5)
                (Main.started number new_world)
              = (Ok 1%Z,
                 snd (exec_stdline [line_a] 1%Z "/usr/bin/rust-code-analysis-cli"
                        (Main.tool_args actionInput) (parseJson 5)
                        (Main.started number new_world))))
    by (vm_compute; reflexivity).
  split; [exact H|].
  destruct (Main.main_fails_with_exit_code number number_of_nat number_to_string
              JSON_parse_text js_gt_zero JSON_stringify_pretty exn_to_string
              (getOctokit_of client_ok) USER_AGENT now_iso None io_which
              exec_version (exec_stdline [line_a] 1%Z) context core_getInput
              engine_message 5 5 new_world _
              (snd (executeCheck client_ok None 5
                      (Main.check_options context actionInput
                         (now_iso (calls new_world)) "0.0.18")
                      (Main.ended number
                         (snd (exec_stdline [line_a] 1%Z
                                 "/usr/bin/rust-code-analysis-cli"
                                 (Main.tool_args actionInput) (parseJson 5)
                                 (Main.started number new_world))))))
              "secret" "src" "rust-code-analysis-cli"
              "/usr/bin/rust-code-analysis-cli" "0.0.18" 1%Z
              eq_refl eq_refl eq_refl eq_refl eq_refl H)
    as (Hfails & _).
  { vm_compute. reflexivity. }
  unfold main_on. rewrite Hfails by discriminate.
  split; [reflexivity|]. vm_compute. reflexivity.
Defined.

(** X15, in a workflow that sets no input. *)
Lemma main_missing_input_witness :
  core_getInput_unset "token" true
    = Rejects (Error "Input required and not supplied: token")
  /\ main_on core_getInput_unset (exec_stdline [line_a] 0%Z) 5 5 new_world
     = (Ok true,
        Main.written number new_world
          (ErrorEntry "Input required and not supplied: token")).
Proof.
  split; [reflexivity|].
  exact (Main.main_missing_input number number_of_nat number_to_string
           JSON_parse_text js_gt_zero JSON_stringify_pretty exn_to_string
           (getOctokit_of client_ok) USER_AGENT now_iso None io_which
           exec_version (exec_stdline [line_a] 0%Z) context core_getInput_unset
           engine_message 5 5 new_world
           (Error "Input required and not supplied: token")
           (or_introl eq_refl)).
Defined.



(** The pages of 120 pending annotations on a client that refuses every
    page: the first one is sent, its error is thrown, and the two pages
    after it are not sent. *)
Example allMetricsCheck_refused_page :
  fst (allMetricsCheck number now_iso 120 client_refusing 7%Z options (pending_world 120))
    = Throw (Rejected "Bad gateway")
  /\ List.length
       (updates number
          (calls (snd (allMetricsCheck number now_iso 120 client_refusing 7%Z options
                         (pending_world 120))))) = 1
  /\ List.length
       (expected_pages number now_iso 120 7%Z options
          (rendered_text number "0.0.18" (runner (pending_world 120)))
          (calls (pending_world 120))
          (List.rev (annotations (runner (pending_world 120))))) = 3.
Proof. repeat split; vm_compute; reflexivity. Qed.

End Examples.
